(** * Drop-into-editor controller

    A shallow embedding of
    [src/vs/editor/contrib/dropIntoEditor/browser/dropIntoEditorContribution.ts]
    (class [DropIntoEditorController]) and the properties its specification
    states about it.

    The asynchronous methods are embedded the way the JavaScript event loop
    runs them: every method is cut at its [await]s into segments that run to
    completion, a suspended segment is a [Task] stored in the state, and the
    environment decides which awaited promise settles next ([Event]).  An
    [await] of a promise that is already settled (a method that returned
    early) is not a point where another event can come in, and is not cut.
    What an external service does is done when it is called; its promise
    settles later.

    Numbers are integers: the selected index is an array index, and
    [operationIdPool] counts drops; the integer is the value of the
    JavaScript number as long as the pool stays in the range in which the
    increment of a number is exact ([exactIds]). *)

From stdpp Require Import base option list gmap strings.
From Stdlib Require Import ZArith String Ascii Lia.

Open Scope Z_scope.

(** ** Positions and ranges ([vs/editor/common/core]) *)

Record IPosition := mkPosition { lineNumber : Z; column : Z }.

Record Range := mkRange {
  startLineNumber : Z;
  startColumn : Z;
  endLineNumber : Z;
  endColumn : Z
}.

Module RangeOps.

(** Modelled from the spec: the constructor of [Range], which is not part
    of the source file.  A range is stored with its start before its end. *)
Definition create (sl sc el ec : Z) : Range :=
  if (el <? sl) || ((sl =? el) && (ec <? sc))
  then mkRange el ec sl sc
  else mkRange sl sc el ec.

(** Modelled from the spec: [Range.fromPositions(start, end = start)].  The
    controller only calls it with one argument, "the drop position
    collapsed to a point". *)
Definition fromPositions (start : IPosition) (end_ : option IPosition) : Range :=
  let e := default start end_ in
  create (lineNumber start) (column start) (lineNumber e) (column e).

Definition isEmpty (r : Range) : bool :=
  (startLineNumber r =? endLineNumber r) && (startColumn r =? endColumn r).

Definition getStartPosition (r : Range) : IPosition :=
  mkPosition (startLineNumber r) (startColumn r).

End RangeOps.

(** ** Snippets ([vs/editor/contrib/snippet/browser/snippetParser]) *)

Module SnippetParser.

Definition isDollar (c : ascii) : bool := Ascii.eqb c "$".
Definition isCurlyClose (c : ascii) : bool := Ascii.eqb c "}".
Definition isCurlyOpen (c : ascii) : bool := Ascii.eqb c "{".
Definition isBackslash (c : ascii) : bool := Ascii.eqb c "\".
Definition isColon (c : ascii) : bool := Ascii.eqb c ":".
Definition isDigit (c : ascii) : bool :=
  let n := nat_of_ascii c in (48 <=? n)%nat && (n <=? 57)%nat.

(** The characters that snippet syntax gives a meaning to in running text,
    and that therefore have to be escaped in literal text. *)
Definition needsEscape (c : ascii) : bool :=
  isDollar c || isCurlyClose c || isBackslash c.

(** Modelled from the spec: [SnippetParser.escape], which the controller
    calls but which is not part of the source file: "escaping literal text
    into snippet syntax so user-visible literal braces/dollar-signs don't
    get misinterpreted".  Every dollar sign, closing brace and backslash
    gets a backslash in front of it. *)
Fixpoint escape (value : string) : string :=
  match value with
  | EmptyString => EmptyString
  | String c rest =>
      if needsEscape c
      then String "\" (String c (escape rest))
      else String c (escape rest)
  end.

(** Modelled from the spec: what inserting a snippet template puts into the
    document ("templated insertion text supporting placeholders/tab-stops,
    distinct from literal text").  The snippet grammar is not part of the
    source file; this is the reading of a template as a left-to-right
    scanner:
    - a backslash followed by [$], [}] or a backslash stands for that
      character;
    - [$] followed by digits is a tab stop and inserts nothing;
    - [${] digits [}] is a tab stop, [${] digits [:] text [}] is a
      placeholder that inserts its (again templated) default text;
    - everything else is running text. *)
Inductive Mode :=
| InText          (* running text *)
| AfterBackslash  (* a backslash has been read *)
| AfterDollar     (* a dollar sign has been read *)
| InTabstop       (* the digits of [$12] *)
| InCurly.        (* between [${] and [:] or [}] *)

(** Modelled from the spec: one character of running text, [depth]
    placeholders being open. *)
Definition text (depth : nat) (c : ascii) : string * (Mode * nat) :=
  if isBackslash c then (EmptyString, (AfterBackslash, depth))
  else if isDollar c then (EmptyString, (AfterDollar, depth))
  else if isCurlyClose c then
    match depth with
    | O => (String c EmptyString, (InText, O))
    | S d => (EmptyString, (InText, d))
    end
  else (String c EmptyString, (InText, depth)).

(** Modelled from the spec: one step of the scanner: what is inserted for
    the character, and the mode and depth after it. *)
Definition scan (m : Mode) (depth : nat) (c : ascii) : string * (Mode * nat) :=
  match m with
  | InText => text depth c
  | AfterBackslash =>
      if needsEscape c then (String c EmptyString, (InText, depth))
      else (String "\" (String c EmptyString), (InText, depth))
  | AfterDollar =>
      if isDigit c then (EmptyString, (InTabstop, depth))
      else if isCurlyOpen c then (EmptyString, (InCurly, depth))
      else let '(out, st) := text depth c in (String "$" out, st)
  | InTabstop =>
      if isDigit c then (EmptyString, (InTabstop, depth))
      else text depth c
  | InCurly =>
      if isColon c then (EmptyString, (InText, S depth))
      else if isCurlyClose c then (EmptyString, (InText, depth))
      else (EmptyString, (InCurly, depth))
  end.

(** Modelled from the spec: a backslash or dollar sign at the very end of
    the template is text. *)
Definition flush (m : Mode) : string :=
  match m with
  | AfterBackslash => "\"%string
  | AfterDollar => "$"%string
  | _ => EmptyString
  end.

(** Modelled from the spec: the text inserted for a template read from
    mode [m] on. *)
Fixpoint expand (m : Mode) (depth : nat) (template : string) : string :=
  match template with
  | EmptyString => flush m
  | String c rest =>
      let '(out, (m', depth')) := scan m depth c in
      (out ++ expand m' depth' rest)%string
  end.

(** Modelled from the spec: the text a snippet template inserts. *)
Definition insertedText (template : string) : string := expand InText O template.

End SnippetParser.

(** ** Workspace edits and drop edits ([vs/editor/common/languages]) *)

Definition URI := string.

Record TextEdit := mkTextEdit {
  range : Range;
  text : string;
  insertAsSnippet : option bool
}.

Inductive ResourceEdit :=
| ResourceTextEdit (resource : URI) (textEdit : TextEdit)
| ResourceFileEdit (oldResource newResource : option URI).

Record WorkspaceEdit := mkWorkspaceEdit { edits : list ResourceEdit }.

(** [insertText: string | { snippet: string }] *)
Inductive InsertText :=
| LiteralText (value : string)
| SnippetText (snippet : string).

Record DocumentOnDropEdit := mkDropEdit {
  label : string;
  insertText : InsertText;
  additionalEdit : option WorkspaceEdit
}.

(** [allEdits[selectedEditIndex]]: [undefined] outside of the array. *)
Definition at_index {A} (l : list A) (i : Z) : option A :=
  if i <? 0 then None else l !! Z.to_nat i.

(** Line 145. *)
Definition snippetOf (edit : DocumentOnDropEdit) : string :=
  match insertText edit with
  | LiteralText value => SnippetParser.escape value
  | SnippetText snippet => snippet
  end.

(** Lines 148-152. *)
Definition primaryEdit (uri : URI) (position : IPosition) (edit : DocumentOnDropEdit) : ResourceEdit :=
  ResourceTextEdit uri
    {| range := RangeOps.fromPositions position None;
       text := snippetOf edit;
       insertAsSnippet := Some true |}.

(** Lines 146-155: [edit.additionalEdit?.edits ?? []] spread after the
    primary edit. *)
Definition combinedWorkspaceEdit (uri : URI) (position : IPosition) (edit : DocumentOnDropEdit) : WorkspaceEdit :=
  {| edits := primaryEdit uri position edit
              :: match additionalEdit edit with
                 | Some additional => edits additional
                 | None => []
                 end |}.

(** ** The collaborators of the controller

    The bulk edit service, the drag-and-drop helpers of [vs/editor/browser/dnd]
    and the way the text model moves decorations are not part of the source
    file; they are parameters ([Host]), and the controller is verified
    against any implementation of them. *)

Inductive BulkOutcome (D : Type) :=
| BulkApplied (d : D)      (* [isApplied: true], with the new document *)
| BulkNotApplied           (* [isApplied: false] *)
| BulkFailed.              (* the promise is rejected *)
Arguments BulkApplied {D} d.
Arguments BulkNotApplied {D}.
Arguments BulkFailed {D}.

Class Host := {
  (** the text of the documents a workspace edit can change *)
  Doc : Type;
  (** the value stored under a mime type *)
  DataTransferItem : Type;
  (** the browser's [DragEvent] and its [DataTransfer] object *)
  DragEvent : Type;
  DataTransfer : Type;
  dataTransfer : DragEvent -> option DataTransfer;
  toVSDataTransfer : DataTransfer -> gmap string DataTransferItem;
  addExternalEditorsDropData :
    gmap string DataTransferItem -> DragEvent -> gmap string DataTransferItem;
  (** [IBulkEditService.apply], given the edit, whether the token passed to
      it has been cancelled, and the documents *)
  bulkEdit : WorkspaceEdit -> bool -> Doc -> BulkOutcome Doc;
  (** how the decorations of the model follow an applied edit *)
  trackRanges : WorkspaceEdit -> Doc -> gmap nat Range -> gmap nat Range
}.

(** [VSDataTransfer]: "a mapping from mime-type string to payload value,
    size = number of entries". *)
Abbreviation VSDataTransfer := (gmap string DataTransferItem).

Section Controller.
Context `{host : Host}.

Definition dt_size (d : VSDataTransfer) : nat := size d.

(** Modelled from the spec: [VSDataTransfer.has], a mime type "is present as
    a key in the payload". *)
Definition dt_has (d : VSDataTransfer) (mime : string) : bool :=
  bool_decide (is_Some (d !! mime)).

(** [ProviderResult<DocumentOnDropEdit>], once its promise has settled. *)
Inductive ProviderResult :=
| Resolved (edit : option DocumentOnDropEdit)
| Rejected.

Record DocumentOnDropEditProvider := mkProvider {
  dropMimeTypes : option (list string);
  provideDocumentOnDropEdits : URI -> Doc -> IPosition -> VSDataTransfer -> ProviderResult
}.

(** The [onDidSelectEdit] callback of lines 174-177 with what it captures. *)
Record SelectEditCallback := mkCallback {
  cb_model : URI;
  cb_position : IPosition;
  cb_allEdits : list DocumentOnDropEdit;
  cb_token : Z
}.

(** What [PostDropWidgetManager.show] is given. *)
Record PostDropWidget := mkWidget {
  w_range : Range;
  activeEditIndex : Z;
  allEdits : list DocumentOnDropEdit;
  onDidSelectEdit : SelectEditCallback
}.

(** A suspended [await]. *)
Inductive Task :=
| AwaitExtract (operationId : Z) (position : IPosition) (ourDataTransfer : VSDataTransfer)
    (* line 80 *)
| AwaitProviders (operationId : Z) (position : IPosition) (results : list ProviderResult)
    (* line 100 *)
| AwaitApply (operation : option Z) (model : URI) (position : IPosition)
    (selectedEditIndex : Z) (edits_ : list DocumentOnDropEdit) (token : Z)
    (editTrackingDecoration : nat) (editResult : option bool)
    (* line 163; [operation] is the drop operation that awaits it at line 109,
       [editResult] is [None] when the bulk edit was rejected *)
| AwaitUndo (callback : SelectEditCallback) (newEditIndex : Z).
    (* line 175 *)

(** What the collaborators have been asked to do, newest first. *)
Inductive Effect :=
| ProviderInvoked (provider : DocumentOnDropEditProvider) (token : Z)
| BulkEditRequested (edit : WorkspaceEdit) (token : Z)
| UndoRequested (token : Z)
| WidgetShown (widget : PostDropWidget).

(** [EditorStateCancellationTokenSource] of line 73 together with its parent,
    the token of [createCancelablePromise]. *)
Record TokenSource := mkSource {
  parentRequested : bool;   (* [token.isCancellationRequested] *)
  requested : bool;         (* [tokenSource.token.isCancellationRequested] *)
  disposed : bool
}.

Record Controller := mkController {
  operationIdPool : Z;
  _currentOperation : option Z;
  _dropProgressManager : option (IPosition * Z);
      (* [_dropProgressManager]: where it is shown, and the operation whose
         token source its cancel action cancels *)
  _postDropWidgetManager : option PostDropWidget
}.

Record Editor := mkEditor {
  editorModel : option URI;
  focused : bool;
  cursor : option IPosition;
  showDropSelector : string
}.

Record TextModel := mkModel {
  content : Doc;
  undoStack : list Doc;
  decorations : gmap nat Range;
  decorationIdPool : nat
}.

Record State := mkState {
  controller : Controller;
  editor : Editor;
  registry : URI -> list DocumentOnDropEditProvider;
      (* [documentOnDropEditProvider.ordered(model)] *)
  document : TextModel;
  sources : gmap Z TokenSource;
  tasks : list Task;
  effects : list Effect
}.

Definition with_controller (f : Controller -> Controller) (s : State) : State :=
  mkState (f (controller s)) (editor s) (registry s) (document s) (sources s) (tasks s) (effects s).
Definition with_editor (f : Editor -> Editor) (s : State) : State :=
  mkState (controller s) (f (editor s)) (registry s) (document s) (sources s) (tasks s) (effects s).
Definition with_document (f : TextModel -> TextModel) (s : State) : State :=
  mkState (controller s) (editor s) (registry s) (f (document s)) (sources s) (tasks s) (effects s).
Definition with_sources (f : gmap Z TokenSource -> gmap Z TokenSource) (s : State) : State :=
  mkState (controller s) (editor s) (registry s) (document s) (f (sources s)) (tasks s) (effects s).
Definition with_tasks (f : list Task -> list Task) (s : State) : State :=
  mkState (controller s) (editor s) (registry s) (document s) (sources s) (f (tasks s)) (effects s).
Definition log (e : Effect) (s : State) : State :=
  mkState (controller s) (editor s) (registry s) (document s) (sources s) (tasks s) (e :: effects s).

(** *** Cancellation

    The token sources of [vs/base/common/cancellation], [vs/base/common/async]
    and [editorState] are not part of the source file. *)

(** Modelled from the spec: [tokenSource.cancel()], "an explicit shared
    cancellation-flag object". *)
Definition cancelSource (src : TokenSource) : TokenSource :=
  mkSource (parentRequested src) true (disposed src).

(** Modelled from the spec: [promise.cancel()] of a cancelable promise;
    "composing two cancellation sources = either-fires-propagates": the token
    of the promise fires, and with it the token source that has it as its
    parent, unless that has been disposed of. *)
Definition cancelPromise (src : TokenSource) : TokenSource :=
  mkSource true (if disposed src then requested src else true) (disposed src).

(** Modelled from the spec: [tokenSource.dispose()]; the source stops
    listening, its token keeps its state. *)
Definition disposeSource (src : TokenSource) : TokenSource :=
  mkSource (parentRequested src) (requested src) true.

(** Modelled from the spec: [EditorStateCancellationTokenSource] with the
    flag [Value], "a derived cancellation token that fires when specified
    editor state flags change": a change of the editor's model or of its
    content cancels every token source that still listens. *)
Definition onEditorChange (src : TokenSource) : TokenSource :=
  if disposed src then src else cancelSource src.

Definition editorStateChanged (s : State) : State :=
  with_sources (fmap onEditorChange) s.

Definition isCancellationRequested (operationId : Z) (s : State) : bool :=
  match sources s !! operationId with
  | Some src => requested src
  | None => false
  end.

Definition isParentCancellationRequested (operationId : Z) (s : State) : bool :=
  match sources s !! operationId with
  | Some src => parentRequested src
  | None => false
  end.

(** *** The inline progress manager, the widget manager and the editor *)

(** Modelled from the spec: [InlineProgressManager.clear], the progress
    indicator "exposes showAt(position, label, {onCancel}) / clear()". *)
Definition progress_clear (s : State) : State :=
  with_controller (fun c =>
    mkController (operationIdPool c) (_currentOperation c) None (_postDropWidgetManager c)) s.

(** Modelled from the spec: [InlineProgressManager.setAtPosition]; the
    cancel action it is given cancels the token source of [operationId]. *)
Definition progress_setAtPosition (position : IPosition) (operationId : Z) (s : State) : State :=
  with_controller (fun c =>
    mkController (operationIdPool c) (_currentOperation c) (Some (position, operationId))
      (_postDropWidgetManager c)) s.

Definition set_currentOperation (o : option Z) (s : State) : State :=
  with_controller (fun c =>
    mkController (operationIdPool c) o (_dropProgressManager c) (_postDropWidgetManager c)) s.

Definition set_operationIdPool (n : Z) (s : State) : State :=
  with_controller (fun c =>
    mkController n (_currentOperation c) (_dropProgressManager c) (_postDropWidgetManager c)) s.

(** Modelled from the spec: [PostDropWidgetManager.show], the picker "exposes
    show(range, {activeIndex, allCandidates}, onSelect)". *)
Definition widget_show (w : PostDropWidget) (s : State) : State :=
  log (WidgetShown w)
    (with_controller (fun c =>
       mkController (operationIdPool c) (_currentOperation c) (_dropProgressManager c) (Some w)) s).

Definition hasModel (s : State) : bool := bool_decide (is_Some (editorModel (editor s))).

Definition editor_focus (s : State) : State :=
  with_editor (fun e => mkEditor (editorModel e) true (cursor e) (showDropSelector e)) s.

Definition editor_setPosition (position : IPosition) (s : State) : State :=
  with_editor (fun e => mkEditor (editorModel e) (focused e) (Some position) (showDropSelector e)) s.

(** *** The text model and the bulk edit service *)

(** Modelled from the spec: [model.deltaDecorations([], [{ range, ... }])],
    "create/query/remove range markers"; markers are numbered. *)
Definition addDecoration (r : Range) (s : State) : State * nat :=
  let id := decorationIdPool (document s) in
  (with_document (fun m =>
     mkModel (content m) (undoStack m) (<[id := r]> (decorations m)) (S id)) s, id).

(** Modelled from the spec: [model.getDecorationRange]; [null] when the
    marker is gone. *)
Definition getDecorationRange (id : nat) (s : State) : option Range :=
  decorations (document s) !! id.

(** Modelled from the spec: [model.deltaDecorations(ids, [])]. *)
Definition removeDecoration (id : nat) (s : State) : State :=
  with_document (fun m =>
    mkModel (content m) (undoStack m) (delete id (decorations m)) (decorationIdPool m)) s.

(** Modelled from the spec: [model.undo()], "an undo operation that reverts
    exactly one previously applied edit group".  Applied edit groups are
    kept as the stack of the documents they were applied to. *)
Definition model_undo (s : State) : State :=
  match undoStack (document s) with
  | [] => s
  | d :: older =>
      editorStateChanged
        (with_document (fun m => mkModel d older (decorations m) (decorationIdPool m)) s)
  end.

(** Modelled from the spec: [IBulkEditService.apply], "apply(combined_edit,
    {document_context, cancellation_token}) -> {isApplied: bool}; assumed
    atomic per call".  What the edit does to the text is the host's
    [bulkEdit]; an applied edit is one undo group and a change of content. *)
Definition bulkEditService_apply (edit : WorkspaceEdit) (token : Z) (s : State)
  : State * option bool :=
  let s := log (BulkEditRequested edit token) s in
  match bulkEdit edit (isParentCancellationRequested token s) (content (document s)) with
  | BulkApplied d =>
      (editorStateChanged
         (with_document (fun m =>
            mkModel d (content m :: undoStack m)
              (trackRanges edit (content m) (decorations m)) (decorationIdPool m)) s),
       Some true)
  | BulkNotApplied => (s, Some false)
  | BulkFailed => (s, None)
  end.

(** ** The controller *)

(** Lines 124-132. *)
Definition extractDataTransferData (dragEvent : DragEvent) : VSDataTransfer :=
  match dataTransfer dragEvent with
  | None => ∅
  | Some native => addExternalEditorsDropData (toVSDataTransfer native) dragEvent
  end.

(** The predicate of the [filter] of lines 92-98. *)
Definition keepProvider (ourDataTransfer : VSDataTransfer) (provider : DocumentOnDropEditProvider) : bool :=
  match dropMimeTypes provider with
  | None => true
  | Some mimes => existsb (fun mime => dt_has ourDataTransfer mime) mimes
  end.

(** Modelled from the spec: [coalesce] of [vs/base/common/arrays], "dropping
    null/empty results, preserving provider order": the elements that are
    not [undefined] or [null], in their order. *)
Fixpoint coalesce {A} (array : list (option A)) : list A :=
  match array with
  | [] => []
  | Some e :: rest => e :: coalesce rest
  | None :: rest => coalesce rest
  end.

(** [Promise.all]: the values in order, or a rejection ([None]) if one of
    the promises is rejected. *)
Fixpoint promiseAll (results : list ProviderResult) : option (list (option DocumentOnDropEdit)) :=
  match results with
  | [] => Some []
  | Resolved e :: rest =>
      match promiseAll rest with
      | Some values => Some (e :: values)
      | None => None
      end
  | Rejected :: _ => None
  end.

Inductive Settled (A : Type) :=
| Fulfilled (value : A)
| Failed.
Arguments Fulfilled {A} value.
Arguments Failed {A}.

(** Modelled from the spec: [raceCancellation(promise, token)] of
    [vs/base/common/async], "if the token fires while providers are still
    running, abandon waiting and produce no result": [undefined] if the token
    fires before the promise settles ([cancelledFirst]), the outcome of the
    promise otherwise. *)
Definition raceCancellation {A} (promise : option A) (cancelledFirst : bool) : Settled (option A) :=
  if cancelledFirst then Fulfilled None
  else match promise with
       | Some value => Fulfilled (Some value)
       | None => Failed
       end.

(** How a segment of an asynchronous method ends. *)
Inductive Completion :=
| Suspended (t : Task)   (* at an [await] *)
| Returned
| Thrown.

Definition logInvocations (providers : list DocumentOnDropEditProvider) (token : Z) (s : State) : State :=
  foldl (fun s provider => log (ProviderInvoked provider token) s) s providers.

(** Lines 134-163 of [applyDropResult], up to its [await]. *)
Definition applyDropResult (operation : option Z) (position : IPosition) (selectedEditIndex : Z)
    (allEdits_ : list DocumentOnDropEdit) (token : Z) (s : State) : State * Completion :=
  match editorModel (editor s) with
  | None => (s, Returned)
  | Some model =>
      match at_index allEdits_ selectedEditIndex with
      | None => (s, Returned)
      | Some edit =>
          let combined := combinedWorkspaceEdit model position edit in
          let '(s, editTrackingDecoration) :=
            addDecoration (RangeOps.fromPositions position None) s in
          let '(s, editResult) := bulkEditService_apply combined token s in
          (s, Suspended (AwaitApply operation model position selectedEditIndex allEdits_
                           token editTrackingDecoration editResult))
      end
  end.

(** Lines 165-179 of [applyDropResult], after its [await]. *)
Definition resumeApply (model : URI) (position : IPosition) (selectedEditIndex : Z)
    (allEdits_ : list DocumentOnDropEdit) (token : Z) (editTrackingDecoration : nat)
    (editResult : option bool) (s : State) : State * Completion :=
  match editResult with
  | None => (s, Thrown)
  | Some isApplied =>
      let editRange := getDecorationRange editTrackingDecoration s in
      let s := removeDecoration editTrackingDecoration s in
      if isApplied && (1 <? Z.of_nat (List.length allEdits_)) then
        if String.eqb (showDropSelector (editor s)) "afterDrop"%string then
          (widget_show
             {| w_range := default (RangeOps.fromPositions position None) editRange;
                activeEditIndex := selectedEditIndex;
                allEdits := allEdits_;
                onDidSelectEdit := mkCallback model position allEdits_ token |} s,
           Returned)
        else (s, Returned)
      else (s, Returned)
  end.

(** Lines 174-175: the callback given to the widget, up to its [await]. *)
Definition selectEdit (callback : SelectEditCallback) (newEditIndex : Z) (s : State)
  : State * Completion :=
  (log (UndoRequested (cb_token callback)) (model_undo s),
   Suspended (AwaitUndo callback newEditIndex)).

(** Line 176. *)
Definition resumeUndo (callback : SelectEditCallback) (newEditIndex : Z) (s : State)
  : State * Completion :=
  applyDropResult None (cb_position callback) newEditIndex (cb_allEdits callback)
    (cb_token callback) s.

(** Lines 81-102, after the [await] of line 80. *)
Definition resumeExtract (operationId : Z) (position : IPosition)
    (ourDataTransfer : VSDataTransfer) (s : State) : State * Completion :=
  if (dt_size ourDataTransfer =? 0)%nat || isCancellationRequested operationId s then
    (s, Returned)
  else
    match editorModel (editor s) with
    | None => (s, Returned)
    | Some model =>
        let providers := List.filter (keepProvider ourDataTransfer) (registry s model) in
        let results :=
          map (fun provider =>
                 provideDocumentOnDropEdits provider model (content (document s))
                   position ourDataTransfer) providers in
        (logInvocations providers operationId s,
         Suspended (AwaitProviders operationId position results))
    end.

(** Lines 103-110, after the [await] of line 100. *)
Definition resumeProviders (operationId : Z) (position : IPosition)
    (results : list ProviderResult) (cancelledFirst : bool) (s : State) : State * Completion :=
  match raceCancellation (promiseAll results) cancelledFirst with
  | Failed => (s, Thrown)
  | Fulfilled possibleDropEdits =>
      if isCancellationRequested operationId s then (s, Returned)
      else
        match possibleDropEdits with
        | Some values =>
            applyDropResult (Some operationId) position 0 (coalesce values) operationId s
        | None => (s, Returned)
        end
  end.

(** Lines 111-118. *)
Definition finallyBlock (operationId : Z) (s : State) : State :=
  let s := with_sources (alter disposeSource operationId) s in
  if bool_decide (_currentOperation (controller s) = Some operationId)
  then set_currentOperation None (progress_clear s)
  else s.

(** A segment has run: a suspended [await] is queued; when the body of the
    drop operation [operation] has returned or thrown, its [finally] block
    runs. *)
Definition complete (operation : option Z) (r : State * Completion) : State :=
  match r with
  | (s, Suspended t) => with_tasks (fun ts => ts ++ [t]) s
  | (s, _) =>
      match operation with
      | Some operationId => finallyBlock operationId s
      | None => s
      end
  end.

(** The drop operation whose body a task belongs to: the one whose
    [finally] block runs when the task's continuation returns or throws. *)
Definition taskOperation (t : Task) : option Z :=
  match t with
  | AwaitExtract operationId _ _ => Some operationId
  | AwaitProviders operationId _ _ => Some operationId
  | AwaitApply operation _ _ _ _ _ _ _ => operation
  | AwaitUndo _ _ => None
  end.

(** The code that runs when the promise a task awaits has settled, up to the
    next [await], [return] or [throw]. *)
Definition segment (t : Task) (cancelledFirst : bool) (s : State) : State * Completion :=
  match t with
  | AwaitExtract operationId position ourDataTransfer =>
      resumeExtract operationId position ourDataTransfer s
  | AwaitProviders operationId position results =>
      resumeProviders operationId position results cancelledFirst s
  | AwaitApply _ model position selectedEditIndex allEdits_ token dec editResult =>
      resumeApply model position selectedEditIndex allEdits_ token dec editResult s
  | AwaitUndo callback newEditIndex =>
      resumeUndo callback newEditIndex s
  end.

Definition resume (t : Task) (cancelledFirst : bool) (s : State) : State :=
  complete (taskOperation t) (segment t cancelledFirst s).

(** Line 64. *)
Definition cancelCurrentOperation (s : State) : State :=
  match _currentOperation (controller s) with
  | Some operationId => with_sources (alter cancelPromise operationId) s
  | None => s
  end.

(** Lines 59-122; the callback of [createCancelablePromise] runs at once, up
    to its first [await].  The id pool is an integer here: [operationId + 1]
    is the value that [operationIdPool++] leaves in the pool as long as the
    pool is below 2^53 (see [exactIds]); beyond that the increment of a
    JavaScript number is no longer exact and the code would hand out an id
    twice. *)
Definition onDropIntoEditor (position : IPosition) (dragEvent : DragEvent) (s : State) : State :=
  if negb (bool_decide (is_Some (dataTransfer dragEvent))) || negb (hasModel s) then s
  else
    let s := cancelCurrentOperation s in
    let s := progress_clear s in
    let s := editor_focus s in
    let s := editor_setPosition position s in
    let operationId := operationIdPool (controller s) in
    let s := set_operationIdPool (operationId + 1) s in
    let s := with_sources (insert operationId (mkSource false false false)) s in
    let s := progress_setAtPosition position operationId s in
    let ourDataTransfer := extractDataTransferData dragEvent in
    let s := with_tasks (fun ts => ts ++ [AwaitExtract operationId position ourDataTransfer]) s in
    set_currentOperation (Some operationId) s.

(** ** The event loop *)

Inductive Event :=
| DropIntoEditor (position : IPosition) (dragEvent : DragEvent)
    (* [editor.onDropIntoEditor] fires (line 54) *)
| Settle (n : nat) (cancelledFirst : bool)
    (* the promise that task [n] awaits settles *)
| ClickCancel
    (* the cancel action of the progress indicator (line 76) *)
| ModelChanged (model : option URI)
    (* the editor is given another model, or none *)
| ContentChanged (d : Doc)
    (* the document is edited by someone else *)
| OptionChanged (value : string)
    (* the setting [showDropSelector] is changed *)
| SelectEdit (newEditIndex : Z).
    (* the user picks an edit in the post-drop widget; the widget calls back
       "when the user selects a different candidate index" *)

Definition step (e : Event) (s : State) : State :=
  match e with
  | DropIntoEditor position dragEvent => onDropIntoEditor position dragEvent s
  | Settle n cancelledFirst =>
      match tasks s !! n with
      | Some t => resume t cancelledFirst (with_tasks (delete n) s)
      | None => s
      end
  | ClickCancel =>
      match _dropProgressManager (controller s) with
      | Some (_, operationId) => with_sources (alter cancelSource operationId) s
      | None => s
      end
  | ModelChanged model =>
      editorStateChanged
        (with_editor (fun e => mkEditor model (focused e) (cursor e) (showDropSelector e)) s)
  | ContentChanged d =>
      editorStateChanged
        (with_document (fun m =>
           mkModel d (content m :: undoStack m) (decorations m) (decorationIdPool m)) s)
  | OptionChanged value =>
      with_editor (fun e => mkEditor (editorModel e) (focused e) (cursor e) value) s
  | SelectEdit newEditIndex =>
      match _postDropWidgetManager (controller s) with
      | Some w =>
          if newEditIndex =? activeEditIndex w then s
          else complete None (selectEdit (onDidSelectEdit w) newEditIndex s)
      | None => s
      end
  end.

Definition run (events : list Event) (s : State) : State :=
  foldl (fun s e => step e s) s events.

(** The secondary edits of a candidate, [edit.additionalEdit?.edits ?? []]. *)
Definition additionalEdits (edit : DocumentOnDropEdit) : list ResourceEdit :=
  from_option edits [] (additionalEdit edit).

(** The widget that lines 171-177 show. *)
Definition widgetFor (model : URI) (position : IPosition) (i : Z) (es : list DocumentOnDropEdit)
    (token : Z) (editRange : option Range) : PostDropWidget :=
  {| w_range := default (RangeOps.fromPositions position None) editRange;
     activeEditIndex := i;
     allEdits := es;
     onDidSelectEdit := mkCallback model position es token |}.


(** ** The fan-out as the specification words it

    "Keep a provider if it declares no mime-type filter, OR if at least one
    of its declared mime-types is present as a key in the payload"; "flatten
    provider results into one ordered list, dropping null/empty results,
    preserving provider order". *)

Definition interested (payload : VSDataTransfer) (provider : DocumentOnDropEditProvider) : Prop :=
  match dropMimeTypes provider with
  | None => True
  | Some mimes => ∃ mime, mime ∈ mimes ∧ is_Some (payload !! mime)
  end.

Inductive Candidates (payload : VSDataTransfer)
    (result : DocumentOnDropEditProvider -> option DocumentOnDropEdit)
  : list DocumentOnDropEditProvider -> list DocumentOnDropEdit -> Prop :=
| candidates_none :
    Candidates payload result [] []
| candidates_filtered provider providers es :
    ¬ interested payload provider ->
    Candidates payload result providers es ->
    Candidates payload result (provider :: providers) es
| candidates_null provider providers es :
    interested payload provider ->
    result provider = None ->
    Candidates payload result providers es ->
    Candidates payload result (provider :: providers) es
| candidates_edit provider providers e es :
    interested payload provider ->
    result provider = Some e ->
    Candidates payload result providers es ->
    Candidates payload result (provider :: providers) (e :: es).

(** The edit a settled provider promise carries. *)
Definition resolvedEdit (r : ProviderResult) : option DocumentOnDropEdit :=
  match r with
  | Resolved e => e
  | Rejected => None
  end.

(** ** Which operation a task, a widget or an effect works for

    Every task carries the token of the drop operation it descends from: the
    operation itself while it extracts and fans out, then the token that is
    handed to [applyDropResult] and captured by the widget's callback. *)

Definition taskToken (t : Task) : Z :=
  match t with
  | AwaitExtract operationId _ _ => operationId
  | AwaitProviders operationId _ _ => operationId
  | AwaitApply _ _ _ _ _ token _ _ => token
  | AwaitUndo callback _ => cb_token callback
  end.

(** The tasks of an operation that has not yet reached [applyDropResult]. *)
Definition beforeApply (t : Task) : bool :=
  match t with
  | AwaitExtract _ _ _ | AwaitProviders _ _ _ => true
  | AwaitApply _ _ _ _ _ _ _ _ | AwaitUndo _ _ => false
  end.

Definition widgetToken (s : State) : option Z :=
  match _postDropWidgetManager (controller s) with
  | Some w => Some (cb_token (onDidSelectEdit w))
  | None => None
  end.

(** The token of an edit, of an undo or of a widget. *)
Definition effectToken (e : Effect) : option Z :=
  match e with
  | ProviderInvoked _ _ => None
  | BulkEditRequested _ token => Some token
  | UndoRequested token => Some token
  | WidgetShown w => Some (cb_token (onDidSelectEdit w))
  end.

(** Operation [operationId] has not applied anything: its tasks are still
    before the apply step, no widget offers its candidates, and no edit, undo
    or widget has been requested with its token. *)
Definition notApplied (operationId : Z) (s : State) : Prop :=
  (forall t, t ∈ tasks s -> taskToken t = operationId -> beforeApply t = true)
  /\ widgetToken s <> Some operationId
  /\ (forall e, e ∈ effects s -> effectToken e <> Some operationId).

(** Operation [operationId] has been started, has not applied anything and
    its token has fired. *)
Definition cancelledBeforeApply (operationId : Z) (s : State) : Prop :=
  operationId < operationIdPool (controller s)
  /\ isCancellationRequested operationId s = true
  /\ notApplied operationId s.

(** A controller that has not handled any drop yet. *)
Definition initial (s : State) : Prop :=
  tasks s = [] /\ _postDropWidgetManager (controller s) = None /\ effects s = [].

(** What holds of every state the controller reaches: tokens are
    operation ids that have been handed out, and an operation that is still
    before its apply step has one task and has not applied anything. *)
Definition sameToken (operationId : Z) (t : Task) : bool := taskToken t =? operationId.

Definition wellFormed (s : State) : Prop :=
  (forall t, t ∈ tasks s -> taskToken t < operationIdPool (controller s))
  /\ (forall id, widgetToken s = Some id -> id < operationIdPool (controller s))
  /\ (forall e id, e ∈ effects s -> effectToken e = Some id ->
                   id < operationIdPool (controller s))
  /\ (forall t, t ∈ tasks s -> beforeApply t = true ->
        notApplied (taskToken t) s
        /\ List.filter (sameToken (taskToken t)) (tasks s) = [t]).

(** ** The bookkeeping of the controller

    What the slot, the progress indicator and the token sources have to do
    with each other in the states the controller reaches. *)

(** A controller that has not handled any drop yet: nothing is pending, no
    operation is current and no progress indicator is shown. *)
Definition pristine (s : State) : Prop :=
  initial s
  /\ _currentOperation (controller s) = None
  /\ _dropProgressManager (controller s) = None.

(** The token source of [operationId] is there, still listens, and has
    fired if its parent has. *)
Definition liveSource (operationId : Z) (s : State) : Prop :=
  exists src,
    sources s !! operationId = Some src
    /\ disposed src = false
    /\ (parentRequested src = true -> requested src = true).

Definition coherent (s : State) : Prop :=
  (forall p id, _dropProgressManager (controller s) = Some (p, id) ->
                _currentOperation (controller s) = Some id)
  /\ (forall id, _currentOperation (controller s) = Some id ->
        (exists p, _dropProgressManager (controller s) = Some (p, id))
        /\ exists t, t ∈ tasks s /\ taskOperation t = Some id)
  /\ (forall t, t ∈ tasks s -> beforeApply t = true -> liveSource (taskToken t) s)
  /\ (forall t, t ∈ tasks s -> beforeApply t = true ->
        _currentOperation (controller s) <> Some (taskToken t) ->
        isCancellationRequested (taskToken t) s = true)
  /\ (forall t op, t ∈ tasks s -> taskOperation t = Some op -> taskToken t = op).

(** A widget that offers several candidates, marks one of them as applied,
    and whose callback has captured the list it shows. *)
Definition validWidget (w : PostDropWidget) : Prop :=
  (1 < List.length (allEdits w))%nat
  /\ is_Some (at_index (allEdits w) (activeEditIndex w))
  /\ cb_allEdits (onDidSelectEdit w) = allEdits w.

(** A bulk edit that is awaited was requested for a candidate of its list. *)
Definition validTask (t : Task) : Prop :=
  match t with
  | AwaitApply _ _ _ selectedEditIndex allEdits_ _ _ _ =>
      is_Some (at_index allEdits_ selectedEditIndex)
  | _ => True
  end.

(** What holds of the widgets and of the awaited bulk edits of every state
    the controller reaches. *)
Definition widgetsValid (s : State) : Prop :=
  (forall t, t ∈ tasks s -> validTask t)
  /\ (forall w, _postDropWidgetManager (controller s) = Some w -> validWidget w)
  /\ (forall w, WidgetShown w ∈ effects s -> validWidget w).

(** Every token source that has not been disposed of belongs to an
    operation whose body has not ended. *)
Definition sourcesOwned (s : State) : Prop :=
  forall id src, sources s !! id = Some src -> disposed src = false ->
                 exists t, t ∈ tasks s /\ taskOperation t = Some id.

(** [operationIdPool] is a JavaScript number, modelled by an integer: the
    sum [operationId + 1] of [onDropIntoEditor] is what [operationIdPool++]
    (line 70) computes as long as the pool is a non-negative integer not
    above 2^53, the range in which the increment of a number is exact. *)
Definition exactIds (s : State) : Prop :=
  0 <= operationIdPool (controller s) <= 2 ^ 53.



End Controller.

(** ** A small host to run the controller on *)

Module Demo.

(** Every text edit appends its text to the document; a cancelled token
    makes the service give up. *)
Definition appendEdit (d : string) (e : ResourceEdit) : string :=
  match e with
  | ResourceTextEdit _ te => (d ++ text te)%string
  | ResourceFileEdit _ _ => d
  end.

Definition demoBulkEdit (edit : WorkspaceEdit) (cancelled : bool) (d : string)
  : BulkOutcome string :=
  if cancelled then BulkNotApplied else BulkApplied (foldl appendEdit d (edits edit)).

Definition demoHost : Host :=
  {| Doc := string;
     DataTransferItem := string;
     DragEvent := option (list (string * string));
     DataTransfer := list (string * string);
     dataTransfer := fun e => e;
     toVSDataTransfer := fun native => list_to_map native;
     addExternalEditorsDropData := fun d _ => d;
     bulkEdit := demoBulkEdit;
     trackRanges := fun _ _ ranges => ranges |}.

#[local] Existing Instance demoHost.

Definition plain : DocumentOnDropEdit :=
  mkDropEdit "Insert text" (LiteralText "cost: $1 {}") None.
Definition link : DocumentOnDropEdit :=
  mkDropEdit "Insert link" (SnippetText "[${1:title}](path)")
    (Some (mkWorkspaceEdit [ResourceFileEdit None (Some "file:///copy.png"%string)])).
Definition image : DocumentOnDropEdit :=
  mkDropEdit "Insert image" (LiteralText "img") None.

Definition P1 : DocumentOnDropEditProvider :=
  mkProvider (Some ["text/plain"%string]) (fun _ _ _ _ => Resolved (Some plain)).
Definition P2 : DocumentOnDropEditProvider :=
  mkProvider None (fun _ _ _ _ => Resolved (Some link)).
Definition P3 : DocumentOnDropEditProvider :=
  mkProvider (Some ["image/png"%string]) (fun _ _ _ _ => Resolved (Some image)).
Definition P4 : DocumentOnDropEditProvider :=
  mkProvider (Some ["text/plain"%string; "text/uri-list"%string]) (fun _ _ _ _ => Resolved None).

Definition file : URI := "file:///notes.md"%string.
Definition here : IPosition := mkPosition 3 7.

Definition textDrop : DragEvent := Some [("text/plain"%string, "dropped"%string)].
Definition emptyDrop : DragEvent := Some [].
Definition noData : DragEvent := None.

Definition payload : VSDataTransfer := extractDataTransferData textDrop.

Definition providers (_ : URI) : list DocumentOnDropEditProvider := [P1; P3; P4; P2].

(** An editor with a model and nothing in flight. *)
Definition idle : State :=
  mkState (mkController 0 None None None)
          (mkEditor (Some file) false None "afterDrop"%string)
          (fun _ => [P1; P3; P4; P2])
          (mkModel "abc"%string [] ∅ 0)
          ∅ [] [].

(** The same editor without a model, while an older operation is still
    shown as running. *)
Definition closed : State :=
  mkState (mkController 5 (Some 4) (Some (here, 4)) None)
          (mkEditor None false None "afterDrop"%string)
          (fun _ => [P1; P3; P4; P2])
          (mkModel "abc"%string [] ∅ 0)
          {[ 4 := mkSource false false false ]} [] [].

(** One drop; the same once the payload has been extracted and the
    providers have been asked; and a second drop at that moment. *)
Definition dropped : State := step (DropIntoEditor here textDrop) idle.
Definition asked : State := step (Settle 0 false) dropped.
Definition droppedAgain : State := step (DropIntoEditor here textDrop) asked.

(** The first operation when its payload has arrived. *)
Definition fetching : State :=
  mkState (mkController 1 (Some 0) (Some (here, 0)) None)
          (mkEditor (Some file) true (Some here) "afterDrop"%string)
          providers
          (mkModel "abc"%string [] ∅ 0)
          {[ 0 := mkSource false false false ]} [] [].

(** The task of the first operation in [droppedAgain], and the state in
    which it is taken up: the second operation is the current one. *)
Definition firstTask : Task :=
  AwaitProviders 0 here [Resolved (Some plain); Resolved None; Resolved (Some link)].
Definition superseded : State :=
  mkState (mkController 2 (Some 1) (Some (here, 1)) None)
          (mkEditor (Some file) true (Some here) "afterDrop"%string)
          providers
          (mkModel "abc"%string [] ∅ 0)
          {[ 0 := mkSource true true false; 1 := mkSource false false false ]}
          [AwaitExtract 1 here payload] [].

(** Applying the first of two candidates, and the widget that follows. *)
Definition candidates : list DocumentOnDropEdit := [plain; link].
Definition firstApply : State * Completion :=
  applyDropResult (Some 0) here 0 candidates 0 idle.
Definition shown : State * Completion :=
  resumeApply file here 0 candidates 0 0%nat (Some true) firstApply.1.
Definition picker : PostDropWidget :=
  widgetFor file here 0 candidates 0 (Some (mkRange 3 7 3 7)).

(** A run in which the providers of the first drop have answered; the same
    when the first candidate has been applied and the widget is shown; and
    the same when a second drop, elsewhere in the document, has arrived
    before the bulk edit has answered. *)
Definition there : IPosition := mkPosition 5 1.
Abbreviation answered := (run [DropIntoEditor here textDrop; Settle 0 false] idle).
Abbreviation offered := (run [Settle 0 false] (step (Settle 0 false) answered)).
Abbreviation offeredLate :=
  (run [DropIntoEditor there textDrop; Settle 0 false] (step (Settle 0 false) answered)).

End Demo.

(** * Properties *)

(** ** Ranges and snippets *)

Lemma fromPositions_collapsed (position : IPosition) :
  RangeOps.fromPositions position None
  = mkRange (lineNumber position) (column position) (lineNumber position) (column position).
Proof.
  unfold RangeOps.fromPositions, RangeOps.create; simpl.
  rewrite !Z.ltb_irrefl, andb_false_r. reflexivity.
Qed.

Lemma fromPositions_isEmpty (position : IPosition) :
  RangeOps.isEmpty (RangeOps.fromPositions position None) = true.
Proof.
  rewrite fromPositions_collapsed. unfold RangeOps.isEmpty; simpl.
  rewrite !Z.eqb_refl. reflexivity.
Qed.

Lemma fromPositions_start (position : IPosition) :
  RangeOps.getStartPosition (RangeOps.fromPositions position None) = position.
Proof. rewrite fromPositions_collapsed. destruct position; reflexivity. Qed.

Module SnippetFacts.
Import SnippetParser.

Lemma backslash_needsEscape : needsEscape "\" = true.
Proof. reflexivity. Qed.

Lemma text_plain depth c :
  needsEscape c = false -> text depth c = (String c EmptyString, (InText, depth)).
Proof.
  unfold needsEscape, text. intros H.
  apply orb_false_elim in H as [H Hb]. apply orb_false_elim in H as [Hd Hc].
  rewrite Hb, Hd, Hc. reflexivity.
Qed.

(** Escaped text is read back as the text itself, inside or outside of a
    placeholder. *)
Lemma expand_escape value : forall depth, expand InText depth (escape value) = value.
Proof.
  induction value as [|c rest IH]; intros depth; simpl; [reflexivity|].
  destruct (needsEscape c) eqn:E.
  - simpl. rewrite E. simpl. rewrite IH. reflexivity.
  - simpl. rewrite (text_plain _ _ E). simpl. rewrite IH. reflexivity.
Qed.

Lemma escape_length value : (String.length value <= String.length (escape value))%nat.
Proof.
  induction value as [|c rest IH]; simpl; [lia|].
  destruct (needsEscape c); simpl; lia.
Qed.

End SnippetFacts.

(** C7 (literal text is escaped, a snippet is used verbatim): the primary
    edit of a literal-text candidate carries [SnippetParser.escape] of the
    text and inserting that snippet puts the original literal text into the
    document, whatever characters it contains; the primary edit of a
    structured-snippet candidate carries the template unchanged. *)
Theorem literal_text_is_escaped_snippet_is_verbatim :
  forall (uri : URI) (position : IPosition) (lbl : string) (additional : option WorkspaceEdit)
         (s : string),
    primaryEdit uri position (mkDropEdit lbl (LiteralText s) additional)
    = ResourceTextEdit uri
        (mkTextEdit (RangeOps.fromPositions position None) (SnippetParser.escape s) (Some true))
    /\ SnippetParser.insertedText (snippetOf (mkDropEdit lbl (LiteralText s) additional)) = s
    /\ primaryEdit uri position (mkDropEdit lbl (SnippetText s) additional)
       = ResourceTextEdit uri (mkTextEdit (RangeOps.fromPositions position None) s (Some true)).
Proof.
  intros. split; [reflexivity|]. split; [|reflexivity].
  unfold snippetOf, SnippetParser.insertedText; simpl.
  apply SnippetFacts.expand_escape.
Qed.

(** Unescaped, the same characters are read as snippet syntax. *)
Example snippet_syntax_is_interpreted :
  SnippetParser.insertedText "cost: $1 ${2:{}}" = "cost:  {}"%string
  /\ SnippetParser.insertedText (SnippetParser.escape "cost: $1 ${2:{}}") = "cost: $1 ${2:{}}"%string.
Proof. split; reflexivity. Qed.

Section Properties.
Context `{host : Host}.

Implicit Types (s : State) (t : Task) (position : IPosition).

(** ** Applying a drop edit *)

Lemma combinedWorkspaceEdit_edits uri position edit :
  edits (combinedWorkspaceEdit uri position edit)
  = [primaryEdit uri position edit] ++ additionalEdits edit.
Proof. unfold additionalEdits. destruct edit as [l i [a|]]; reflexivity. Qed.

Lemma applyDropResult_abandons operation position i es token s :
  editorModel (editor s) = None \/ at_index es i = None ->
  applyDropResult operation position i es token s = (s, Returned).
Proof.
  unfold applyDropResult. intros [H|H].
  - rewrite H. reflexivity.
  - rewrite H. destruct (editorModel (editor s)); reflexivity.
Qed.

Lemma applyDropResult_applies operation position i es token s model edit :
  editorModel (editor s) = Some model ->
  at_index es i = Some edit ->
  exists s' dec editResult,
    applyDropResult operation position i es token s
    = (s', Suspended (AwaitApply operation model position i es token dec editResult))
    /\ effects s' = BulkEditRequested (combinedWorkspaceEdit model position edit) token :: effects s
    /\ controller s' = controller s
    /\ editor s' = editor s
    /\ tasks s' = tasks s.
Proof.
  intros Hm He. unfold applyDropResult. rewrite Hm, He.
  unfold addDecoration, bulkEditService_apply.
  destruct (bulkEdit _ _ _); simpl; eexists _, _, _; repeat split; reflexivity.
Qed.

(** C6 (primary edit first, secondary edits after it): when a candidate is
    applied, the workspace edit handed to the bulk edit service consists of
    the text insertion of the candidate's snippet at the drop position,
    followed by the sub-edits of the candidate's additional edit, if it has
    one, in their order. *)
Theorem combined_edit_is_primary_then_additional :
  forall operation position i es token s model edit,
    editorModel (editor s) = Some model ->
    at_index es i = Some edit ->
    exists combined,
      effects (applyDropResult operation position i es token s).1
      = BulkEditRequested combined token :: effects s
      /\ edits combined
         = ResourceTextEdit model
             (mkTextEdit (RangeOps.fromPositions position None) (snippetOf edit) (Some true))
           :: match additionalEdit edit with
              | Some additional => edits additional
              | None => []
              end.
Proof.
  intros operation position i es token s model edit Hm He.
  destruct (applyDropResult_applies operation position i es token s model edit Hm He)
    as (s' & dec & r & -> & Heff & _).
  exists (combinedWorkspaceEdit model position edit). split; [exact Heff|reflexivity].
Qed.

(** C10 (the primary edit is a pure insertion in snippet mode): for every
    candidate the first edit of the combined workspace edit is a text edit of
    the dropped-into model whose range is empty and starts at the drop
    position, and whose [insertAsSnippet] is [true], for literal-text and for
    structured-snippet candidates alike; and this combined edit is the one
    that [applyDropResult] hands to the bulk edit service. *)
Theorem primary_edit_is_snippet_insertion :
  forall (uri : URI) position (edit : DocumentOnDropEdit),
    (exists te rest,
       edits (combinedWorkspaceEdit uri position edit) = ResourceTextEdit uri te :: rest
       /\ RangeOps.isEmpty (range te) = true
       /\ RangeOps.getStartPosition (range te) = position
       /\ startLineNumber (range te) = endLineNumber (range te)
       /\ startColumn (range te) = endColumn (range te)
       /\ text te = snippetOf edit
       /\ insertAsSnippet te = Some true)
    /\ (forall operation i es token s,
          editorModel (editor s) = Some uri ->
          at_index es i = Some edit ->
          effects (applyDropResult operation position i es token s).1
          = BulkEditRequested (combinedWorkspaceEdit uri position edit) token :: effects s).
Proof.
  intros uri position edit. split.
  - eexists _, _. split; [reflexivity|]. simpl.
    rewrite fromPositions_isEmpty, fromPositions_start, fromPositions_collapsed.
    repeat split; reflexivity.
  - intros operation i es token s Hm He.
    destruct (applyDropResult_applies operation position i es token s uri edit Hm He)
      as (s' & dec & r & -> & Heff & _). exact Heff.
Qed.

(** ** The post-drop widget *)





(** ** What the [finally] block touches *)

Lemma finallyBlock_frame operationId s :
  effects (finallyBlock operationId s) = effects s
  /\ document (finallyBlock operationId s) = document s
  /\ tasks (finallyBlock operationId s) = tasks s
  /\ editor (finallyBlock operationId s) = editor s
  /\ registry (finallyBlock operationId s) = registry s
  /\ operationIdPool (controller (finallyBlock operationId s)) = operationIdPool (controller s)
  /\ _postDropWidgetManager (controller (finallyBlock operationId s)) = _postDropWidgetManager (controller s).
Proof.
  unfold finallyBlock; simpl. case_bool_decide; simpl; repeat split; reflexivity.
Qed.

Lemma finallyBlock_sources operationId s :
  sources (finallyBlock operationId s) = alter disposeSource operationId (sources s).
Proof. unfold finallyBlock; simpl. case_bool_decide; reflexivity. Qed.

Lemma finallyBlock_current operationId s :
  _currentOperation (controller s) = Some operationId ->
  _currentOperation (controller (finallyBlock operationId s)) = None
  /\ _dropProgressManager (controller (finallyBlock operationId s)) = None.
Proof.
  intros H. unfold finallyBlock; simpl. rewrite bool_decide_eq_true_2 by exact H.
  split; reflexivity.
Qed.

Lemma finallyBlock_superseded operationId s :
  _currentOperation (controller s) <> Some operationId ->
  controller (finallyBlock operationId s) = controller s.
Proof.
  intros H. unfold finallyBlock; simpl. rewrite bool_decide_eq_false_2 by exact H.
  reflexivity.
Qed.

(** ** Dropping without a model or without data *)

Lemma drop_without_dataTransfer position dragEvent s :
  dataTransfer dragEvent = None -> onDropIntoEditor position dragEvent s = s.
Proof. intros H. unfold onDropIntoEditor. rewrite H. reflexivity. Qed.

(** A drop that passes the guard of line 60 does change the controller. *)
Lemma drop_allocates_operation position dragEvent s :
  is_Some (dataTransfer dragEvent) ->
  is_Some (editorModel (editor s)) ->
  let s' := onDropIntoEditor position dragEvent s in
  operationIdPool (controller s') = operationIdPool (controller s) + 1
  /\ _currentOperation (controller s') = Some (operationIdPool (controller s))
  /\ _dropProgressManager (controller s') = Some (position, operationIdPool (controller s))
  /\ tasks s'
     = tasks s ++ [AwaitExtract (operationIdPool (controller s)) position
                     (extractDataTransferData dragEvent)].
Proof.
  intros Hd Hm. unfold onDropIntoEditor, hasModel.
  rewrite !bool_decide_eq_true_2 by assumption. simpl.
  unfold cancelCurrentOperation. destruct (_currentOperation (controller s)); simpl;
    repeat split; reflexivity.
Qed.

Lemma drop_without_model position dragEvent s :
  editorModel (editor s) = None -> onDropIntoEditor position dragEvent s = s.
Proof.
  intros Hm. unfold onDropIntoEditor, hasModel. rewrite Hm.
  rewrite (bool_decide_eq_false_2 (is_Some None)) by (intros [? ?]; discriminate).
  simpl. rewrite orb_true_r. reflexivity.
Qed.

(** C9 (a drop that the guard of line 60 turns away does nothing): if the
    editor has no model when the drop event arrives, and likewise if the
    event has no [dataTransfer], the handler returns the state it was given:
    the previous operation's token source is not cancelled, the progress
    indicator is not cleared, no operation id is allocated, the
    current-operation slot keeps its value and no task is started. *)
Theorem drop_turned_away_is_noop :
  forall position dragEvent s,
    editorModel (editor s) = None \/ dataTransfer dragEvent = None ->
    let s' := onDropIntoEditor position dragEvent s in
    s' = s
    /\ sources s' = sources s
    /\ _dropProgressManager (controller s') = _dropProgressManager (controller s)
    /\ operationIdPool (controller s') = operationIdPool (controller s)
    /\ _currentOperation (controller s') = _currentOperation (controller s)
    /\ tasks s' = tasks s.
Proof.
  intros position dragEvent s H s'. subst s'.
  assert (Heq : onDropIntoEditor position dragEvent s = s).
  { destruct H as [Hm|Hd];
      [apply drop_without_model; exact Hm|apply drop_without_dataTransfer; exact Hd]. }
  rewrite Heq. repeat split; reflexivity.
Qed.

(** C8 (no data, no effect): without a [dataTransfer] the extraction returns
    the empty payload; and when the extracted payload is empty the body of
    the operation returns at line 82: no provider is invoked and no edit is
    requested (the effects are those of before), the document is unchanged
    and no further task is started. *)
Theorem empty_payload_short_circuits :
  (forall dragEvent,
      dataTransfer dragEvent = None ->
      extractDataTransferData dragEvent = ∅
      /\ dt_size (extractDataTransferData dragEvent) = 0%nat)
  /\ (forall operationId position payload cancelledFirst s,
        dt_size payload = 0%nat ->
        let s' := resume (AwaitExtract operationId position payload) cancelledFirst s in
        segment (AwaitExtract operationId position payload) cancelledFirst s = (s, Returned)
        /\ effects s' = effects s
        /\ document s' = document s
        /\ tasks s' = tasks s).
Proof.
  split.
  - intros dragEvent H. unfold extractDataTransferData. rewrite H.
    split; [reflexivity|]. unfold dt_size. apply map_size_empty.
  - intros operationId position payload cancelledFirst s Hsize s'.
    assert (Hseg : segment (AwaitExtract operationId position payload) cancelledFirst s
                   = (s, Returned)).
    { simpl. unfold resumeExtract. rewrite Hsize. reflexivity. }
    split; [exact Hseg|].
    subst s'. unfold resume. rewrite Hseg. simpl.
    pose proof (finallyBlock_frame operationId s) as (He & Hd & Ht & _).
    repeat split; assumption.
Qed.

(** ** The fan-out *)

Lemma dt_has_spec (payload : VSDataTransfer) mime :
  dt_has payload mime = true <-> is_Some (payload !! mime).
Proof. unfold dt_has. apply bool_decide_eq_true. Qed.

Lemma keepProvider_spec payload provider :
  keepProvider payload provider = true <-> interested payload provider.
Proof.
  unfold keepProvider, interested. destruct (dropMimeTypes provider) as [mimes|].
  - rewrite existsb_exists. split.
    + intros (mime & Hin & Hhas). exists mime. split.
      * apply list_elem_of_In. exact Hin.
      * apply dt_has_spec. exact Hhas.
    + intros (mime & Hin & Hhas). exists mime. split.
      * apply list_elem_of_In. exact Hin.
      * apply dt_has_spec. exact Hhas.
  - tauto.
Qed.

Lemma Candidates_functional payload result providers es es' :
  Candidates payload result providers es ->
  Candidates payload result providers es' ->
  es = es'.
Proof.
  intros H. revert es'. induction H; intros es' H'; inversion H'; subst;
    try reflexivity; try contradiction; try congruence; auto.
  f_equal; [congruence|auto].
Qed.

(** The list the code computes, [coalesce] of the results of the filtered
    providers, is the list the specification describes. *)
Lemma coalesce_Candidates payload (provide : DocumentOnDropEditProvider -> ProviderResult)
    providers values :
  promiseAll (map provide (List.filter (keepProvider payload) providers)) = Some values ->
  Candidates payload (fun p => resolvedEdit (provide p)) providers (coalesce values).
Proof.
  revert values. induction providers as [|p ps IH]; intros values H; simpl in H.
  - injection H as <-. constructor.
  - destruct (keepProvider payload p) eqn:Hk.
    + assert (Hi : interested payload p) by (apply keepProvider_spec; exact Hk).
      simpl in H. destruct (provide p) as [e|] eqn:Hp; [|discriminate].
      destruct (promiseAll _) as [vs|] eqn:Hall; [|discriminate].
      injection H as <-. specialize (IH vs eq_refl).
      destruct e as [e|]; simpl.
      * apply candidates_edit; [exact Hi|rewrite Hp; reflexivity|exact IH].
      * apply candidates_null; [exact Hi|rewrite Hp; reflexivity|exact IH].
    + apply candidates_filtered; [|apply IH; exact H].
      intros Hi. apply keepProvider_spec in Hi. congruence.
Qed.

Lemma promiseAll_resolved (provide : DocumentOnDropEditProvider -> ProviderResult) providers :
  (forall p, p ∈ providers -> provide p <> Rejected) ->
  exists values, promiseAll (map provide providers) = Some values.
Proof.
  induction providers as [|p ps IH]; intros H; simpl.
  - eexists; reflexivity.
  - destruct (provide p) as [e|] eqn:Hp.
    + destruct IH as [vs Hvs].
      * intros q Hq. apply H. right. exact Hq.
      * rewrite Hvs. eexists; reflexivity.
    + exfalso. apply (H p); [left|exact Hp].
Qed.

Lemma effects_logInvocations providers token s :
  effects (logInvocations providers token s)
  = rev (map (fun p => ProviderInvoked p token) providers) ++ effects s.
Proof.
  unfold logInvocations. revert s. induction providers as [|p ps IH]; intros s; simpl.
  - reflexivity.
  - rewrite IH. simpl. rewrite <- app_assoc. reflexivity.
Qed.

(** C2 (the candidate list of the fan-out): for a non-empty payload, with
    the operation not cancelled and no provider failing, the providers that
    are invoked are those of the registry that declare no mime types or
    declare one that is a key of the payload, in registry order, and the
    list handed to [applyDropResult] is the list of their non-null results
    in that order, and no other list is. *)
Theorem fan_out_candidates :
  forall operationId position payload s model,
    dt_size payload <> 0%nat ->
    isCancellationRequested operationId s = false ->
    editorModel (editor s) = Some model ->
    let provide p :=
      provideDocumentOnDropEdits p model (content (document s)) position payload in
    (forall p, p ∈ registry s model -> interested payload p -> provide p <> Rejected) ->
    exists s1 results es,
      resumeExtract operationId position payload s
      = (s1, Suspended (AwaitProviders operationId position results))
      /\ effects s1
         = rev (map (fun p => ProviderInvoked p operationId)
                  (List.filter (keepProvider payload) (registry s model))) ++ effects s
      /\ Candidates payload (fun p => resolvedEdit (provide p)) (registry s model) es
      /\ (forall es',
            Candidates payload (fun p => resolvedEdit (provide p)) (registry s model) es' ->
            es' = es)
      /\ (forall s2,
            isCancellationRequested operationId s2 = false ->
            resumeProviders operationId position results false s2
            = applyDropResult (Some operationId) position 0 es operationId s2).
Proof.
  intros operationId position payload s model Hsize Hc Hm provide Hok.
  destruct (promiseAll_resolved provide (List.filter (keepProvider payload) (registry s model)))
    as [values Hvalues].
  { intros p Hp. apply list_elem_of_In, filter_In in Hp as [Hin Hk].
    apply Hok; [apply list_elem_of_In; exact Hin|apply keepProvider_spec; exact Hk]. }
  pose proof (coalesce_Candidates payload provide _ _ Hvalues) as Hcand.
  eexists _, _, (coalesce values). split; [|split; [|split; [exact Hcand|split]]].
  - unfold resumeExtract. rewrite Hc, Hm.
    destruct (dt_size payload) eqn:E; [contradiction|]. simpl. reflexivity.
  - apply effects_logInvocations.
  - intros es' H'. exact (Candidates_functional _ _ _ _ _ H' Hcand).
  - intros s2 Hc2. unfold resumeProviders. fold provide. rewrite Hvalues. simpl.
    rewrite Hc2. reflexivity.
Qed.

(** ** Completion of a drop operation *)

Lemma applyDropResult_cases operation position i es token s :
  applyDropResult operation position i es token s = (s, Returned)
  \/ exists model edit s' dec editResult,
       editorModel (editor s) = Some model
       /\ at_index es i = Some edit
       /\ applyDropResult operation position i es token s
          = (s', Suspended (AwaitApply operation model position i es token dec editResult))
       /\ effects s'
          = BulkEditRequested (combinedWorkspaceEdit model position edit) token :: effects s.
Proof.
  destruct (editorModel (editor s)) as [m|] eqn:Hm;
    [destruct (at_index es i) as [edit|] eqn:He|].
  - right.
    destruct (applyDropResult_applies operation position i es token s m edit Hm He)
      as (s' & d & r & Heq & Heff & _).
    exists m, edit, s', d, r. auto.
  - left. apply applyDropResult_abandons. right. exact He.
  - left. apply applyDropResult_abandons. left. exact Hm.
Qed.

(** A segment that ends the body of its method (returns or throws) has left
    the token sources, the operation fields of the controller and the text
    of the document alone, and has asked for no edit. *)
Lemma completing_segment_frame t cancelledFirst s s1 c :
  segment t cancelledFirst s = (s1, c) ->
  (forall t', c <> Suspended t') ->
  sources s1 = sources s
  /\ operationIdPool (controller s1) = operationIdPool (controller s)
  /\ _currentOperation (controller s1) = _currentOperation (controller s)
  /\ _dropProgressManager (controller s1) = _dropProgressManager (controller s)
  /\ content (document s1) = content (document s)
  /\ undoStack (document s1) = undoStack (document s)
  /\ tasks s1 = tasks s
  /\ (forall edit token, BulkEditRequested edit token ∈ effects s1 ->
                         BulkEditRequested edit token ∈ effects s).
Proof.
  intros Hseg Hc.
  assert (Hsame : s1 = s ->
    sources s1 = sources s
    /\ operationIdPool (controller s1) = operationIdPool (controller s)
    /\ _currentOperation (controller s1) = _currentOperation (controller s)
    /\ _dropProgressManager (controller s1) = _dropProgressManager (controller s)
    /\ content (document s1) = content (document s)
    /\ undoStack (document s1) = undoStack (document s)
    /\ tasks s1 = tasks s
    /\ (forall edit token, BulkEditRequested edit token ∈ effects s1 ->
                           BulkEditRequested edit token ∈ effects s)).
  { intros ->. repeat split; auto. }
  assert (Happly : forall operation position i es token,
            applyDropResult operation position i es token s = (s1, c) -> s1 = s).
  { intros operation position i es token H.
    destruct (applyDropResult_cases operation position i es token s)
      as [Hr|(m & e & s' & d & r & _ & _ & Hr & _)]; rewrite Hr in H.
    - congruence.
    - injection H as _ <-. exfalso. eapply Hc. reflexivity. }
  destruct t as [id position payload|id position results
                |op model position i es token dec editResult|cb i]; simpl in Hseg.
  - unfold resumeExtract in Hseg.
    destruct (_ || _); [apply Hsame; congruence|].
    destruct (editorModel (editor s)); [|apply Hsame; congruence].
    injection Hseg as _ <-. exfalso. eapply Hc. reflexivity.
  - unfold resumeProviders in Hseg.
    destruct (raceCancellation _ _) as [[values|]|].
    + destruct (isCancellationRequested id s); [apply Hsame; congruence|].
      apply Hsame. eapply Happly. exact Hseg.
    + destruct (isCancellationRequested id s); apply Hsame; congruence.
    + apply Hsame; congruence.
  - unfold resumeApply in Hseg.
    destruct editResult as [isApplied|]; [|apply Hsame; congruence].
    destruct (isApplied && _);
      [destruct (String.eqb _ _)|]; injection Hseg as <- _; simpl; repeat split; auto.
    intros edit token' H. apply elem_of_cons in H as [H|H]; [discriminate|exact H].
  - apply Hsame. eapply Happly. exact Hseg.
Qed.

(** Whenever a segment of the body of a drop operation returns or throws,
    the [finally] block runs on the state the segment left.  It disposes of
    the operation's token source and of no other; if the slot holds this
    operation's id, the slot and the progress indicator are cleared; if it
    does not, the slot, the progress indicator, the id pool and every other
    operation's token source are exactly as before. *)
Lemma finallyBlock_after_completion :
  forall t cancelledFirst s operationId s1 c,
    taskOperation t = Some operationId ->
    segment t cancelledFirst s = (s1, c) ->
    (forall t', c <> Suspended t') ->
    let s' := resume t cancelledFirst s in
    s' = finallyBlock operationId s1
    /\ sources s' = alter disposeSource operationId (sources s)
    /\ (forall src, sources s !! operationId = Some src ->
          exists src', sources s' !! operationId = Some src' /\ disposed src' = true)
    /\ (forall other, other <> operationId -> sources s' !! other = sources s !! other)
    /\ (_currentOperation (controller s) = Some operationId ->
          _currentOperation (controller s') = None
          /\ _dropProgressManager (controller s') = None)
    /\ (_currentOperation (controller s) <> Some operationId ->
          _currentOperation (controller s') = _currentOperation (controller s)
          /\ _dropProgressManager (controller s') = _dropProgressManager (controller s))
    /\ operationIdPool (controller s') = operationIdPool (controller s).
Proof.
  intros t cancelledFirst s operationId s1 c Hop Hseg Hc s'.
  destruct (completing_segment_frame t cancelledFirst s s1 c Hseg Hc)
    as (Hsrc & Hpool & Hcur & Hprog & _).
  assert (Hs' : s' = finallyBlock operationId s1).
  { subst s'. unfold resume. rewrite Hseg, Hop. unfold complete.
    destruct c as [t'| |]; [exfalso; eapply Hc; reflexivity| |]; reflexivity. }
  assert (Hsources : sources s' = alter disposeSource operationId (sources s)).
  { rewrite Hs', finallyBlock_sources, Hsrc. reflexivity. }
  split; [exact Hs'|]. split; [exact Hsources|].
  split; [|split; [|split; [|split]]].
  - intros src H. exists (disposeSource src). split; [|reflexivity].
    rewrite Hsources, lookup_alter_eq, H. reflexivity.
  - intros other Hne. rewrite Hsources. apply lookup_alter_ne. congruence.
  - intros H. rewrite Hs'. apply finallyBlock_current. rewrite Hcur. exact H.
  - intros H. rewrite Hs', finallyBlock_superseded by (rewrite Hcur; exact H).
    split; assumption.
  - rewrite Hs'. pose proof (finallyBlock_frame operationId s1) as (_&_&_&_&_&Hp&_).
    rewrite Hp. exact Hpool.
Qed.

(** ** Picking another edit *)



(** ** Cancellation before the apply step *)

(** A token that has fired stays fired. *)

Lemma requested_same id s s' :
  sources s' = sources s -> isCancellationRequested id s' = isCancellationRequested id s.
Proof. unfold isCancellationRequested. intros ->. reflexivity. Qed.

Lemma requested_fmap id s s' :
  sources s' = onEditorChange <$> sources s ->
  isCancellationRequested id s = true -> isCancellationRequested id s' = true.
Proof.
  unfold isCancellationRequested. intros ->. rewrite lookup_fmap.
  destruct (sources s !! id) as [[p r d]|]; simpl; [|discriminate].
  intros ->. unfold onEditorChange. destruct d; reflexivity.
Qed.

Lemma requested_alter (f : TokenSource -> TokenSource) k id s s' :
  (forall src, requested src = true -> requested (f src) = true) ->
  sources s' = alter f k (sources s) ->
  isCancellationRequested id s = true -> isCancellationRequested id s' = true.
Proof.
  unfold isCancellationRequested. intros Hf ->.
  destruct (decide (k = id)) as [->|Hne].
  - rewrite lookup_alter_eq. destruct (sources s !! id); simpl; [apply Hf|discriminate].
  - rewrite lookup_alter_ne by exact Hne. auto.
Qed.

Lemma requested_cancelPromise src : requested src = true -> requested (cancelPromise src) = true.
Proof. destruct src as [p r d]; simpl. intros ->. destruct d; reflexivity. Qed.

Lemma applyDropResult_sources operation position i es token s :
  sources (applyDropResult operation position i es token s).1 = sources s
  \/ sources (applyDropResult operation position i es token s).1 = onEditorChange <$> sources s.
Proof.
  unfold applyDropResult.
  destruct (editorModel (editor s)); [|left; reflexivity].
  destruct (at_index es i); [|left; reflexivity].
  unfold addDecoration, bulkEditService_apply. simpl.
  destruct (bulkEdit _ _ _); simpl; auto.
Qed.

Lemma segment_sources t cancelledFirst s :
  sources (segment t cancelledFirst s).1 = sources s
  \/ sources (segment t cancelledFirst s).1 = onEditorChange <$> sources s.
Proof.
  destruct t as [id position payload|id position results
                |op model position i es token dec editResult|cb i]; simpl.
  - unfold resumeExtract. destruct (_ || _); [left; reflexivity|].
    destruct (editorModel (editor s)); [|left; reflexivity].
    left. simpl. unfold logInvocations.
    generalize (List.filter (keepProvider payload) (registry s u)). intros l.
    revert s. induction l as [|p l IH]; intros s; simpl; [reflexivity|].
    rewrite IH. reflexivity.
  - unfold resumeProviders. destruct (raceCancellation _ _) as [[values|]|];
      try (left; reflexivity);
      destruct (isCancellationRequested id s); try (left; reflexivity).
    apply applyDropResult_sources.
  - unfold resumeApply. destruct editResult as [b|]; [|left; reflexivity].
    destruct (b && _); [destruct (String.eqb _ _)|]; left; reflexivity.
  - apply applyDropResult_sources.
Qed.

Lemma complete_requested operation r id :
  isCancellationRequested id r.1 = true ->
  isCancellationRequested id (complete operation r) = true.
Proof.
  destruct r as [s [t| |]]; simpl; intros H; try exact H;
    destruct operation as [op|]; try exact H;
    (eapply requested_alter; [|apply finallyBlock_sources|exact H]; auto).
Qed.

Lemma resume_requested t cancelledFirst id s :
  isCancellationRequested id s = true ->
  isCancellationRequested id (resume t cancelledFirst s) = true.
Proof.
  intros H. unfold resume. apply complete_requested.
  destruct (segment_sources t cancelledFirst s) as [Hs|Hs].
  - rewrite (requested_same _ _ _ Hs). exact H.
  - eapply requested_fmap; eauto.
Qed.

Lemma model_undo_requested id s :
  isCancellationRequested id s = true -> isCancellationRequested id (model_undo s) = true.
Proof.
  intros H. unfold model_undo. destruct (undoStack (document s)); [exact H|].
  eapply requested_fmap; [reflexivity|exact H].
Qed.

Lemma onDropIntoEditor_requested position dragEvent id s :
  id < operationIdPool (controller s) ->
  isCancellationRequested id s = true ->
  isCancellationRequested id (onDropIntoEditor position dragEvent s) = true.
Proof.
  intros Hlt H. unfold onDropIntoEditor. destruct (_ || _); [exact H|].
  unfold isCancellationRequested. simpl.
  rewrite lookup_insert_ne.
  2: { unfold cancelCurrentOperation. destruct (_currentOperation (controller s)); simpl; lia. }
  unfold cancelCurrentOperation.
  destruct (_currentOperation (controller s)) as [cur|]; simpl; [|exact H].
  change (isCancellationRequested id (with_sources (alter cancelPromise cur) s) = true).
  eapply requested_alter; [apply requested_cancelPromise|reflexivity|exact H].
Qed.

Lemma step_requested e id s :
  id < operationIdPool (controller s) ->
  isCancellationRequested id s = true ->
  isCancellationRequested id (step e s) = true.
Proof.
  intros Hlt H. destruct e as [position dragEvent|n b| |m|d|v|j]; simpl.
  - apply onDropIntoEditor_requested; assumption.
  - destruct (tasks s !! n); [|exact H]. apply resume_requested. exact H.
  - destruct (_dropProgressManager (controller s)) as [[? op]|]; [|exact H].
    eapply requested_alter; [|reflexivity|exact H]. auto.
  - eapply requested_fmap; [reflexivity|exact H].
  - eapply requested_fmap; [reflexivity|exact H].
  - exact H.
  - destruct (_postDropWidgetManager (controller s)) as [w|]; [|exact H].
    destruct (j =? activeEditIndex w); [exact H|].
    unfold selectEdit. simpl. apply model_undo_requested in H. exact H.
Qed.

(** The id pool only grows. *)
Lemma segment_controller_pool t cancelledFirst s :
  operationIdPool (controller (segment t cancelledFirst s).1) = operationIdPool (controller s).
Proof.
  destruct t as [id position payload|id position results
                |op model position i es token dec editResult|cb i]; simpl.
  - unfold resumeExtract. destruct (_ || _); [reflexivity|].
    destruct (editorModel (editor s)); [|reflexivity]. simpl.
    unfold logInvocations.
    generalize (List.filter (keepProvider payload) (registry s u)). intros l.
    revert s. induction l as [|p l IH]; intros s; simpl; [reflexivity|].
    rewrite IH. reflexivity.
  - unfold resumeProviders. destruct (raceCancellation _ _) as [[values|]|];
      try reflexivity; destruct (isCancellationRequested id s); try reflexivity.
    destruct (applyDropResult_cases (Some id) position 0 (coalesce values) id s)
      as [->|(m & e & s' & d & r & Hm & He & Hr & _)]; [reflexivity|].
    destruct (applyDropResult_applies (Some id) position 0 (coalesce values) id s m e Hm He)
      as (s2 & d2 & r2 & -> & _ & Hc & _). simpl. rewrite Hc. reflexivity.
  - unfold resumeApply. destruct editResult as [b|]; [|reflexivity].
    destruct (b && _); [destruct (String.eqb _ _)|]; reflexivity.
  - unfold resumeUndo.
    destruct (applyDropResult_cases None (cb_position cb) i (cb_allEdits cb) (cb_token cb) s)
      as [->|(m & e & s' & d & r & Hm & He & Hr & _)]; [reflexivity|].
    destruct (applyDropResult_applies None (cb_position cb) i (cb_allEdits cb) (cb_token cb)
                s m e Hm He) as (s2 & d2 & r2 & -> & _ & Hc & _). simpl. rewrite Hc. reflexivity.
Qed.

Lemma complete_pool operation r :
  operationIdPool (controller (complete operation r)) = operationIdPool (controller r.1).
Proof.
  destruct r as [s [t| |]]; simpl; try reflexivity; destruct operation; try reflexivity;
    apply finallyBlock_frame.
Qed.

Lemma step_pool e s :
  operationIdPool (controller s) <= operationIdPool (controller (step e s)).
Proof.
  destruct e as [position dragEvent|n b| |m|d|v|j]; simpl; try lia.
  - unfold onDropIntoEditor. destruct (_ || _); [lia|]. simpl.
    unfold cancelCurrentOperation. destruct (_currentOperation (controller s)); simpl; lia.
  - destruct (tasks s !! n); [|lia]. unfold resume.
    rewrite complete_pool, segment_controller_pool. simpl. lia.
  - destruct (_dropProgressManager (controller s)) as [[? ?]|]; simpl; lia.
  - destruct (_postDropWidgetManager (controller s)) as [w|]; [|lia].
    destruct (j =? activeEditIndex w); [lia|].
    unfold selectEdit, model_undo. simpl.
    destruct (undoStack (document s)); simpl; lia.
Qed.

(** An operation that finds its token fired before the apply step returns
    (or rethrows a provider's error) without touching anything. *)
Lemma cancelled_segment_returns t cancelledFirst s :
  beforeApply t = true ->
  isCancellationRequested (taskToken t) s = true ->
  exists c, segment t cancelledFirst s = (s, c) /\ forall t', c <> Suspended t'.
Proof.
  destruct t as [id position payload|id position results|? ? ? ? ? ? ? ?|? ?];
    simpl; intros Hb Hc; try discriminate.
  - unfold resumeExtract. rewrite Hc, orb_true_r. eexists. split; [reflexivity|discriminate].
  - unfold resumeProviders. destruct (raceCancellation _ _) as [[values|]|];
      rewrite ?Hc; eexists; (split; [reflexivity|discriminate]).
Qed.

Lemma notApplied_frame id s s' :
  tasks s' = tasks s ->
  _postDropWidgetManager (controller s') = _postDropWidgetManager (controller s) ->
  effects s' = effects s ->
  notApplied id s -> notApplied id s'.
Proof.
  unfold notApplied, widgetToken. intros -> -> ->. auto.
Qed.

Lemma applyDropResult_notApplied operation position i es token s id :
  token <> id ->
  notApplied id s ->
  notApplied id (applyDropResult operation position i es token s).1
  /\ tasks (applyDropResult operation position i es token s).1 = tasks s
  /\ (forall t', (applyDropResult operation position i es token s).2 = Suspended t' ->
                 taskToken t' = token).
Proof.
  intros Hne Hq.
  destruct (editorModel (editor s)) as [m|] eqn:Hm;
    [destruct (at_index es i) as [edit|] eqn:He|].
  - destruct (applyDropResult_applies operation position i es token s m edit Hm He)
      as (s' & d & r & -> & Heff & Hc & _ & Ht). simpl.
    split; [|split; [exact Ht|]].
    + destruct Hq as (Hq1 & Hq2 & Hq3). unfold notApplied, widgetToken.
      rewrite Ht, Hc, Heff. split; [exact Hq1|]. split; [exact Hq2|].
      intros e [->|He']%elem_of_cons; [simpl; congruence|auto].
    + intros t' [= <-]. reflexivity.
  - rewrite applyDropResult_abandons by (right; exact He). simpl.
    split; [exact Hq|]. split; [reflexivity|discriminate].
  - rewrite applyDropResult_abandons by (left; exact Hm). simpl.
    split; [exact Hq|]. split; [reflexivity|discriminate].
Qed.

Lemma logInvocations_frame providers token s :
  tasks (logInvocations providers token s) = tasks s
  /\ controller (logInvocations providers token s) = controller s.
Proof.
  unfold logInvocations. revert s. induction providers as [|p l IH]; intros s; simpl.
  - split; reflexivity.
  - destruct (IH (log (ProviderInvoked p token) s)) as [-> ->]. split; reflexivity.
Qed.

Lemma segment_notApplied t cancelledFirst s id :
  taskToken t <> id ->
  notApplied id s ->
  notApplied id (segment t cancelledFirst s).1
  /\ tasks (segment t cancelledFirst s).1 = tasks s
  /\ (forall t', (segment t cancelledFirst s).2 = Suspended t' -> taskToken t' = taskToken t).
Proof.
  intros Hne Hq.
  assert (Hsame : notApplied id s /\ tasks s = tasks s
                  /\ (forall t', Returned = Suspended t' -> taskToken t' = taskToken t)).
  { split; [exact Hq|]. split; [reflexivity|discriminate]. }
  assert (Hthrown : notApplied id s /\ tasks s = tasks s
                  /\ (forall t', Thrown = Suspended t' -> taskToken t' = taskToken t)).
  { split; [exact Hq|]. split; [reflexivity|discriminate]. }
  destruct t as [op position payload|op position results
                |op model position i es token dec editResult|cb i]; simpl in *.
  - unfold resumeExtract. destruct (_ || _); [exact Hsame|].
    destruct (editorModel (editor s)) as [m|]; [|exact Hsame]. simpl.
    destruct (logInvocations_frame (List.filter (keepProvider payload) (registry s m)) op s)
      as [Ht Hc].
    split; [|split; [exact Ht|intros t' [= <-]; reflexivity]].
    destruct Hq as (Hq1 & Hq2 & Hq3). unfold notApplied, widgetToken.
    rewrite Ht, Hc, effects_logInvocations. split; [exact Hq1|]. split; [exact Hq2|].
    intros e [He|He]%elem_of_app; [|auto].
    apply list_elem_of_In, in_rev, in_map_iff in He as (p & <- & _). discriminate.
  - unfold resumeProviders. destruct (raceCancellation _ _) as [[values|]|];
      try exact Hthrown; destruct (isCancellationRequested op s); try exact Hsame.
    apply applyDropResult_notApplied; assumption.
  - unfold resumeApply. destruct editResult as [b|]; [|exact Hthrown].
    assert (Hrem : notApplied id (removeDecoration dec s)).
    { eapply notApplied_frame; [..|exact Hq]; reflexivity. }
    destruct (b && _); [destruct (String.eqb _ _)|]; simpl;
      (split; [|split; [reflexivity|discriminate]]); try exact Hrem.
    destruct Hq as (Hq1 & Hq2 & Hq3). unfold notApplied, widgetToken. simpl.
    split; [exact Hq1|]. split; [congruence|].
    intros e [->|He]%elem_of_cons; [simpl; congruence|auto].
  - apply applyDropResult_notApplied; assumption.
Qed.

Lemma complete_notApplied operation r id :
  notApplied id r.1 ->
  (forall t', r.2 = Suspended t' -> taskToken t' = id -> beforeApply t' = true) ->
  notApplied id (complete operation r).
Proof.
  destruct r as [s c]; simpl. intros Hq Hc.
  destruct c as [t'| |]; simpl.
  - destruct Hq as (Hq1 & Hq2 & Hq3). unfold notApplied, widgetToken. simpl.
    split; [|split; assumption].
    intros t [Ht| ->%list_elem_of_singleton]%elem_of_app Htok; [auto|].
    apply Hc; [reflexivity|exact Htok].
  - destruct operation as [op|]; [|exact Hq].
    pose proof (finallyBlock_frame op s) as (He & _ & Ht & _ & _ & _ & Hw).
    eapply notApplied_frame; eauto.
  - destruct operation as [op|]; [|exact Hq].
    pose proof (finallyBlock_frame op s) as (He & _ & Ht & _ & _ & _ & Hw).
    eapply notApplied_frame; eauto.
Qed.

Lemma resume_notApplied t cancelledFirst s id :
  (taskToken t = id -> beforeApply t = true /\ isCancellationRequested id s = true) ->
  notApplied id s ->
  notApplied id (resume t cancelledFirst s).
Proof.
  intros Hpre Hq. unfold resume.
  destruct (decide (taskToken t = id)) as [Heq|Hne].
  - destruct (Hpre Heq) as [Hb Hc].
    destruct (cancelled_segment_returns t cancelledFirst s Hb) as (c & Hseg & Hns).
    { rewrite Heq. exact Hc. }
    rewrite Hseg. apply complete_notApplied; simpl; [exact Hq|].
    intros t' ->. exfalso. eapply Hns. reflexivity.
  - destruct (segment_notApplied t cancelledFirst s id Hne Hq) as (Hq' & _ & Htok).
    apply complete_notApplied; [exact Hq'|].
    intros t' Hs Ht'. rewrite (Htok t' Hs) in Ht'. contradiction.
Qed.

Lemma onDropIntoEditor_frame position dragEvent s :
  effects (onDropIntoEditor position dragEvent s) = effects s
  /\ _postDropWidgetManager (controller (onDropIntoEditor position dragEvent s))
     = _postDropWidgetManager (controller s)
  /\ document (onDropIntoEditor position dragEvent s) = document s
  /\ (tasks (onDropIntoEditor position dragEvent s) = tasks s
      \/ tasks (onDropIntoEditor position dragEvent s)
         = tasks s ++ [AwaitExtract (operationIdPool (controller s)) position
                         (extractDataTransferData dragEvent)]).
Proof.
  unfold onDropIntoEditor. destruct (_ || _); [repeat split; auto|].
  unfold cancelCurrentOperation. destruct (_currentOperation (controller s)); simpl;
    repeat split; auto.
Qed.

(** An event leaves an operation that has not applied anything in that
    state, unless it resumes a task of that very operation whose token has
    not fired. *)
Lemma step_notApplied e id s :
  (forall n b t, e = Settle n b -> tasks s !! n = Some t -> taskToken t = id ->
                 isCancellationRequested id s = true) ->
  notApplied id s -> notApplied id (step e s).
Proof.
  intros Hc Hq.
  destruct e as [position dragEvent|n b| |m|d|v|j]; simpl.
  - destruct (onDropIntoEditor_frame position dragEvent s) as (He & Hw & _ & [Ht|Ht]).
    + eapply notApplied_frame; eauto.
    + destruct Hq as (Hq1 & Hq2 & Hq3). unfold notApplied, widgetToken.
      rewrite Ht, He, Hw. split; [|split; assumption].
      intros t [H| ->%list_elem_of_singleton]%elem_of_app Htok; [auto|reflexivity].
  - destruct (tasks s !! n) as [t|] eqn:Hn; [|exact Hq].
    apply resume_notApplied.
    + intros Htok. split.
      * apply Hq; [|exact Htok]. eapply list_elem_of_lookup_2. exact Hn.
      * exact (Hc n b t eq_refl Hn Htok).
    + destruct Hq as (Hq1 & Hq2 & Hq3). split; [|split; assumption].
      intros t' Ht'. simpl in Ht'. apply list_elem_of_delete_inv in Ht'. auto.
  - destruct (_dropProgressManager (controller s)) as [[? op]|]; [|exact Hq].
    eapply notApplied_frame; [..|exact Hq]; reflexivity.
  - eapply notApplied_frame; [..|exact Hq]; reflexivity.
  - eapply notApplied_frame; [..|exact Hq]; reflexivity.
  - eapply notApplied_frame; [..|exact Hq]; reflexivity.
  - destruct (_postDropWidgetManager (controller s)) as [w|] eqn:Hw; [|exact Hq].
    destruct (j =? activeEditIndex w); [exact Hq|].
    assert (Hne : cb_token (onDidSelectEdit w) <> id).
    { destruct Hq as (_ & Hq2 & _). unfold widgetToken in Hq2. rewrite Hw in Hq2. congruence. }
    assert (Hu : notApplied id (model_undo s)).
    { unfold model_undo. destruct (undoStack (document s)); [exact Hq|].
      eapply notApplied_frame; [..|exact Hq]; reflexivity. }
    destruct Hu as (Hq1 & Hq2 & Hq3). unfold selectEdit, notApplied, widgetToken. simpl.
    split; [|split].
    + intros t [H| ->%list_elem_of_singleton]%elem_of_app Htok; [auto|].
      simpl in Htok. contradiction.
    + exact Hq2.
    + intros e [->|He]%elem_of_cons; [simpl; congruence|auto].
Qed.

(** Being cancelled before the apply step is preserved by every event. *)
Lemma step_cancelledBeforeApply e id s :
  cancelledBeforeApply id s -> cancelledBeforeApply id (step e s).
Proof.
  intros (Hlt & Hc & Hq).
  split; [pose proof (step_pool e s); lia|].
  split; [apply step_requested; assumption|].
  apply step_notApplied; [|exact Hq]. intros; exact Hc.
Qed.

Lemma run_cancelledBeforeApply events id s :
  cancelledBeforeApply id s -> cancelledBeforeApply id (run events s).
Proof.
  unfold run. revert s. induction events as [|e events IH]; intros s H; simpl.
  - exact H.
  - apply IH, step_cancelledBeforeApply, H.
Qed.

(** ** The states the controller reaches *)

Lemma filter_sameToken_nil (l : list Task) id :
  (forall t, t ∈ l -> taskToken t <> id) -> List.filter (sameToken id) l = [].
Proof.
  induction l as [|t l IH]; intros H; simpl; [reflexivity|].
  unfold sameToken at 1. destruct (Z.eqb_spec (taskToken t) id) as [Heq|_].
  - exfalso. apply (H t); [left|exact Heq].
  - apply IH. intros t' Ht'. apply H. right. exact Ht'.
Qed.

Lemma filter_unit_middle {A} (f : A -> bool) la x lb y :
  List.filter f (la ++ x :: lb) = [y] -> f x = true ->
  x = y /\ List.filter f la = [] /\ List.filter f lb = [].
Proof.
  rewrite List.filter_app. simpl. intros H Hf. rewrite Hf in H.
  destruct (List.filter f la) as [|a l].
  - simpl in H. injection H as -> ->. auto.
  - simpl in H. injection H as _ H. destruct l; discriminate.
Qed.

Lemma filter_unit_skip {A} (f : A -> bool) la x lb y :
  List.filter f (la ++ x :: lb) = [y] -> f x = false -> List.filter f (la ++ lb) = [y].
Proof. rewrite !List.filter_app. simpl. intros H Hf. rewrite Hf in H. exact H. Qed.

Lemma filter_nil_elem {A} (f : A -> bool) l x :
  List.filter f l = [] -> x ∈ l -> f x = false.
Proof.
  intros H Hx. destruct (f x) eqn:Hf; [|reflexivity].
  assert (Hin : In x (List.filter f l)).
  { apply filter_In. split; [apply list_elem_of_In; exact Hx|exact Hf]. }
  rewrite H in Hin. destruct Hin.
Qed.

Lemma segment_tasks t cancelledFirst s :
  tasks (segment t cancelledFirst s).1 = tasks s
  /\ (forall t', (segment t cancelledFirst s).2 = Suspended t' -> taskToken t' = taskToken t).
Proof.
  assert (Happly : forall operation position i es token,
            tasks (applyDropResult operation position i es token s).1 = tasks s
            /\ (forall t', (applyDropResult operation position i es token s).2 = Suspended t' ->
                           taskToken t' = token)).
  { intros operation position i es token.
    destruct (applyDropResult_cases operation position i es token s)
      as [->|(m & e & s' & d & r & Hm & He & _)]; [split; [reflexivity|discriminate]|].
    destruct (applyDropResult_applies operation position i es token s m e Hm He)
      as (s2 & d2 & r2 & -> & _ & _ & _ & Ht). simpl.
    split; [exact Ht|]. intros t' [= <-]. reflexivity. }
  destruct t as [op position payload|op position results
                |op model position i es token dec editResult|cb i]; simpl.
  - unfold resumeExtract. destruct (_ || _); [split; [reflexivity|discriminate]|].
    destruct (editorModel (editor s)) as [m|]; [|split; [reflexivity|discriminate]]. simpl.
    split; [apply logInvocations_frame|]. intros t' [= <-]. reflexivity.
  - unfold resumeProviders. destruct (raceCancellation _ _) as [[values|]|];
      try (split; [reflexivity|discriminate]);
      destruct (isCancellationRequested op s); try (split; [reflexivity|discriminate]).
    apply Happly.
  - unfold resumeApply. destruct editResult as [b|]; [|split; [reflexivity|discriminate]].
    destruct (b && _); [destruct (String.eqb _ _)|]; split; try reflexivity; discriminate.
  - apply Happly.
Qed.

(** What a segment adds carries the token of its task; a segment that
    suspends before the apply step adds provider invocations only. *)
Lemma segment_summary t cancelledFirst s :
  (forall id, widgetToken (segment t cancelledFirst s).1 = Some id ->
              widgetToken s = Some id \/ id = taskToken t)
  /\ (forall e id, e ∈ effects (segment t cancelledFirst s).1 -> effectToken e = Some id ->
                   e ∈ effects s \/ id = taskToken t)
  /\ (forall t', (segment t cancelledFirst s).2 = Suspended t' -> beforeApply t' = true ->
        beforeApply t = true
        /\ _postDropWidgetManager (controller (segment t cancelledFirst s).1)
           = _postDropWidgetManager (controller s)
        /\ forall e, e ∈ effects (segment t cancelledFirst s).1 ->
                     e ∈ effects s \/ effectToken e = None).
Proof.
  assert (Hsame : forall c, (forall t', c <> Suspended t') ->
    (forall id, widgetToken (s, c).1 = Some id -> widgetToken s = Some id \/ id = taskToken t)
    /\ (forall e id, e ∈ effects (s, c).1 -> effectToken e = Some id ->
                     e ∈ effects s \/ id = taskToken t)
    /\ (forall t', (s, c).2 = Suspended t' -> beforeApply t' = true ->
          beforeApply t = true
          /\ _postDropWidgetManager (controller (s, c).1) = _postDropWidgetManager (controller s)
          /\ forall e, e ∈ effects (s, c).1 -> e ∈ effects s \/ effectToken e = None)).
  { intros c Hc. simpl. split; [auto|]. split; [auto|].
    intros t' ->. exfalso. eapply Hc. reflexivity. }
  assert (Happly : forall operation position i es,
    let r := applyDropResult operation position i es (taskToken t) s in
    (forall id, widgetToken r.1 = Some id -> widgetToken s = Some id \/ id = taskToken t)
    /\ (forall e id, e ∈ effects r.1 -> effectToken e = Some id ->
                     e ∈ effects s \/ id = taskToken t)
    /\ (forall t', r.2 = Suspended t' -> beforeApply t' = true ->
          beforeApply t = true
          /\ _postDropWidgetManager (controller r.1) = _postDropWidgetManager (controller s)
          /\ forall e, e ∈ effects r.1 -> e ∈ effects s \/ effectToken e = None)).
  { intros operation position i es r. subst r.
    destruct (applyDropResult_cases operation position i es (taskToken t) s)
      as [->|(m & e & s' & d & r & Hm & He & _)]; [apply Hsame; discriminate|].
    destruct (applyDropResult_applies operation position i es (taskToken t) s m e Hm He)
      as (s2 & d2 & r2 & -> & Heff & Hc & _). simpl.
    split; [|split].
    - unfold widgetToken. rewrite Hc. auto.
    - rewrite Heff. intros e' id [->|H]%elem_of_cons Htok; [|auto].
      simpl in Htok. right. congruence.
    - intros t' [= <-]. discriminate. }
  destruct t as [op position payload|op position results
                |op model position i es token dec editResult|cb i]; simpl in *.
  - unfold resumeExtract. destruct (_ || _); [apply Hsame; discriminate|].
    destruct (editorModel (editor s)) as [m|]; [|apply Hsame; discriminate]. simpl.
    destruct (logInvocations_frame (List.filter (keepProvider payload) (registry s m)) op s)
      as [Ht Hc].
    assert (He : forall e, e ∈ effects (logInvocations
                    (List.filter (keepProvider payload) (registry s m)) op s) ->
                  e ∈ effects s \/ effectToken e = None).
    { intros e. rewrite effects_logInvocations. intros [H|H]%elem_of_app; [|auto].
      apply list_elem_of_In, in_rev, in_map_iff in H as (p & <- & _). right. reflexivity. }
    split; [|split].
    + unfold widgetToken. rewrite Hc. auto.
    + intros e id H Htok. destruct (He e H) as [?|Hn]; [auto|congruence].
    + intros t' _ _. split; [reflexivity|]. split; [rewrite Hc; reflexivity|exact He].
  - unfold resumeProviders. destruct (raceCancellation _ _) as [[values|]|];
      try (apply Hsame; discriminate);
      destruct (isCancellationRequested op s); try (apply Hsame; discriminate).
    apply Happly.
  - unfold resumeApply. destruct editResult as [b|]; [|apply Hsame; discriminate].
    destruct (b && _); [destruct (String.eqb _ _)|]; simpl.
    + split; [|split].
      * unfold widgetToken. simpl. intros id [= <-]. auto.
      * intros e id [->|H]%elem_of_cons Htok; [|auto]. simpl in Htok. right. congruence.
      * discriminate.
    + split; [auto|]. split; [auto|discriminate].
    + split; [auto|]. split; [auto|discriminate].
  - apply Happly.
Qed.

Lemma complete_frame operation (r : State * Completion) :
  effects (complete operation r) = effects r.1
  /\ _postDropWidgetManager (controller (complete operation r)) = _postDropWidgetManager (controller r.1)
  /\ ((tasks (complete operation r) = tasks r.1 /\ forall t', r.2 <> Suspended t')
      \/ exists t', r.2 = Suspended t' /\ tasks (complete operation r) = tasks r.1 ++ [t']).
Proof.
  destruct r as [s [t'| |]]; simpl.
  - split; [reflexivity|]. split; [reflexivity|]. right. exists t'. auto.
  - destruct operation as [op|].
    + pose proof (finallyBlock_frame op s) as (He & _ & Ht & _ & _ & _ & Hw).
      split; [exact He|]. split; [exact Hw|]. left. split; [exact Ht|discriminate].
    + split; [reflexivity|]. split; [reflexivity|]. left. split; [reflexivity|discriminate].
  - destruct operation as [op|].
    + pose proof (finallyBlock_frame op s) as (He & _ & Ht & _ & _ & _ & Hw).
      split; [exact He|]. split; [exact Hw|]. left. split; [exact Ht|discriminate].
    + split; [reflexivity|]. split; [reflexivity|]. left. split; [reflexivity|discriminate].
Qed.

Lemma wellFormed_frame s s' :
  tasks s' = tasks s ->
  operationIdPool (controller s') = operationIdPool (controller s) ->
  _postDropWidgetManager (controller s') = _postDropWidgetManager (controller s) ->
  effects s' = effects s ->
  wellFormed s -> wellFormed s'.
Proof.
  intros Ht Hp Hw He (Ga & Gb & Gc & Gd). unfold wellFormed, widgetToken in *.
  rewrite Ht, Hp, Hw, He. split; [exact Ga|]. split; [exact Gb|]. split; [exact Gc|].
  intros t Hin Hb. destruct (Gd t Hin Hb) as [Hq Hf]. split; [|exact Hf].
  eapply notApplied_frame; eauto.
Qed.

Lemma sameToken_refl t : sameToken (taskToken t) t = true.
Proof. unfold sameToken. apply Z.eqb_refl. Qed.

Lemma sameToken_ne id t : taskToken t <> id -> sameToken id t = false.
Proof. unfold sameToken. intros H. apply Z.eqb_neq. exact H. Qed.

Lemma wellFormed_drop position dragEvent s :
  wellFormed s -> wellFormed (step (DropIntoEditor position dragEvent) s).
Proof.
  intros G. pose proof G as (Ga & Gb & Gc & Gd).
  destruct (dataTransfer dragEvent) as [native|] eqn:Hd;
    [|simpl; rewrite drop_without_dataTransfer by exact Hd; exact G].
  destruct (editorModel (editor s)) as [m|] eqn:Hm;
    [|simpl; rewrite drop_without_model by exact Hm; exact G].
  destruct (drop_allocates_operation position dragEvent s) as (Hp & _ & _ & Ht).
  { rewrite Hd. eexists; reflexivity. }
  { rewrite Hm. eexists; reflexivity. }
  destruct (onDropIntoEditor_frame position dragEvent s) as (He & Hw & _).
  set (new := AwaitExtract (operationIdPool (controller s)) position
                (extractDataTransferData dragEvent)) in *.
  assert (Hnew : taskToken new = operationIdPool (controller s)) by reflexivity.
  split; [|split; [|split]].
  - simpl. rewrite Ht, Hp.
    intros t [H| ->%list_elem_of_singleton]%elem_of_app; [apply Ga in H; lia|simpl; lia].
  - unfold widgetToken in *. simpl. rewrite Hw, Hp. intros id H. apply Gb in H. lia.
  - simpl. rewrite He, Hp. intros e id H Htok. pose proof (Gc e id H Htok). lia.
  - intros t Hin Hb. split.
    + simpl in Hin. rewrite Ht in Hin.
      apply elem_of_app in Hin as [Hin| ->%list_elem_of_singleton].
      * apply step_notApplied; [discriminate|]. apply Gd; assumption.
      * rewrite Hnew. unfold notApplied, widgetToken. simpl. rewrite Ht, He, Hw.
        split; [|split].
        -- intros t [H| ->%list_elem_of_singleton]%elem_of_app Htok; [|reflexivity].
           apply Ga in H. lia.
        -- intros H. apply Gb in H. lia.
        -- intros e H Htok. pose proof (Gc e _ H Htok). lia.
    + simpl in Hin |- *. rewrite Ht in Hin |- *. rewrite List.filter_app.
      apply elem_of_app in Hin as [Hin| ->%list_elem_of_singleton].
      * destruct (Gd t Hin Hb) as [_ ->]. simpl.
        rewrite sameToken_ne; [reflexivity|]. rewrite Hnew. apply Ga in Hin. lia.
      * rewrite filter_sameToken_nil.
        -- cbn [List.filter app]. rewrite sameToken_refl. reflexivity.
        -- intros t H. apply Ga in H. rewrite Hnew. lia.
Qed.

Lemma model_undo_frame s :
  tasks (model_undo s) = tasks s
  /\ controller (model_undo s) = controller s
  /\ effects (model_undo s) = effects s.
Proof.
  unfold model_undo. destruct (undoStack (document s)); repeat split; reflexivity.
Qed.

Lemma wellFormed_select j s :
  wellFormed s -> wellFormed (step (SelectEdit j) s).
Proof.
  intros G. pose proof G as (Ga & Gb & Gc & Gd).
  assert (Hstep : forall id, notApplied id s -> notApplied id (step (SelectEdit j) s)).
  { intros id. apply step_notApplied. discriminate. }
  revert Hstep. simpl.
  destruct (_postDropWidgetManager (controller s)) as [w|] eqn:Hw; [|intros _; exact G].
  destruct (j =? activeEditIndex w); [intros _; exact G|].
  intros Hstep.
  assert (Htok : widgetToken s = Some (cb_token (onDidSelectEdit w))).
  { unfold widgetToken. rewrite Hw. reflexivity. }
  destruct (model_undo_frame s) as (Ht & Hc & He).
  split; [|split; [|split]].
  - simpl. rewrite Ht, Hc.
    intros t [H| ->%list_elem_of_singleton]%elem_of_app; [auto|]. simpl. auto.
  - unfold widgetToken in *. simpl. rewrite Hc. exact Gb.
  - simpl. rewrite He, Hc. intros e id [->|H]%elem_of_cons Hid; [|eauto].
    simpl in Hid. injection Hid as <-. auto.
  - simpl. rewrite Ht. intros t [Hin| ->%list_elem_of_singleton]%elem_of_app Hb;
      [|discriminate].
    destruct (Gd t Hin Hb) as [Hq Hf]. split.
    + apply Hstep. exact Hq.
    + rewrite List.filter_app, Hf. simpl. rewrite sameToken_ne; [reflexivity|].
      simpl. destruct Hq as (_ & Hq2 & _). congruence.
Qed.

Lemma wellFormed_settle n b s :
  wellFormed s -> wellFormed (step (Settle n b) s).
Proof.
  intros G. pose proof G as (Ga & Gb & Gc & Gd).
  assert (Hstep : forall id,
            (forall t, tasks s !! n = Some t -> taskToken t <> id) ->
            notApplied id s -> notApplied id (step (Settle n b) s)).
  { intros id Hne. apply step_notApplied.
    intros n' b' t [= <- <-] Hl Htok. exfalso. eapply Hne; eauto. }
  revert Hstep. simpl.
  destruct (tasks s !! n) as [t0|] eqn:Hn; [|intros _; exact G]. intros Hstep.
  destruct (list_elem_of_split_length _ _ _ Hn) as (la & lb & Hsplit & Hlen).
  set (sd := with_tasks (delete n) s) in *.
  assert (Hsd : tasks sd = la ++ lb).
  { subst sd; simpl. rewrite Hsplit, Hlen. apply delete_middle. }
  destruct (segment_tasks t0 b sd) as [Htasks Htok'].
  destruct (segment_summary t0 b sd) as (Sw & Se & Sp).
  pose proof (segment_controller_pool t0 b sd) as Hpool.
  unfold resume in *.
  destruct (complete_frame (taskOperation t0) (segment t0 b sd)) as (Ce & Cw & Ct).
  pose proof (complete_pool (taskOperation t0) (segment t0 b sd)) as Cp.
  set (s' := complete (taskOperation t0) (segment t0 b sd)) in *.
  assert (Hin0 : t0 ∈ tasks s) by (eapply list_elem_of_lookup_2; eauto).
  assert (Hold : forall t, t ∈ la ++ lb -> t ∈ tasks s).
  { rewrite Hsplit. intros t [H|H]%elem_of_app; apply elem_of_app;
      [left|right; right]; exact H. }
  assert (Htasks' : forall t, t ∈ tasks s' ->
                              t ∈ la ++ lb \/ (segment t0 b sd).2 = Suspended t).
  { destruct Ct as [[-> _]|(t' & Hs & ->)]; rewrite Htasks, Hsd; [auto|].
    intros t [H| ->%list_elem_of_singleton]%elem_of_app; auto. }
  split; [|split; [|split]].
  - intros t Ht. rewrite Cp, Hpool. destruct (Htasks' t Ht) as [H|H].
    + apply Ga, Hold, H.
    + rewrite (Htok' t H). apply Ga, Hin0.
  - intros id Hid. rewrite Cp, Hpool. unfold widgetToken in Hid. rewrite Cw in Hid.
    destruct (Sw id Hid) as [H| ->]; [apply Gb; exact H|apply Ga, Hin0].
  - intros e id He Hid. rewrite Cp, Hpool. rewrite Ce in He.
    destruct (Se e id He Hid) as [H| ->]; [eapply Gc; eauto|apply Ga, Hin0].
  - intros t Ht Hb. destruct (Htasks' t Ht) as [H|H].
    + pose proof (Hold t H) as Hin. destruct (Gd t Hin Hb) as [Hq Hf].
      assert (Hne : taskToken t0 <> taskToken t).
      { intros Heq. rewrite Hsplit in Hf.
        destruct (filter_unit_middle _ _ _ _ _ Hf) as (_ & Hla & Hlb).
        { unfold sameToken. apply Z.eqb_eq. exact Heq. }
        apply elem_of_app in H as [H|H];
          [pose proof (filter_nil_elem _ _ _ Hla H) as Hx
          |pose proof (filter_nil_elem _ _ _ Hlb H) as Hx];
          rewrite sameToken_refl in Hx; discriminate. }
      split.
      * apply Hstep; [|exact Hq]. intros t1 [= <-]. exact Hne.
      * rewrite Hsplit in Hf. apply filter_unit_skip in Hf; [|apply sameToken_ne; exact Hne].
        destruct Ct as [[-> _]|(t' & Hs & ->)]; rewrite Htasks, Hsd; [exact Hf|].
        rewrite List.filter_app, Hf. cbn [List.filter app].
        rewrite sameToken_ne; [reflexivity|]. rewrite (Htok' t' Hs). exact Hne.
    + destruct (Sp t H Hb) as (Hb0 & Hw & He).
      destruct (Gd t0 Hin0 Hb0) as [Hq0 Hf0].
      rewrite Hsplit in Hf0.
      destruct (filter_unit_middle _ _ _ _ _ Hf0 (sameToken_refl t0)) as (_ & Hla & Hlb).
      pose proof (Htok' t H) as Htt.
      assert (Htasks_s' : tasks s' = (la ++ lb) ++ [t]).
      { destruct Ct as [[_ Hns]|(t' & Hs & ->)]; [exfalso; eapply Hns; eauto|].
        rewrite H in Hs. injection Hs as <-. rewrite Htasks, Hsd. reflexivity. }
      rewrite Htt. destruct Hq0 as (Hq1 & Hq2 & Hq3). split.
      * unfold notApplied. split; [|split].
        -- rewrite Htasks_s'.
           intros t'' [Hx| ->%list_elem_of_singleton]%elem_of_app Htk; [|exact Hb].
           apply Hq1; [apply Hold; exact Hx|exact Htk].
        -- unfold widgetToken. rewrite Cw, Hw. exact Hq2.
        -- intros e Hx. rewrite Ce in Hx. destruct (He e Hx) as [Ho|Hn'].
           ++ apply Hq3. exact Ho.
           ++ rewrite Hn'. discriminate.
      * rewrite Htasks_s', !List.filter_app, Hla, Hlb. cbn [List.filter app].
        unfold sameToken at 1. rewrite Htt, Z.eqb_refl. reflexivity.
Qed.

Lemma step_wellFormed e s : wellFormed s -> wellFormed (step e s).
Proof.
  intros G. destruct e as [position dragEvent|n b| |m|d|v|j].
  - apply wellFormed_drop. exact G.
  - apply wellFormed_settle. exact G.
  - simpl. destruct (_dropProgressManager (controller s)) as [[? op]|]; [|exact G].
    eapply wellFormed_frame; [..|exact G]; reflexivity.
  - eapply wellFormed_frame; [..|exact G]; reflexivity.
  - eapply wellFormed_frame; [..|exact G]; reflexivity.
  - eapply wellFormed_frame; [..|exact G]; reflexivity.
  - apply wellFormed_select. exact G.
Qed.

Lemma initial_wellFormed s : initial s -> wellFormed s.
Proof.
  intros (Ht & Hw & He). unfold wellFormed, widgetToken. rewrite Ht, Hw, He.
  split; [intros t H; inversion H|]. split; [discriminate|].
  split; [intros e id H; inversion H|]. intros t H; inversion H.
Qed.

Lemma run_wellFormed events s : wellFormed s -> wellFormed (run events s).
Proof.
  unfold run. revert s. induction events as [|e events IH]; intros s H; simpl.
  - exact H.
  - apply IH, step_wellFormed, H.
Qed.

(** In a reachable state, an operation that still waits for its payload or
    for its providers, and whose token has fired, is cancelled before its
    apply step. *)
Lemma pending_cancelledBeforeApply s t :
  wellFormed s ->
  t ∈ tasks s -> beforeApply t = true ->
  isCancellationRequested (taskToken t) s = true ->
  cancelledBeforeApply (taskToken t) s.
Proof.
  intros (Ga & _ & _ & Gd) Hin Hb Hc.
  split; [apply Ga; exact Hin|]. split; [exact Hc|]. apply Gd; assumption.
Qed.

(** The continuation of an operation that is cancelled before its apply
    step only runs the [finally] block. *)
Lemma cancelled_settle_abandons n b id s t :
  cancelledBeforeApply id s ->
  tasks s !! n = Some t -> taskToken t = id ->
  step (Settle n b) s = finallyBlock id (with_tasks (delete n) s)
  /\ document (step (Settle n b) s) = document s
  /\ effects (step (Settle n b) s) = effects s
  /\ tasks (step (Settle n b) s) = delete n (tasks s)
  /\ _postDropWidgetManager (controller (step (Settle n b) s)) = _postDropWidgetManager (controller s).
Proof.
  intros (_ & Hc & Hq & _) Hn Htok.
  assert (Hb : beforeApply t = true).
  { apply Hq; [eapply list_elem_of_lookup_2; exact Hn|exact Htok]. }
  assert (Hop : taskOperation t = Some id).
  { destruct t; try discriminate; simpl in *; congruence. }
  assert (Heq : step (Settle n b) s = finallyBlock id (with_tasks (delete n) s)).
  { simpl. rewrite Hn. unfold resume.
    destruct (cancelled_segment_returns t b (with_tasks (delete n) s) Hb) as (c & -> & Hns).
    { rewrite Htok. exact Hc. }
    rewrite Hop. destruct c; [exfalso; eapply Hns; reflexivity| |]; reflexivity. }
  split; [exact Heq|]. rewrite Heq.
  pose proof (finallyBlock_frame id (with_tasks (delete n) s)) as (He & Hd & Ht & _ & _ & _ & Hw).
  rewrite He, Hd, Ht, Hw. repeat split; reflexivity.
Qed.

(** C3 (cancelled before the apply step): take any run of the controller
    from an initial state, and an operation that in the state reached still
    waits for its payload or for its providers while its token has fired.
    Then, however the run continues, no bulk edit, undo or widget is ever
    requested with that operation's token, and when the operation's own
    continuation runs, the provider results are dropped: the document, the
    effects and the widget are left as they are and the operation ends
    with its [finally] block. *)
Theorem cancelled_before_apply_applies_nothing :
  forall events1 events2 s0 t,
    initial s0 ->
    t ∈ tasks (run events1 s0) ->
    beforeApply t = true ->
    isCancellationRequested (taskToken t) (run events1 s0) = true ->
    let id := taskToken t in
    let s' := run events2 (run events1 s0) in
    (forall e, e ∈ effects s' -> effectToken e <> Some id)
    /\ (forall edit, BulkEditRequested edit id ∉ effects s')
    /\ (UndoRequested id ∉ effects s')
    /\ (forall n b t',
          tasks s' !! n = Some t' -> taskToken t' = id ->
          beforeApply t' = true
          /\ step (Settle n b) s' = finallyBlock id (with_tasks (delete n) s')
          /\ document (step (Settle n b) s') = document s'
          /\ effects (step (Settle n b) s') = effects s'
          /\ tasks (step (Settle n b) s') = delete n (tasks s')
          /\ _postDropWidgetManager (controller (step (Settle n b) s'))
             = _postDropWidgetManager (controller s')).
Proof.
  intros events1 events2 s0 t Hinit Hin Hb Hc id s'.
  assert (K : cancelledBeforeApply id s').
  { apply run_cancelledBeforeApply, pending_cancelledBeforeApply; try assumption.
    apply run_wellFormed, initial_wellFormed, Hinit. }
  pose proof K as (_ & _ & Hq1 & _ & Hq3).
  split; [exact Hq3|]. split; [|split].
  - intros edit H. apply (Hq3 _ H). reflexivity.
  - intros H. apply (Hq3 _ H). reflexivity.
  - intros n b t' Hn Htok. split.
    + apply Hq1; [eapply list_elem_of_lookup_2; exact Hn|exact Htok].
    + eapply cancelled_settle_abandons; eauto.
Qed.

End Properties.

(** * Further properties of the controller *)

Section Bookkeeping.
Context `{host : Host}.

Implicit Types (s : State) (t : Task) (position : IPosition).

(** ** What a segment leaves alone *)

Lemma applyDropResult_slot operation position i es token s :
  _currentOperation (controller (applyDropResult operation position i es token s).1)
  = _currentOperation (controller s)
  /\ _dropProgressManager (controller (applyDropResult operation position i es token s).1)
     = _dropProgressManager (controller s).
Proof.
  destruct (applyDropResult_cases operation position i es token s)
    as [->|(m & e & s' & d & r & Hm & He & _)]; [split; reflexivity|].
  destruct (applyDropResult_applies operation position i es token s m e Hm He)
    as (s2 & d2 & r2 & -> & _ & Hc & _). simpl. rewrite Hc. split; reflexivity.
Qed.

Lemma segment_slot t cancelledFirst s :
  _currentOperation (controller (segment t cancelledFirst s).1)
  = _currentOperation (controller s)
  /\ _dropProgressManager (controller (segment t cancelledFirst s).1)
     = _dropProgressManager (controller s).
Proof.
  destruct t as [id position payload|id position results
                |op model position i es token dec editResult|cb i]; simpl.
  - unfold resumeExtract. destruct (_ || _); [split; reflexivity|].
    destruct (editorModel (editor s)) as [m|]; [|split; reflexivity]. simpl.
    destruct (logInvocations_frame (List.filter (keepProvider payload) (registry s m)) id s)
      as [_ ->]. split; reflexivity.
  - unfold resumeProviders. destruct (raceCancellation _ _) as [[values|]|];
      try (split; reflexivity);
      destruct (isCancellationRequested id s); try (split; reflexivity).
    apply applyDropResult_slot.
  - unfold resumeApply. destruct editResult as [b|]; [|split; reflexivity].
    destruct (b && _); [destruct (String.eqb _ _)|]; split; reflexivity.
  - apply applyDropResult_slot.
Qed.

(** The task a segment suspends on belongs to the same operation. *)
Lemma segment_operation t cancelledFirst s t' :
  (segment t cancelledFirst s).2 = Suspended t' -> taskOperation t' = taskOperation t.
Proof.
  assert (Happly : forall operation position i es token,
            (applyDropResult operation position i es token s).2 = Suspended t' ->
            taskOperation t' = operation).
  { intros operation position i es token.
    destruct (applyDropResult_cases operation position i es token s)
      as [->|(m & e & s' & d & r & _ & _ & -> & _)]; [discriminate|].
    intros [= <-]. reflexivity. }
  destruct t as [id position payload|id position results
                |op model position i es token dec editResult|cb i]; simpl.
  - unfold resumeExtract. destruct (_ || _); [discriminate|].
    destruct (editorModel (editor s)); [|discriminate]. intros [= <-]. reflexivity.
  - unfold resumeProviders. destruct (raceCancellation _ _) as [[values|]|];
      try discriminate; destruct (isCancellationRequested id s); try discriminate.
    apply Happly.
  - unfold resumeApply. destruct editResult as [b|]; [|discriminate].
    destruct (b && _); [destruct (String.eqb _ _)|]; discriminate.
  - apply Happly.
Qed.

(** ** Token sources that still listen *)

Lemma liveSource_lookup (f : TokenSource -> TokenSource) id s s' :
  (forall src, disposed src = false ->
               (parentRequested src = true -> requested src = true) ->
               disposed (f src) = false
               /\ (parentRequested (f src) = true -> requested (f src) = true)) ->
  sources s' !! id = f <$> sources s !! id ->
  liveSource id s -> liveSource id s'.
Proof.
  intros Hf Hl (src & Hsrc & Hd & Hp). exists (f src).
  rewrite Hl, Hsrc. split; [reflexivity|]. apply Hf; assumption.
Qed.

Lemma keeps_onEditorChange src :
  disposed src = false -> (parentRequested src = true -> requested src = true) ->
  disposed (onEditorChange src) = false
  /\ (parentRequested (onEditorChange src) = true -> requested (onEditorChange src) = true).
Proof. destruct src as [p r d]; simpl. intros -> _. split; reflexivity. Qed.

Lemma keeps_cancelSource src :
  disposed src = false -> (parentRequested src = true -> requested src = true) ->
  disposed (cancelSource src) = false
  /\ (parentRequested (cancelSource src) = true -> requested (cancelSource src) = true).
Proof. destruct src as [p r d]; simpl. intros -> _. split; reflexivity. Qed.

Lemma keeps_cancelPromise src :
  disposed src = false -> (parentRequested src = true -> requested src = true) ->
  disposed (cancelPromise src) = false
  /\ (parentRequested (cancelPromise src) = true -> requested (cancelPromise src) = true).
Proof. destruct src as [p r d]; simpl. intros -> _. split; reflexivity. Qed.

Lemma liveSource_same id s s' :
  sources s' = sources s -> liveSource id s -> liveSource id s'.
Proof. unfold liveSource. intros ->. auto. Qed.

Lemma liveSource_fmap id s s' :
  sources s' = onEditorChange <$> sources s -> liveSource id s -> liveSource id s'.
Proof.
  intros H. apply (liveSource_lookup onEditorChange); [apply keeps_onEditorChange|].
  rewrite H. apply lookup_fmap.
Qed.

Lemma liveSource_alter (f : TokenSource -> TokenSource) k id s s' :
  (k = id ->
   forall src, disposed src = false ->
               (parentRequested src = true -> requested src = true) ->
               disposed (f src) = false
               /\ (parentRequested (f src) = true -> requested (f src) = true)) ->
  sources s' = alter f k (sources s) ->
  liveSource id s -> liveSource id s'.
Proof.
  intros Hf H. destruct (decide (k = id)) as [->|Hne].
  - apply (liveSource_lookup f); [apply Hf; reflexivity|].
    rewrite H. apply lookup_alter_eq.
  - apply (liveSource_lookup (fun x => x)); [auto|].
    rewrite H, lookup_alter_ne by exact Hne. destruct (sources s !! id); reflexivity.
Qed.

Lemma liveSource_requested id s :
  liveSource id s -> isParentCancellationRequested id s = true ->
  isCancellationRequested id s = true.
Proof.
  intros (src & Hsrc & _ & Hp). unfold isParentCancellationRequested, isCancellationRequested.
  rewrite Hsrc. exact Hp.
Qed.

(** The sources after a task has been resumed: an editor change at most,
    and the disposal of the task's operation if its body has ended. *)
Lemma resume_sources t cancelledFirst s :
  exists m,
    (m = sources s \/ m = onEditorChange <$> sources s)
    /\ (sources (resume t cancelledFirst s) = m
        \/ exists op, taskOperation t = Some op
                      /\ (forall t', (segment t cancelledFirst s).2 <> Suspended t')
                      /\ sources (resume t cancelledFirst s) = alter disposeSource op m).
Proof.
  exists (sources (segment t cancelledFirst s).1). split; [apply segment_sources|].
  unfold resume. destruct (segment t cancelledFirst s) as [s1 [t'| |]]; simpl.
  - left. reflexivity.
  - destruct (taskOperation t) as [op|]; [|left; reflexivity].
    right. exists op. split; [reflexivity|]. split; [discriminate|apply finallyBlock_sources].
  - destruct (taskOperation t) as [op|]; [|left; reflexivity].
    right. exists op. split; [reflexivity|]. split; [discriminate|apply finallyBlock_sources].
Qed.

Lemma resume_liveSource t cancelledFirst s id :
  (forall op, taskOperation t = Some op ->
              (forall t', (segment t cancelledFirst s).2 <> Suspended t') -> op <> id) ->
  liveSource id s -> liveSource id (resume t cancelledFirst s).
Proof.
  intros Hop Hl.
  destruct (resume_sources t cancelledFirst s) as (m & Hm & Hr).
  assert (Hlm : exists s1, sources s1 = m /\ liveSource id s1).
  { destruct Hm as [->| ->].
    - exists s. auto.
    - exists (editorStateChanged s). split; [reflexivity|].
      eapply liveSource_fmap; [reflexivity|exact Hl]. }
  destruct Hlm as (s1 & <- & Hl1).
  destruct Hr as [Hr|(op & Ho & Hns & Hr)].
  - eapply liveSource_same; eauto.
  - eapply (liveSource_alter disposeSource op); [|exact Hr|exact Hl1].
    intros ->. exfalso. exact (Hop id Ho Hns eq_refl).
Qed.

(** ** The bookkeeping is kept by every event *)

Lemma coherent_sources s s' :
  tasks s' = tasks s ->
  controller s' = controller s ->
  (forall id, liveSource id s -> liveSource id s') ->
  (forall id, isCancellationRequested id s = true -> isCancellationRequested id s' = true) ->
  coherent s -> coherent s'.
Proof.
  intros Ht Hc Hl Hr (I1 & I2 & I3 & I4 & I5). unfold coherent. rewrite Ht, Hc.
  split; [exact I1|]. split; [exact I2|]. split; [|split; [|exact I5]].
  - intros t Hin Hb. apply Hl, I3; assumption.
  - intros t Hin Hb Hne. apply Hr, I4; assumption.
Qed.

Lemma drop_accepted_sources position dragEvent s :
  is_Some (dataTransfer dragEvent) ->
  is_Some (editorModel (editor s)) ->
  sources (onDropIntoEditor position dragEvent s)
  = <[operationIdPool (controller s) := mkSource false false false]>
      (sources (cancelCurrentOperation s)).
Proof.
  intros Hd Hm. unfold onDropIntoEditor, hasModel.
  rewrite !bool_decide_eq_true_2 by assumption. simpl.
  unfold cancelCurrentOperation. destruct (_currentOperation (controller s)); reflexivity.
Qed.

Lemma cancelCurrentOperation_liveSource id s :
  liveSource id s -> liveSource id (cancelCurrentOperation s).
Proof.
  unfold cancelCurrentOperation. destruct (_currentOperation (controller s)) as [cur|]; [|auto].
  apply (liveSource_alter cancelPromise cur); [|reflexivity].
  intros _. apply keeps_cancelPromise.
Qed.

Lemma cancelCurrentOperation_requested id s :
  isCancellationRequested id s = true
  \/ (_currentOperation (controller s) = Some id /\ liveSource id s) ->
  isCancellationRequested id (cancelCurrentOperation s) = true.
Proof.
  unfold cancelCurrentOperation. intros [H|[Hcur (src & Hsrc & Hd & _)]].
  - destruct (_currentOperation (controller s)) as [cur|]; [|exact H].
    eapply requested_alter; [apply requested_cancelPromise|reflexivity|exact H].
  - rewrite Hcur. unfold isCancellationRequested. simpl.
    rewrite lookup_alter_eq, Hsrc. simpl. rewrite Hd. reflexivity.
Qed.

Lemma coherent_drop position dragEvent s :
  wellFormed s -> coherent s -> coherent (step (DropIntoEditor position dragEvent) s).
Proof.
  intros (Ga & _) C. pose proof C as (I1 & I2 & I3 & I4 & I5).
  destruct (dataTransfer dragEvent) as [native|] eqn:Hd;
    [|simpl; rewrite drop_without_dataTransfer by exact Hd; exact C].
  destruct (editorModel (editor s)) as [m|] eqn:Hm;
    [|simpl; rewrite drop_without_model by exact Hm; exact C].
  assert (Hd' : is_Some (dataTransfer dragEvent)) by (rewrite Hd; eexists; reflexivity).
  assert (Hm' : is_Some (editorModel (editor s))) by (rewrite Hm; eexists; reflexivity).
  destruct (drop_allocates_operation position dragEvent s Hd' Hm') as (Hp & Hcur & Hprog & Ht).
  pose proof (drop_accepted_sources position dragEvent s Hd' Hm') as Hsrc.
  simpl. set (s' := onDropIntoEditor position dragEvent s) in *.
  set (pool := operationIdPool (controller s)) in *.
  assert (Hold : forall t, t ∈ tasks s ->
            sources s' !! taskToken t = sources (cancelCurrentOperation s) !! taskToken t).
  { intros t Hin. rewrite Hsrc. apply lookup_insert_ne. apply Ga in Hin. fold pool in Hin. lia. }
  unfold coherent. rewrite Hcur, Hprog, Ht.
  split; [|split; [|split; [|split]]].
  - intros p id [= _ <-]. reflexivity.
  - intros id [= <-]. split; [eexists; reflexivity|].
    eexists. split; [apply elem_of_app; right; apply list_elem_of_singleton; reflexivity|].
    reflexivity.
  - intros t [Hin| ->%list_elem_of_singleton]%elem_of_app Hb.
    + apply (liveSource_lookup (fun x => x) _ (cancelCurrentOperation s)); [auto| |].
      * rewrite (Hold t Hin). destruct (sources _ !! _); reflexivity.
      * apply cancelCurrentOperation_liveSource, I3; assumption.
    + exists (mkSource false false false). simpl. rewrite Hsrc, lookup_insert_eq.
      split; [reflexivity|]. split; [reflexivity|discriminate].
  - intros t [Hin| ->%list_elem_of_singleton]%elem_of_app Hb Hne;
      [|exfalso; apply Hne; reflexivity].
    unfold isCancellationRequested. rewrite (Hold t Hin).
    apply cancelCurrentOperation_requested.
    destruct (decide (_currentOperation (controller s) = Some (taskToken t))) as [Hc|Hc].
    + right. split; [exact Hc|apply I3; assumption].
    + left. apply I4; assumption.
  - intros t op [Hin| ->%list_elem_of_singleton]%elem_of_app Hop; [eauto|].
    simpl in *. congruence.
Qed.

Lemma coherent_select j s :
  coherent s -> coherent (step (SelectEdit j) s).
Proof.
  intros C. pose proof C as (I1 & I2 & I3 & I4 & I5). simpl.
  destruct (_postDropWidgetManager (controller s)) as [w|]; [|exact C].
  destruct (j =? activeEditIndex w); [exact C|].
  destruct (model_undo_frame s) as (Ht & Hc & _).
  assert (Hl : forall id, liveSource id s -> liveSource id (model_undo s)).
  { intros id. unfold model_undo. destruct (undoStack (document s)); [auto|].
    apply liveSource_fmap. reflexivity. }
  unfold selectEdit, coherent. simpl. rewrite Ht, Hc.
  split; [exact I1|]. split; [|split; [|split]].
  - intros id Hid. destruct (I2 id Hid) as (Hp & t & Hin & Hop). split; [exact Hp|].
    exists t. split; [apply elem_of_app; left; exact Hin|exact Hop].
  - intros t [Hin| ->%list_elem_of_singleton]%elem_of_app Hb; [|discriminate].
    apply (liveSource_same _ (model_undo s)); [reflexivity|]. apply Hl, I3; assumption.
  - intros t [Hin| ->%list_elem_of_singleton]%elem_of_app Hb Hne; [|discriminate].
    change (isCancellationRequested (taskToken t) (model_undo s) = true).
    apply model_undo_requested, I4; assumption.
  - intros t op [Hin| ->%list_elem_of_singleton]%elem_of_app Hop; [eauto|discriminate].
Qed.

(** In a reachable state, two tasks of which one is before the apply step
    have different tokens. *)
Lemma other_task_other_token s la t0 lb t :
  wellFormed s ->
  tasks s = la ++ t0 :: lb ->
  t ∈ la ++ lb -> beforeApply t = true ->
  taskToken t0 <> taskToken t.
Proof.
  intros (_ & _ & _ & Gd) Hsplit H Hb Heq.
  assert (Hin : t ∈ tasks s).
  { rewrite Hsplit. apply elem_of_app in H as [H|H]; apply elem_of_app;
      [left|right; right]; exact H. }
  destruct (Gd t Hin Hb) as [_ Hf]. rewrite Hsplit in Hf.
  destruct (filter_unit_middle _ _ _ _ _ Hf) as (_ & Hla & Hlb).
  { unfold sameToken. apply Z.eqb_eq. exact Heq. }
  apply elem_of_app in H as [H|H];
    [pose proof (filter_nil_elem _ _ _ Hla H) as Hx
    |pose proof (filter_nil_elem _ _ _ Hlb H) as Hx];
    rewrite sameToken_refl in Hx; discriminate.
Qed.

(** The slot and the progress indicator after a task has been resumed. *)
Lemma resume_slot t cancelledFirst s :
  ((exists t', (segment t cancelledFirst s).2 = Suspended t')
   /\ _currentOperation (controller (resume t cancelledFirst s))
      = _currentOperation (controller s)
   /\ _dropProgressManager (controller (resume t cancelledFirst s))
      = _dropProgressManager (controller s))
  \/ ((forall t', (segment t cancelledFirst s).2 <> Suspended t')
      /\ ((exists op, taskOperation t = Some op
                      /\ _currentOperation (controller s) = Some op
                      /\ _currentOperation (controller (resume t cancelledFirst s)) = None
                      /\ _dropProgressManager (controller (resume t cancelledFirst s)) = None)
          \/ ((forall op, taskOperation t = Some op ->
                          _currentOperation (controller s) <> Some op)
              /\ _currentOperation (controller (resume t cancelledFirst s))
                 = _currentOperation (controller s)
              /\ _dropProgressManager (controller (resume t cancelledFirst s))
                 = _dropProgressManager (controller s)))).
Proof.
  destruct (segment_slot t cancelledFirst s) as [Hc Hp]. unfold resume.
  destruct (segment t cancelledFirst s) as [s1 c]. simpl in *.
  assert (Hend : (forall t', c <> Suspended t') ->
    (exists op, taskOperation t = Some op
                /\ _currentOperation (controller s) = Some op
                /\ _currentOperation (controller (match taskOperation t with
                                                   | Some o => finallyBlock o s1
                                                   | None => s1 end)) = None
                /\ _dropProgressManager (controller (match taskOperation t with
                                                      | Some o => finallyBlock o s1
                                                      | None => s1 end)) = None)
    \/ ((forall op, taskOperation t = Some op -> _currentOperation (controller s) <> Some op)
        /\ _currentOperation (controller (match taskOperation t with
                                          | Some o => finallyBlock o s1
                                          | None => s1 end))
           = _currentOperation (controller s)
        /\ _dropProgressManager (controller (match taskOperation t with
                                             | Some o => finallyBlock o s1
                                             | None => s1 end))
           = _dropProgressManager (controller s))).
  { intros _. destruct (taskOperation t) as [o|].
    - destruct (decide (_currentOperation (controller s1) = Some o)) as [He|He].
      + left. exists o. destruct (finallyBlock_current o s1 He) as [H1 H2].
        rewrite <- Hc. auto.
      + right. rewrite (finallyBlock_superseded o s1 He).
        split; [|split; assumption]. intros op [= <-]. rewrite <- Hc. exact He.
    - right. split; [discriminate|split; assumption]. }
  destruct c as [t'| |].
  - left. split; [eexists; reflexivity|]. simpl. split; assumption.
  - right. split; [discriminate|]. apply Hend. discriminate.
  - right. split; [discriminate|]. apply Hend. discriminate.
Qed.

Lemma coherent_settle n b s :
  wellFormed s -> coherent s -> coherent (step (Settle n b) s).
Proof.
  intros G C. pose proof C as (I1 & I2 & I3 & I4 & I5). simpl.
  destruct (tasks s !! n) as [t0|] eqn:Hn; [|exact C].
  destruct (list_elem_of_split_length _ _ _ Hn) as (la & lb & Hsplit & Hlen).
  set (sd := with_tasks (delete n) s) in *.
  assert (Hsd : tasks sd = la ++ lb).
  { subst sd; simpl. rewrite Hsplit, Hlen. apply delete_middle. }
  destruct (segment_tasks t0 b sd) as [Htasks Htok'].
  destruct (segment_summary t0 b sd) as (_ & _ & Sp).
  pose proof (segment_operation t0 b sd) as Sop.
  pose proof (resume_slot t0 b sd) as Hslot.
  change (controller sd) with (controller s) in Hslot.
  pose proof (resume_liveSource t0 b sd) as Hlive.
  pose proof (resume_requested t0 b) as Hreq.
  unfold resume in *.
  destruct (complete_frame (taskOperation t0) (segment t0 b sd)) as (_ & _ & Ct).
  set (s' := complete (taskOperation t0) (segment t0 b sd)) in *.
  assert (Hin0 : t0 ∈ tasks s) by (eapply list_elem_of_lookup_2; eauto).
  assert (Hold : forall t, t ∈ la ++ lb -> t ∈ tasks s).
  { rewrite Hsplit. intros t [H|H]%elem_of_app; apply elem_of_app;
      [left|right; right]; exact H. }
  assert (Htasks' : forall t, t ∈ tasks s' ->
                              t ∈ la ++ lb \/ (segment t0 b sd).2 = Suspended t).
  { destruct Ct as [[-> _]|(t' & Hs & ->)]; rewrite Htasks, Hsd; [auto|].
    intros t [H| ->%list_elem_of_singleton]%elem_of_app; auto. }
  assert (Hkeep : forall t, t ∈ la ++ lb -> t ∈ tasks s').
  { intros t H. destruct Ct as [[-> _]|(t' & Hs & ->)]; rewrite Htasks, Hsd;
      [exact H|apply elem_of_app; left; exact H]. }
  assert (Hnew : forall t', (segment t0 b sd).2 = Suspended t' -> t' ∈ tasks s').
  { intros t' Hs. destruct Ct as [[_ Hns]|(t'' & Hs' & ->)]; [exfalso; eapply Hns; eauto|].
    rewrite Hs in Hs'. injection Hs' as <-. apply elem_of_app. right.
    apply list_elem_of_singleton. reflexivity. }
  (* what an old or a new pending task before the apply step comes from *)
  assert (Horigin : forall t, t ∈ tasks s' -> beforeApply t = true ->
            exists t1, t1 ∈ tasks s /\ beforeApply t1 = true /\ taskToken t1 = taskToken t
                       /\ ((t ∈ la ++ lb /\ taskToken t0 <> taskToken t)
                           \/ (segment t0 b sd).2 = Suspended t)).
  { intros t Ht Hb. destruct (Htasks' t Ht) as [H|H].
    - exists t. split; [apply Hold; exact H|]. split; [exact Hb|]. split; [reflexivity|].
      left. split; [exact H|]. eapply other_task_other_token; eauto.
    - destruct (Sp t H Hb) as (Hb0 & _). exists t0.
      split; [exact Hin0|]. split; [exact Hb0|]. split; [symmetry; apply Htok'; exact H|].
      right. exact H. }
  split; [|split; [|split; [|split]]].
  - intros p id Hp.
    destruct Hslot as [(_ & Hc' & Hp')|(_ & [(op & _ & _ & _ & Hp')|(_ & Hc' & Hp')])].
    + rewrite Hc'. apply (I1 p). rewrite Hp' in Hp. exact Hp.
    + rewrite Hp' in Hp. discriminate.
    + rewrite Hc'. apply (I1 p). rewrite Hp' in Hp. exact Hp.
  - intros id Hid.
    assert (Hsame : _currentOperation (controller s) = Some id
                    /\ _dropProgressManager (controller s')
                       = _dropProgressManager (controller s)
                    /\ ((exists t', (segment t0 b sd).2 = Suspended t')
                        \/ taskOperation t0 <> Some id)).
    { destruct Hslot as [(Hs & Hc' & Hp')|(_ & [(op & _ & _ & Hc' & _)|(Hno & Hc' & Hp')])].
      - rewrite Hc' in Hid. auto.
      - rewrite Hc' in Hid. discriminate.
      - rewrite Hc' in Hid. split; [exact Hid|]. split; [exact Hp'|]. right.
        intros Hop. exact (Hno id Hop Hid). }
    destruct Hsame as (Hcur & Hp' & Hrun). destruct (I2 id Hcur) as (Hp & t & Hin & Hop).
    split; [rewrite Hp'; exact Hp|].
    rewrite Hsplit in Hin.
    assert (Hcase : t ∈ la ++ lb \/ t = t0).
    { apply elem_of_app in Hin as [H|[->|H]%elem_of_cons]; [left|right|left];
        try reflexivity; apply elem_of_app; auto. }
    destruct Hcase as [H| ->]; [exists t; split; [apply Hkeep; exact H|exact Hop]|].
    destruct Hrun as [[t' Hs]|Hne]; [|contradiction].
    exists t'. split; [apply Hnew; exact Hs|]. rewrite (Sop t' Hs). exact Hop.
  - intros t Ht Hb. destruct (Horigin t Ht Hb) as (t1 & Hin1 & Hb1 & Htok1 & Hcase).
    apply Hlive; [|rewrite <- Htok1; apply (liveSource_same _ s); [reflexivity|]; auto].
    intros op Hop Hns Heq. destruct Hcase as [[_ Hne]|Hs]; [|eapply Hns; exact Hs].
    apply Hne. rewrite <- Heq. apply I5; assumption.
  - intros t Ht Hb Hne. destruct (Horigin t Ht Hb) as (t1 & Hin1 & Hb1 & Htok1 & Hcase).
    apply Hreq. change (isCancellationRequested (taskToken t) s = true).
    rewrite <- Htok1. apply I4; [assumption..|]. rewrite Htok1. intros Hcur.
    destruct Hslot as [(_ & Hc' & _)|(Hns & [(op & Hop & Hcop & _)|(_ & Hc' & _)])].
    + apply Hne. rewrite Hc'. exact Hcur.
    + destruct Hcase as [[_ Hne0]|Hs]; [|eapply Hns; exact Hs].
      apply Hne0. rewrite (I5 t0 op Hin0 Hop).
      change (_currentOperation (controller s) = Some op) in Hcop. congruence.
    + apply Hne. rewrite Hc'. exact Hcur.
  - intros t op Ht Hop. destruct (Htasks' t Ht) as [H|H].
    + apply I5; [apply Hold; exact H|exact Hop].
    + rewrite (Htok' t H). apply I5; [exact Hin0|]. rewrite <- (Sop t H). exact Hop.
Qed.

Lemma step_coherent e s : wellFormed s -> coherent s -> coherent (step e s).
Proof.
  intros G C. destruct e as [position dragEvent|n b| |m|d|v|j].
  - apply coherent_drop; assumption.
  - apply coherent_settle; assumption.
  - simpl. destruct (_dropProgressManager (controller s)) as [[? op]|]; [|exact C].
    apply (coherent_sources s); [reflexivity|reflexivity| | |exact C].
    + intros id. apply (liveSource_alter cancelSource op); [|reflexivity].
      intros _. apply keeps_cancelSource.
    + intros id. eapply requested_alter; [|reflexivity]. auto.
  - apply (coherent_sources s); [reflexivity|reflexivity| | |exact C].
    + intros id. apply liveSource_fmap. reflexivity.
    + intros id. apply requested_fmap. reflexivity.
  - apply (coherent_sources s); [reflexivity|reflexivity| | |exact C].
    + intros id. apply liveSource_fmap. reflexivity.
    + intros id. apply requested_fmap. reflexivity.
  - apply (coherent_sources s); [reflexivity|reflexivity| | |exact C]; auto.
  - apply coherent_select. exact C.
Qed.

Lemma pristine_coherent s : pristine s -> coherent s.
Proof.
  intros ((Ht & _ & _) & Hc & Hp). unfold coherent. rewrite Ht, Hc, Hp.
  split; [discriminate|]. split; [discriminate|].
  split; [intros t H; inversion H|]. split; [intros t H; inversion H|].
  intros t op H; inversion H.
Qed.

Lemma run_coherent events s :
  wellFormed s -> coherent s -> coherent (run events s).
Proof.
  unfold run. revert s. induction events as [|e events IH]; intros s G C; simpl.
  - exact C.
  - apply IH; [apply step_wellFormed; exact G|apply step_coherent; assumption].
Qed.

Lemma pristine_reachable events s0 :
  pristine s0 -> wellFormed (run events s0) /\ coherent (run events s0).
Proof.
  intros P. pose proof P as (Hi & _).
  split; [apply run_wellFormed, initial_wellFormed, Hi|].
  apply run_coherent; [apply initial_wellFormed, Hi|apply pristine_coherent, P].
Qed.

Lemma run_app events1 events2 s :
  run (events1 ++ events2) s = run events2 (run events1 s).
Proof. unfold run. apply foldl_app. Qed.

Lemma run_pool events s :
  operationIdPool (controller s) <= operationIdPool (controller (run events s)).
Proof.
  unfold run. revert s. induction events as [|e events IH]; intros s; simpl; [lia|].
  pose proof (step_pool e s). pose proof (IH (step e s)). lia.
Qed.

(** X1 (an operation superseded before its apply step never applies): in
    every state the controller reaches from a pristine one, an operation
    that still waits for its payload or for its providers and is not the
    current operation has a token that has fired; however the run continues,
    no bulk edit, undo or widget is ever requested with its token. *)
Theorem superseded_operation_never_applies :
  forall events1 events2 s0 t,
    pristine s0 ->
    t ∈ tasks (run events1 s0) ->
    beforeApply t = true ->
    _currentOperation (controller (run events1 s0)) <> Some (taskToken t) ->
    isCancellationRequested (taskToken t) (run events1 s0) = true
    /\ (forall e, e ∈ effects (run events2 (run events1 s0)) ->
                  effectToken e <> Some (taskToken t)).
Proof.
  intros events1 events2 s0 t P Hin Hb Hne.
  destruct (pristine_reachable events1 s0 P) as [G (_ & _ & _ & I4 & _)].
  assert (Hc : isCancellationRequested (taskToken t) (run events1 s0) = true)
    by (apply I4; assumption).
  split; [exact Hc|].
  pose proof (run_cancelledBeforeApply events2 _ _
                (pending_cancelledBeforeApply _ t G Hin Hb Hc)) as (_ & _ & _ & _ & Hq).
  exact Hq.
Qed.

(** X2 (a new drop supersedes what is pending): when a drop is accepted in
    a reachable state, the new operation gets the id of the pool, becomes
    the current operation and owns the progress indicator at the drop
    position, the editor is focused with the caret at the drop position, and
    every operation that was still waiting for its payload or its providers
    is still pending and finds its token fired. *)
Theorem accepted_drop_supersedes_pending :
  forall events position dragEvent s0,
    pristine s0 ->
    is_Some (dataTransfer dragEvent) ->
    is_Some (editorModel (editor (run events s0))) ->
    let s := run events s0 in
    let s' := step (DropIntoEditor position dragEvent) s in
    _currentOperation (controller s') = Some (operationIdPool (controller s))
    /\ _dropProgressManager (controller s') = Some (position, operationIdPool (controller s))
    /\ focused (editor s') = true
    /\ cursor (editor s') = Some position
    /\ (forall t, t ∈ tasks s -> beforeApply t = true ->
          t ∈ tasks s' /\ isCancellationRequested (taskToken t) s' = true).
Proof.
  intros events position dragEvent s0 P Hd Hm s s'.
  destruct (pristine_reachable events s0 P) as [G C]. fold s in G, C, Hm.
  pose proof (step_coherent (DropIntoEditor position dragEvent) s G C) as (_ & _ & _ & I4 & _).
  fold s' in I4.
  destruct (drop_allocates_operation position dragEvent s Hd Hm) as (_ & Hcur & Hprog & Ht).
  change (onDropIntoEditor position dragEvent s) with s' in Hcur, Hprog, Ht.
  split; [exact Hcur|]. split; [exact Hprog|].
  split; [|split].
  - subst s'. simpl. unfold onDropIntoEditor, hasModel.
    rewrite !bool_decide_eq_true_2 by assumption. reflexivity.
  - subst s'. simpl. unfold onDropIntoEditor, hasModel.
    rewrite !bool_decide_eq_true_2 by assumption. reflexivity.
  - intros t Hin Hb.
    assert (Hin' : t ∈ tasks s') by (rewrite Ht; apply elem_of_app; left; exact Hin).
    split; [exact Hin'|]. apply I4; [exact Hin'|exact Hb|].
    rewrite Hcur. destruct G as (Ga & _). apply Ga in Hin. intros [= Heq]. lia.
Qed.

(** X3 (slot, progress indicator and running operation go together): in
    every state the controller reaches from a pristine one, a progress
    indicator is shown only for the current operation, the current operation
    always has its progress indicator, and the current operation still has a
    pending task, which carries its id as token: the slot never names an
    operation whose body has ended. *)
Theorem progress_shown_for_running_current_operation :
  forall events s0,
    pristine s0 ->
    let s := run events s0 in
    (forall p id, _dropProgressManager (controller s) = Some (p, id) ->
                  _currentOperation (controller s) = Some id)
    /\ (forall id, _currentOperation (controller s) = Some id ->
          (exists p, _dropProgressManager (controller s) = Some (p, id))
          /\ id < operationIdPool (controller s)
          /\ exists t, t ∈ tasks s /\ taskOperation t = Some id /\ taskToken t = id).
Proof.
  intros events s0 P s.
  destruct (pristine_reachable events s0 P) as [(Ga & _) (I1 & I2 & _ & _ & I5)].
  fold s in Ga, I1, I2, I5. split; [exact I1|].
  intros id Hid. destruct (I2 id Hid) as (Hp & t & Hin & Hop).
  pose proof (I5 t id Hin Hop) as Htok.
  split; [exact Hp|]. split; [rewrite <- Htok; apply Ga; exact Hin|].
  exists t. auto.
Qed.

(** X4 (the cancel action stops the current operation): if in a reachable
    state the current operation still waits for its payload or for its
    providers and the user clicks the cancel action of the progress
    indicator, the token of that operation has fired and, however the run
    continues, no bulk edit, undo or widget is ever requested for it. *)
Theorem cancel_click_stops_current_operation :
  forall events1 events2 s0 t,
    pristine s0 ->
    t ∈ tasks (run events1 s0) ->
    beforeApply t = true ->
    _currentOperation (controller (run events1 s0)) = Some (taskToken t) ->
    isCancellationRequested (taskToken t) (step ClickCancel (run events1 s0)) = true
    /\ (forall e, e ∈ effects (run events2 (step ClickCancel (run events1 s0))) ->
                  effectToken e <> Some (taskToken t)).
Proof.
  intros events1 events2 s0 t P Hin Hb Hcur.
  destruct (pristine_reachable events1 s0 P) as [G (_ & I2 & I3 & _)].
  set (s := run events1 s0) in *.
  destruct (I2 _ Hcur) as ((p & Hp) & _).
  destruct (I3 t Hin Hb) as (src & Hsrc & _).
  assert (Hc : isCancellationRequested (taskToken t) (step ClickCancel s) = true).
  { simpl. rewrite Hp. unfold isCancellationRequested. simpl.
    rewrite lookup_alter_eq, Hsrc. reflexivity. }
  split; [exact Hc|].
  assert (Hin' : t ∈ tasks (step ClickCancel s)).
  { simpl. rewrite Hp. exact Hin. }
  pose proof (run_cancelledBeforeApply events2 _ _
                (pending_cancelledBeforeApply _ t (step_wellFormed ClickCancel s G) Hin' Hb Hc))
    as (_ & _ & _ & _ & Hq).
  exact Hq.
Qed.

(** ** The fan-out and the apply step at their edges *)

Lemma promiseAll_rejected results :
  Rejected ∈ results -> promiseAll results = None.
Proof.
  induction results as [|r rs IH]; intros H; [inversion H|].
  apply elem_of_cons in H as [<-|H]; [reflexivity|].
  simpl. destruct r; [|reflexivity]. rewrite (IH H). reflexivity.
Qed.

Lemma promiseAll_resolved_all results values :
  promiseAll results = Some values -> results = map Resolved values /\ Rejected ∉ results.
Proof.
  revert values. induction results as [|r rs IH]; intros values H; simpl in H.
  - injection H as <-. split; [reflexivity|]. intros Hin. inversion Hin.
  - destruct r as [e|]; [|discriminate].
    destruct (promiseAll rs) as [vs|]; [|discriminate]. injection H as <-.
    destruct (IH vs eq_refl) as [-> Hn]. split; [reflexivity|].
    intros [Hx|Hx]%elem_of_cons; [discriminate|contradiction].
Qed.

Lemma at_index_None {A} (l : list A) i :
  at_index l i = None <-> i < 0 \/ Z.of_nat (List.length l) <= i.
Proof.
  unfold at_index. destruct (Z.ltb_spec i 0) as [Hneg|Hpos].
  - split; [auto|reflexivity].
  - rewrite lookup_ge_None. split.
    + intros H. right. lia.
    + intros [H|H]; lia.
Qed.

(** X5 (the pipeline applies its first candidate with a token that has not
    fired): when, in a reachable state, the providers of an operation have
    all answered and the operation has not been cancelled, the token that
    [applyDropResult] passes on to the bulk edit service has not fired
    either, exactly one bulk edit is requested, namely the combined edit of
    the first non-null candidate, and the text after the step is the one
    the service gives for that edit and a token that has not fired. *)
Theorem pipeline_applies_first_candidate_with_live_token :
  forall events n s0 id position results values model edit,
    pristine s0 ->
    tasks (run events s0) !! n = Some (AwaitProviders id position results) ->
    promiseAll results = Some values ->
    isCancellationRequested id (run events s0) = false ->
    editorModel (editor (run events s0)) = Some model ->
    at_index (coalesce values) 0 = Some edit ->
    let s := run events s0 in
    let s' := step (Settle n false) s in
    isParentCancellationRequested id s = false
    /\ effects s'
       = BulkEditRequested (combinedWorkspaceEdit model position edit) id :: effects s
    /\ content (document s')
       = match bulkEdit (combinedWorkspaceEdit model position edit) false
                 (content (document s)) with
         | BulkApplied d => d
         | _ => content (document s)
         end.
Proof.
  intros events n s0 id position results values model edit P Hn Hall Hc Hm He s s'.
  destruct (pristine_reachable events s0 P) as [_ (_ & _ & I3 & _)]. fold s in I3, Hn, Hc, Hm.
  destruct (I3 _ (list_elem_of_lookup_2 _ _ _ Hn) eq_refl) as (src & Hsrc & _ & Hp).
  simpl in Hsrc.
  assert (Hparent : isParentCancellationRequested id s = false).
  { unfold isParentCancellationRequested, isCancellationRequested in *.
    rewrite Hsrc in *. destruct (parentRequested src); [|reflexivity].
    rewrite Hp in Hc by reflexivity. discriminate. }
  split; [exact Hparent|].
  subst s'. simpl. rewrite Hn. unfold resume. simpl.
  unfold resumeProviders, raceCancellation. rewrite Hall.
  change (isCancellationRequested id (with_tasks (delete n) s))
    with (isCancellationRequested id s). rewrite Hc.
  unfold applyDropResult. simpl. rewrite Hm, He.
  unfold addDecoration, bulkEditService_apply. simpl.
  change (isParentCancellationRequested id _) with (isParentCancellationRequested id s).
  rewrite Hparent.
  destruct (bulkEdit _ _ _); simpl; split; reflexivity.
Qed.

(** X6 (one rejected provider discards every candidate): if one of the
    provider promises is rejected, the body of the operation ends at the
    [await] of line 100 without reaching [applyDropResult], whatever the
    other providers answered: with an error if the promises settle first,
    silently if the token fires first.  Either way only the [finally] block
    runs: no edit is requested, and the document, the tasks and the widget
    are left as they are. *)
Theorem rejected_provider_discards_all_candidates :
  forall id position results cancelledFirst s,
    Rejected ∈ results ->
    let s' := resume (AwaitProviders id position results) cancelledFirst s in
    segment (AwaitProviders id position results) cancelledFirst s
    = (s, if cancelledFirst then Returned else Thrown)
    /\ s' = finallyBlock id s
    /\ effects s' = effects s
    /\ document s' = document s
    /\ tasks s' = tasks s
    /\ _postDropWidgetManager (controller s') = _postDropWidgetManager (controller s).
Proof.
  intros id position results cancelledFirst s Hrej s'.
  assert (Hseg : segment (AwaitProviders id position results) cancelledFirst s
                 = (s, if cancelledFirst then Returned else Thrown)).
  { simpl. unfold resumeProviders, raceCancellation. rewrite (promiseAll_rejected _ Hrej).
    destruct cancelledFirst; [|reflexivity].
    destruct (isCancellationRequested id s); reflexivity. }
  split; [exact Hseg|].
  assert (Hs' : s' = finallyBlock id s).
  { subst s'. unfold resume. rewrite Hseg. destruct cancelledFirst; reflexivity. }
  split; [exact Hs'|]. rewrite Hs'.
  pose proof (finallyBlock_frame id s) as (He & Hd & Ht & _ & _ & _ & Hw).
  repeat split; assumption.
Qed.

(** X7 (no candidate, no edit): [applyDropResult] returns without touching
    anything when the index is negative or not smaller than the number of
    candidates, or when the editor has no model; in particular, when every
    provider has answered [null] (or no provider was asked), the body of the
    operation returns and only its [finally] block runs. *)
Theorem apply_without_candidate_is_noop :
  (forall operation position i es token s,
      i < 0 \/ Z.of_nat (List.length es) <= i \/ editorModel (editor s) = None ->
      applyDropResult operation position i es token s = (s, Returned))
  /\ (forall id position results values cancelledFirst s,
        promiseAll results = Some values ->
        coalesce values = [] ->
        segment (AwaitProviders id position results) cancelledFirst s = (s, Returned)
        /\ resume (AwaitProviders id position results) cancelledFirst s = finallyBlock id s
        /\ effects (resume (AwaitProviders id position results) cancelledFirst s) = effects s
        /\ document (resume (AwaitProviders id position results) cancelledFirst s)
           = document s).
Proof.
  split.
  - intros operation position i es token s H. apply applyDropResult_abandons.
    destruct H as [H|[H|H]]; [right|right|left; exact H]; apply at_index_None; auto.
  - intros id position results values cancelledFirst s Hall Hnil.
    assert (Hseg : segment (AwaitProviders id position results) cancelledFirst s
                   = (s, Returned)).
    { simpl. unfold resumeProviders, raceCancellation. rewrite Hall.
      destruct cancelledFirst; destruct (isCancellationRequested id s); try reflexivity.
      rewrite Hnil. apply applyDropResult_abandons. right. reflexivity. }
    split; [exact Hseg|]. unfold resume. rewrite Hseg. simpl.
    pose proof (finallyBlock_frame id s) as (He & Hd & _).
    repeat split; assumption.
Qed.

(** X8 (picking an edit that cannot be applied only undoes): when the user
    picks another index in the widget and that index has no candidate, or
    the editor has lost its model, the callback still undoes the last edit
    group first; its continuation then applies nothing.  After both steps
    one undo and no bulk edit has been requested, the text is the one before
    the last edit group, and no task is left. *)
Theorem reselect_without_candidate_only_undoes :
  forall j cancelledFirst s w,
    _postDropWidgetManager (controller s) = Some w ->
    j <> activeEditIndex w ->
    at_index (cb_allEdits (onDidSelectEdit w)) j = None \/ editorModel (editor s) = None ->
    let s' := run [SelectEdit j; Settle (List.length (tasks s)) cancelledFirst] s in
    effects s' = UndoRequested (cb_token (onDidSelectEdit w)) :: effects s
    /\ content (document s') = hd (content (document s)) (undoStack (document s))
    /\ undoStack (document s') = tl (undoStack (document s))
    /\ tasks s' = tasks s.
Proof.
  intros j cancelledFirst s w Hw Hj Hbad s'.
  destruct (model_undo_frame s) as (Ht & Hc & He).
  assert (Hed : editor (model_undo s) = editor s).
  { unfold model_undo. destruct (undoStack (document s)); reflexivity. }
  assert (Hdoc : content (document (model_undo s))
                 = hd (content (document s)) (undoStack (document s))
                 /\ undoStack (document (model_undo s)) = tl (undoStack (document s))).
  { unfold model_undo. destruct (undoStack (document s)) eqn:Hu; simpl; [|auto].
    rewrite Hu. auto. }
  subst s'. unfold run. cbn [foldl]. cbn [step]. rewrite Hw.
  destruct (Z.eqb_spec j (activeEditIndex w)) as [Heq|_]; [contradiction|].
  unfold selectEdit. cbn [complete].
  set (s1 := log (UndoRequested (cb_token (onDidSelectEdit w))) (model_undo s)).
  assert (Hlook : tasks (with_tasks (fun ts => ts ++ [AwaitUndo (onDidSelectEdit w) j]) s1)
                    !! List.length (tasks s)
                  = Some (AwaitUndo (onDidSelectEdit w) j)).
  { simpl. rewrite Ht. apply list_lookup_middle. reflexivity. }
  rewrite Hlook. unfold resume. cbn [taskOperation segment]. unfold resumeUndo.
  rewrite applyDropResult_abandons.
  2: { destruct Hbad as [H|H]; [right; exact H|left]. simpl. rewrite Hed. exact H. }
  simpl. rewrite He, Ht. destruct Hdoc as [-> ->].
  split; [reflexivity|]. split; [reflexivity|]. split; [reflexivity|].
  etransitivity; [apply (delete_middle (tasks s) [])|apply app_nil_r].
Qed.

(** X9 (operation ids are not reused): as long as the id pool stays in the
    range in which its increment is exact, in a reachable state no task,
    widget or effect carries the id that the next accepted drop will get;
    that drop makes the operation with this id the current one, and from
    then on the pool stays above it, so that no later drop gets the same
    id. *)
Theorem operation_ids_are_not_reused :
  forall events1 events2 position dragEvent s0,
    initial s0 ->
    exactIds s0 ->
    is_Some (dataTransfer dragEvent) ->
    is_Some (editorModel (editor (run events1 s0))) ->
    let s := run events1 s0 in
    let id := operationIdPool (controller s) in
    let s' := run events2 (step (DropIntoEditor position dragEvent) s) in
    exactIds s' ->
    (forall t, t ∈ tasks s -> taskToken t <> id)
    /\ widgetToken s <> Some id
    /\ (forall e, e ∈ effects s -> effectToken e <> Some id)
    /\ _currentOperation (controller (step (DropIntoEditor position dragEvent) s)) = Some id
    /\ 0 <= id < operationIdPool (controller s')
    /\ operationIdPool (controller s') <= 2 ^ 53
    /\ (forall t, t ∈ tasks s' -> taskToken t < operationIdPool (controller s')).
Proof.
  intros events1 events2 position dragEvent s0 Hi [H0 _] Hd Hm s id s' [_ Hmax].
  pose proof (run_wellFormed events1 s0 (initial_wellFormed s0 Hi)) as G.
  fold s in G, Hm. pose proof G as (Ga & Gb & Gc & _).
  destruct (drop_allocates_operation position dragEvent s Hd Hm) as (Hp & Hcur & _).
  split; [intros t Hin Heq; apply Ga in Hin; fold id in Hin; lia|].
  split; [intros Heq; apply Gb in Heq; fold id in Heq; lia|].
  split; [intros e Hin Heq; pose proof (Gc e id Hin Heq) as Hlt; fold id in Hlt; lia|].
  split; [exact Hcur|]. split; [|split; [exact Hmax|]].
  - pose proof (run_pool events1 s0) as Hge. fold s in Hge. fold id in Hge.
    pose proof (run_pool events2 (step (DropIntoEditor position dragEvent) s)) as Hge'.
    fold s' in Hge'. simpl in Hp, Hge'. fold id in Hp. lia.
  - pose proof (run_wellFormed events2 _
                  (step_wellFormed (DropIntoEditor position dragEvent) s G)) as (Ga' & _).
    exact Ga'.
Qed.

(** ** The widget and the tracking decoration *)

Lemma applyDropResult_validTask operation position i es token s t' :
  (applyDropResult operation position i es token s).2 = Suspended t' -> validTask t'.
Proof.
  destruct (applyDropResult_cases operation position i es token s)
    as [->|(m & e & s' & d & r & _ & He & -> & _)]; [discriminate|].
  intros [= <-]. simpl. rewrite He. eexists; reflexivity.
Qed.

Lemma applyDropResult_widgets operation position i es token s :
  _postDropWidgetManager (controller (applyDropResult operation position i es token s).1)
  = _postDropWidgetManager (controller s)
  /\ (forall w, WidgetShown w ∈ effects (applyDropResult operation position i es token s).1 ->
                WidgetShown w ∈ effects s).
Proof.
  destruct (applyDropResult_cases operation position i es token s)
    as [->|(m & e & s' & d & r & Hm & He & _)]; [split; auto|].
  destruct (applyDropResult_applies operation position i es token s m e Hm He)
    as (s2 & d2 & r2 & -> & Heff & Hc & _). simpl. rewrite Hc, Heff.
  split; [reflexivity|]. intros w [H|H]%elem_of_cons; [discriminate|exact H].
Qed.

Lemma segment_widgetsValid t cancelledFirst s :
  validTask t ->
  (forall t', (segment t cancelledFirst s).2 = Suspended t' -> validTask t')
  /\ (forall w, _postDropWidgetManager (controller (segment t cancelledFirst s).1) = Some w ->
                _postDropWidgetManager (controller s) = Some w \/ validWidget w)
  /\ (forall w, WidgetShown w ∈ effects (segment t cancelledFirst s).1 ->
                WidgetShown w ∈ effects s \/ validWidget w).
Proof.
  intros Hv.
  assert (Hsame : forall c, (forall t', c <> Suspended t') ->
    (forall t', (s, c).2 = Suspended t' -> validTask t')
    /\ (forall w, _postDropWidgetManager (controller (s, c).1) = Some w ->
                  _postDropWidgetManager (controller s) = Some w \/ validWidget w)
    /\ (forall w, WidgetShown w ∈ effects (s, c).1 ->
                  WidgetShown w ∈ effects s \/ validWidget w)).
  { intros c Hc. simpl. split; [|auto]. intros t' ->. exfalso. eapply Hc. reflexivity. }
  assert (Happly : forall operation position i es token,
    let r := applyDropResult operation position i es token s in
    (forall t', r.2 = Suspended t' -> validTask t')
    /\ (forall w, _postDropWidgetManager (controller r.1) = Some w ->
                  _postDropWidgetManager (controller s) = Some w \/ validWidget w)
    /\ (forall w, WidgetShown w ∈ effects r.1 -> WidgetShown w ∈ effects s \/ validWidget w)).
  { intros operation position i es token r. subst r.
    destruct (applyDropResult_widgets operation position i es token s) as [Hw He].
    split; [intros t'; apply applyDropResult_validTask|].
    split; [rewrite Hw; auto|intros w H; left; apply He; exact H]. }
  destruct t as [id position payload|id position results
                |op model position i es token dec editResult|cb i]; simpl in *.
  - unfold resumeExtract. destruct (_ || _); [apply Hsame; discriminate|].
    destruct (editorModel (editor s)) as [m|]; [|apply Hsame; discriminate]. simpl.
    destruct (logInvocations_frame (List.filter (keepProvider payload) (registry s m)) id s)
      as [_ Hc].
    split; [intros t' [= <-]; exact I|]. split; [rewrite Hc; auto|].
    intros w. rewrite effects_logInvocations. intros [H|H]%elem_of_app; [|auto].
    apply list_elem_of_In, in_rev, in_map_iff in H as (p & Hp & _). discriminate.
  - unfold resumeProviders. destruct (raceCancellation _ _) as [[values|]|];
      try (apply Hsame; discriminate);
      destruct (isCancellationRequested id s); try (apply Hsame; discriminate).
    apply Happly.
  - unfold resumeApply. destruct editResult as [b|]; [|apply Hsame; discriminate].
    destruct (b && (1 <? Z.of_nat (List.length es))) eqn:Hcond;
      [destruct (String.eqb _ _)|]; simpl;
      [|split; [discriminate|split; auto]..].
    apply andb_true_iff in Hcond as [_ Hlen]. apply Z.ltb_lt in Hlen.
    assert (Hvalid : validWidget
              {| w_range := default (RangeOps.fromPositions position None)
                              (getDecorationRange dec s);
                 activeEditIndex := i; allEdits := es;
                 onDidSelectEdit := mkCallback model position es token |}).
    { split; [simpl; lia|]. split; [exact Hv|reflexivity]. }
    split; [discriminate|].
    split; [intros w [= <-]; right; exact Hvalid|].
    intros w [[= ->]|H]%elem_of_cons; [right; exact Hvalid|left; exact H].
  - apply Happly.
Qed.

Lemma step_widgetsValid e s : widgetsValid s -> widgetsValid (step e s).
Proof.
  intros V. pose proof V as (Vt & Vw & Ve).
  assert (Hframe : forall s', tasks s' = tasks s ->
            _postDropWidgetManager (controller s') = _postDropWidgetManager (controller s) ->
            effects s' = effects s -> widgetsValid s').
  { intros s' Ht Hw He. unfold widgetsValid. rewrite Ht, Hw, He. auto. }
  destruct e as [position dragEvent|n b| |m|d|v|j]; simpl.
  - destruct (onDropIntoEditor_frame position dragEvent s) as (He & Hw & _ & [Ht|Ht]).
    + apply Hframe; assumption.
    + unfold widgetsValid. rewrite Ht, Hw, He. split; [|auto].
      intros t [H| ->%list_elem_of_singleton]%elem_of_app; [auto|exact I].
  - destruct (tasks s !! n) as [t0|] eqn:Hn; [|exact V].
    set (sd := with_tasks (delete n) s).
    destruct (segment_widgetsValid t0 b sd (Vt t0 (list_elem_of_lookup_2 _ _ _ Hn)))
      as (St & Sw & Se).
    destruct (segment_tasks t0 b sd) as [Htasks _]. unfold resume.
    destruct (complete_frame (taskOperation t0) (segment t0 b sd)) as (Ce & Cw & Ct).
    unfold widgetsValid. rewrite Ce, Cw. split; [|split].
    + intros t Ht.
      assert (Hcase : t ∈ tasks sd \/ (segment t0 b sd).2 = Suspended t).
      { destruct Ct as [[Hc _]|(t' & Hs & Hc)]; rewrite Hc, Htasks in Ht; [auto|].
        apply elem_of_app in Ht as [H| ->%list_elem_of_singleton]; auto. }
      destruct Hcase as [H|H]; [|apply St; exact H].
      simpl in H. apply list_elem_of_delete_inv in H. auto.
    + intros w H. destruct (Sw w H) as [H'|H']; [apply Vw; exact H'|exact H'].
    + intros w H. destruct (Se w H) as [H'|H']; [apply Ve; exact H'|exact H'].
  - destruct (_dropProgressManager (controller s)) as [[? op]|]; [|exact V].
    apply Hframe; reflexivity.
  - apply Hframe; reflexivity.
  - apply Hframe; reflexivity.
  - apply Hframe; reflexivity.
  - destruct (_postDropWidgetManager (controller s)) as [w|] eqn:Hw;
      [|exact V].
    destruct (j =? activeEditIndex w); [exact V|].
    destruct (model_undo_frame s) as (Ht & Hc & He).
    unfold selectEdit, widgetsValid. simpl. rewrite Ht, Hc, He. split; [|split].
    + intros t [H| ->%list_elem_of_singleton]%elem_of_app; [auto|exact I].
    + intros w' H. apply Vw. rewrite <- H. symmetry. exact Hw.
    + intros w' [H|H]%elem_of_cons; [discriminate|auto].
Qed.

Lemma run_widgetsValid events s : widgetsValid s -> widgetsValid (run events s).
Proof.
  unfold run. revert s. induction events as [|e events IH]; intros s H; simpl.
  - exact H.
  - apply IH, step_widgetsValid, H.
Qed.

(** X10 (the widget marks an edit that exists): in every state the
    controller reaches, the widget that is shown, and every widget that has
    ever been shown, offers more than one candidate, has as active index an
    index of that list, and its callback has captured that same list; so a
    pick re-runs [applyDropResult] on the candidates the user sees. *)
Theorem widget_marks_an_existing_edit :
  forall events s0,
    initial s0 ->
    let s := run events s0 in
    (forall w, _postDropWidgetManager (controller s) = Some w -> validWidget w)
    /\ (forall w, WidgetShown w ∈ effects s -> validWidget w).
Proof.
  intros events s0 (Ht & Hw & He) s.
  assert (V0 : widgetsValid s0).
  { unfold widgetsValid. rewrite Ht, Hw, He.
    split; [intros t H; inversion H|]. split; [discriminate|intros w H; inversion H]. }
  destruct (run_widgetsValid events s0 V0) as (_ & Vw & Ve). auto.
Qed.

Lemma complete_document operation (r : State * Completion) :
  document (complete operation r) = document r.1.
Proof.
  destruct r as [s [t'| |]]; simpl; [reflexivity| |];
    (destruct operation as [op|]; [apply finallyBlock_frame|reflexivity]).
Qed.

(** X11 (the tracking decoration is temporary): assume the next decoration
    id of the model is free.  When [applyDropResult] reaches its [await], it
    has added one tracking decoration, collapsed at the drop position, under
    that id, and the model's next id is the one after it; the decorations of
    the model are the old ones and the new one, moved by the bulk edit if it
    was applied.  When the bulk edit has answered, applied or not, the
    continuation removes that decoration, in whatever state the answer
    arrives: it is gone afterwards, and the other decorations, the text and
    the undo stack are as they were; after an edit that was not applied the
    decorations are those from before the call.  When the bulk edit is
    rejected the continuation does not run: the document keeps the
    decoration, nothing is logged and the widget is left as it is. *)
Theorem tracking_decoration_is_temporary :
  forall operation position i es token s s1 t,
    decorations (document s) !! decorationIdPool (document s) = None ->
    applyDropResult operation position i es token s = (s1, Suspended t) ->
    exists model edit dec editResult,
      at_index es i = Some edit
      /\ t = AwaitApply operation model position i es token dec editResult
      /\ dec = decorationIdPool (document s)
      /\ decorations (document s) !! dec = None
      /\ decorationIdPool (document s1) = S dec
      /\ decorations (document s1)
         = match editResult with
           | Some true =>
               trackRanges (combinedWorkspaceEdit model position edit) (content (document s))
                 (<[dec := RangeOps.fromPositions position None]> (decorations (document s)))
           | _ => <[dec := RangeOps.fromPositions position None]> (decorations (document s))
           end
      /\ (forall cancelledFirst s2,
            let s3 := resume t cancelledFirst s2 in
            match editResult with
            | Some _ =>
                decorations (document s3) !! dec = None
                /\ (forall other, other <> dec ->
                      decorations (document s3) !! other = decorations (document s2) !! other)
                /\ content (document s3) = content (document s2)
                /\ undoStack (document s3) = undoStack (document s2)
            | None =>
                document s3 = document s2
                /\ effects s3 = effects s2
                /\ _postDropWidgetManager (controller s3)
                   = _postDropWidgetManager (controller s2)
            end)
      /\ (editResult = Some false ->
          forall cancelledFirst,
            decorations (document (resume t cancelledFirst s1)) = decorations (document s)).
Proof.
  intros operation position i es token s s1 t Hfree H. unfold applyDropResult in H.
  destruct (editorModel (editor s)) as [model|]; [|discriminate].
  destruct (at_index es i) as [edit|]; [|discriminate].
  unfold addDecoration, bulkEditService_apply in H. simpl in H.
  exists model, edit, (decorationIdPool (document s)).
  assert (Hdoc : forall isApplied cancelledFirst s2,
    document (resume (AwaitApply operation model position i es token
                        (decorationIdPool (document s)) (Some isApplied)) cancelledFirst s2)
    = mkModel (content (document s2)) (undoStack (document s2))
        (delete (decorationIdPool (document s)) (decorations (document s2)))
        (decorationIdPool (document s2))).
  { intros isApplied cancelledFirst s2. unfold resume. rewrite complete_document.
    simpl. unfold resumeApply.
    destruct (isApplied && _); [destruct (String.eqb _ _)|]; reflexivity. }
  assert (Hcont : forall editResult cancelledFirst s2,
    let dec := decorationIdPool (document s) in
    let s3 := resume (AwaitApply operation model position i es token dec editResult)
                cancelledFirst s2 in
    match editResult with
    | Some _ =>
        decorations (document s3) !! dec = None
        /\ (forall other, other <> dec ->
              decorations (document s3) !! other = decorations (document s2) !! other)
        /\ content (document s3) = content (document s2)
        /\ undoStack (document s3) = undoStack (document s2)
    | None =>
        document s3 = document s2
        /\ effects s3 = effects s2
        /\ _postDropWidgetManager (controller s3) = _postDropWidgetManager (controller s2)
    end).
  { intros editResult cancelledFirst s2 dec s3.
    destruct editResult as [isApplied|].
    - subst s3 dec. rewrite Hdoc. simpl. split; [apply lookup_delete_eq|].
      split; [intros other Hne; apply lookup_delete_ne; congruence|]. split; reflexivity.
    - subst s3. unfold resume. split; [apply complete_document|].
      destruct (complete_frame operation
                  (segment (AwaitApply operation model position i es token dec None)
                     cancelledFirst s2)) as (He & Hw & _).
      split; [exact He|exact Hw]. }
  destruct (bulkEdit _ _ _) as [d| |]; injection H as <- <-;
    [exists (Some true)|exists (Some false)|exists None];
    (split; [reflexivity|]); (split; [reflexivity|]); (split; [reflexivity|]);
    (split; [exact Hfree|]); (split; [reflexivity|]); (split; [reflexivity|]).
  - split; [intros cancelledFirst s2; exact (Hcont (Some true) cancelledFirst s2)|].
    discriminate.
  - split; [intros cancelledFirst s2; exact (Hcont (Some false) cancelledFirst s2)|].
    intros _ cancelledFirst. rewrite Hdoc. simpl. apply delete_insert_id. exact Hfree.
  - split; [intros cancelledFirst s2; exact (Hcont None cancelledFirst s2)|].
    discriminate.
Qed.

(** ** Token sources are disposed of *)

Lemma sourcesOwned_lookup (f : TokenSource -> TokenSource) s s' :
  (forall src, disposed (f src) = disposed src) ->
  (forall id, sources s' !! id = f <$> sources s !! id) ->
  (forall t, t ∈ tasks s -> t ∈ tasks s') ->
  sourcesOwned s -> sourcesOwned s'.
Proof.
  intros Hf Hs Ht Ho id src' Hl Hd. rewrite Hs in Hl.
  destruct (sources s !! id) as [src|] eqn:Hsrc; [|discriminate].
  injection Hl as <-. rewrite Hf in Hd.
  destruct (Ho id src Hsrc Hd) as (t & Hin & Hop). exists t. auto.
Qed.

Lemma disposed_onEditorChange src : disposed (onEditorChange src) = disposed src.
Proof. unfold onEditorChange. destruct (disposed src) eqn:H; exact H. Qed.

Lemma sourcesOwned_fmap s s' :
  sources s' = onEditorChange <$> sources s ->
  (forall t, t ∈ tasks s -> t ∈ tasks s') ->
  sourcesOwned s -> sourcesOwned s'.
Proof.
  intros Hs. apply (sourcesOwned_lookup onEditorChange); [apply disposed_onEditorChange|].
  intros id. rewrite Hs. apply lookup_fmap.
Qed.

Lemma sourcesOwned_alter (f : TokenSource -> TokenSource) k s s' :
  (forall src, disposed (f src) = disposed src) ->
  sources s' = alter f k (sources s) ->
  (forall t, t ∈ tasks s -> t ∈ tasks s') ->
  sourcesOwned s -> sourcesOwned s'.
Proof.
  intros Hf Hs Ht Ho id src' Hl Hd. rewrite Hs in Hl.
  destruct (decide (k = id)) as [->|Hne].
  - rewrite lookup_alter_eq in Hl.
    destruct (sources s !! id) as [src|] eqn:Hsrc; [|discriminate].
    injection Hl as <-. rewrite Hf in Hd.
    destruct (Ho id src Hsrc Hd) as (t & Hin & Hop). exists t. auto.
  - rewrite lookup_alter_ne in Hl by exact Hne.
    destruct (Ho id src' Hl Hd) as (t & Hin & Hop). exists t. auto.
Qed.

Lemma sourcesOwned_drop position dragEvent s :
  sourcesOwned s -> sourcesOwned (step (DropIntoEditor position dragEvent) s).
Proof.
  intros Ho. simpl. unfold onDropIntoEditor.
  destruct (negb (bool_decide (is_Some (dataTransfer dragEvent))) || negb (hasModel s));
    [exact Ho|].
  assert (Hc : sourcesOwned (cancelCurrentOperation s)).
  { unfold cancelCurrentOperation. destruct (_currentOperation (controller s)) as [op|];
      [|exact Ho].
    apply (sourcesOwned_alter cancelPromise op s); auto. }
  assert (Hpool : operationIdPool (controller (cancelCurrentOperation s))
                  = operationIdPool (controller s)).
  { unfold cancelCurrentOperation. destruct (_currentOperation (controller s)); reflexivity. }
  intros id src Hl Hd. simpl in Hl |- *. rewrite Hpool in *.
  destruct (decide (operationIdPool (controller s) = id)) as [<-|Hne].
  - eexists. split; [apply elem_of_app; right; apply list_elem_of_singleton; reflexivity|].
    reflexivity.
  - rewrite lookup_insert_ne in Hl by exact Hne.
    destruct (Hc id src Hl Hd) as (t & Hin & Hop). exists t.
    split; [apply elem_of_app; left; exact Hin|exact Hop].
Qed.

Lemma elem_of_delete_other {A} (l : list A) n x x0 :
  l !! n = Some x0 -> x ∈ l -> x <> x0 -> x ∈ delete n l.
Proof.
  intros Hn Hx Hne. apply list_elem_of_lookup in Hx as [i Hi].
  destruct (decide (i = n)) as [->|Hin]; [congruence|].
  apply list_elem_of_lookup.
  destruct (decide (i < n)%nat).
  - exists i. rewrite list_lookup_delete_lt by assumption. exact Hi.
  - exists (pred i). rewrite list_lookup_delete_ge by lia.
    replace (S (pred i)) with i by lia. exact Hi.
Qed.

Lemma sourcesOwned_settle n b s :
  sourcesOwned s -> sourcesOwned (step (Settle n b) s).
Proof.
  intros Ho. simpl. destruct (tasks s !! n) as [t0|] eqn:Hn; [|exact Ho].
  set (sd := with_tasks (delete n) s).
  pose proof (segment_sources t0 b sd) as Hm.
  destruct (segment_tasks t0 b sd) as [Htasks _].
  pose proof (segment_operation t0 b sd) as Hop0.
  unfold resume. destruct (segment t0 b sd) as [s1 c]. simpl in Hm, Htasks, Hop0.
  assert (Hback : forall id src', sources s1 !! id = Some src' -> disposed src' = false ->
            exists t, t ∈ tasks s /\ taskOperation t = Some id).
  { intros id src' Hl Hd. destruct Hm as [Hm|Hm]; rewrite Hm in Hl.
    - exact (Ho id src' Hl Hd).
    - rewrite lookup_fmap in Hl.
      destruct (sources s !! id) as [src|] eqn:Hsrc; [|discriminate]. injection Hl as <-.
      rewrite disposed_onEditorChange in Hd. exact (Ho id src Hsrc Hd). }
  assert (Hkeep : forall t, t ∈ tasks s -> taskOperation t <> taskOperation t0 ->
                            t ∈ tasks s1).
  { intros t Hin Hop. rewrite Htasks.
    apply (elem_of_delete_other _ _ _ t0 Hn Hin). congruence. }
  intros id src' Hl Hd.
  destruct c as [t'| |]; simpl in Hl |- *.
  - destruct (Hback id src' Hl Hd) as (t & Hin & Hop).
    destruct (decide (taskOperation t0 = Some id)) as [Heq|Hne].
    + exists t'. split; [apply elem_of_app; right; apply list_elem_of_singleton; reflexivity|].
      rewrite (Hop0 t' eq_refl). exact Heq.
    + exists t. split; [apply elem_of_app; left; apply Hkeep; [exact Hin|congruence]|exact Hop].
  - destruct (taskOperation t0) as [op|] eqn:Hop0'.
    + destruct (finallyBlock_frame op s1) as (_ & _ & Ht & _).
      rewrite finallyBlock_sources in Hl. rewrite Ht.
      destruct (decide (op = id)) as [->|Hne].
      * rewrite lookup_alter_eq in Hl. destruct (sources s1 !! id); [|discriminate].
        injection Hl as <-. discriminate.
      * rewrite lookup_alter_ne in Hl by exact Hne.
        destruct (Hback id src' Hl Hd) as (t & Hin & Hop).
        exists t. split; [apply Hkeep; [exact Hin|congruence]|exact Hop].
    + destruct (Hback id src' Hl Hd) as (t & Hin & Hop).
      exists t. split; [apply Hkeep; [exact Hin|congruence]|exact Hop].
  - destruct (taskOperation t0) as [op|] eqn:Hop0'.
    + destruct (finallyBlock_frame op s1) as (_ & _ & Ht & _).
      rewrite finallyBlock_sources in Hl. rewrite Ht.
      destruct (decide (op = id)) as [->|Hne].
      * rewrite lookup_alter_eq in Hl. destruct (sources s1 !! id); [|discriminate].
        injection Hl as <-. discriminate.
      * rewrite lookup_alter_ne in Hl by exact Hne.
        destruct (Hback id src' Hl Hd) as (t & Hin & Hop).
        exists t. split; [apply Hkeep; [exact Hin|congruence]|exact Hop].
    + destruct (Hback id src' Hl Hd) as (t & Hin & Hop).
      exists t. split; [apply Hkeep; [exact Hin|congruence]|exact Hop].
Qed.

Lemma step_sourcesOwned e s : sourcesOwned s -> sourcesOwned (step e s).
Proof.
  intros Ho. destruct e as [position dragEvent|n b| |m|d|v|j].
  - apply sourcesOwned_drop, Ho.
  - apply sourcesOwned_settle, Ho.
  - simpl. destruct (_dropProgressManager (controller s)) as [[? op]|]; [|exact Ho].
    apply (sourcesOwned_alter cancelSource op s); auto.
  - simpl. revert Ho. apply sourcesOwned_fmap; [reflexivity|auto].
  - simpl. revert Ho. apply sourcesOwned_fmap; [reflexivity|auto].
  - exact Ho.
  - simpl. destruct (_postDropWidgetManager (controller s)) as [w|]; [|exact Ho].
    destruct (j =? activeEditIndex w); [exact Ho|].
    unfold selectEdit. simpl. unfold model_undo.
    destruct (undoStack (document s)) as [|d older].
    + intros id src Hl Hd. destruct (Ho id src Hl Hd) as (t & Hin & Hop).
      exists t. split; [apply elem_of_app; left; exact Hin|exact Hop].
    + revert Ho. apply sourcesOwned_fmap; [reflexivity|].
      intros t Hin. apply elem_of_app. left. exact Hin.
Qed.

Lemma run_sourcesOwned events s : sourcesOwned s -> sourcesOwned (run events s).
Proof.
  unfold run. revert s. induction events as [|e events IH]; intros s H; simpl.
  - exact H.
  - apply IH, step_sourcesOwned, H.
Qed.

(** X12 (token sources are disposed of): in every state the controller
    reaches, a token source that has not been disposed of belongs to an
    operation whose body is still running.  So whenever nothing is pending,
    every token source the controller has created is disposed of, no
    operation is current and no progress indicator is shown. *)
Theorem idle_controller_holds_no_live_token_source :
  forall events s0,
    pristine s0 ->
    (forall id src, sources s0 !! id = Some src -> disposed src = true) ->
    let s := run events s0 in
    (forall id src, sources s !! id = Some src -> disposed src = false ->
                    exists t, t ∈ tasks s /\ taskOperation t = Some id)
    /\ (tasks s = [] ->
          _currentOperation (controller s) = None
          /\ _dropProgressManager (controller s) = None
          /\ forall id src, sources s !! id = Some src -> disposed src = true).
Proof.
  intros events s0 Hp Hs0 s.
  assert (Ho : sourcesOwned s).
  { apply run_sourcesOwned. intros id src Hl Hd. rewrite (Hs0 id src Hl) in Hd. discriminate. }
  destruct (pristine_reachable events s0 Hp) as [_ (Hprog & Hcur & _)].
  fold s in Hprog, Hcur. split; [exact Ho|]. intros Hnil.
  assert (Hnone : _currentOperation (controller s) = None).
  { destruct (_currentOperation (controller s)) as [id|] eqn:Hc; [|reflexivity].
    destruct (Hcur id eq_refl) as (_ & t & Hin & _). rewrite Hnil in Hin. inversion Hin. }
  split; [exact Hnone|]. split.
  - destruct (_dropProgressManager (controller s)) as [[p id]|] eqn:Hpm; [|reflexivity].
    rewrite (Hprog p id eq_refl) in Hnone. discriminate.
  - intros id src Hl. destruct (disposed src) eqn:Hd; [reflexivity|].
    destruct (Ho id src Hl Hd) as (t & Hin & _). rewrite Hnil in Hin. inversion Hin.
Qed.

(** ** Every body ends with its [finally] block *)

Lemma lookup_alter_disposed (f : TokenSource -> TokenSource) k (m : gmap Z TokenSource) id src :
  (forall x, disposed (f x) = disposed x) ->
  m !! id = Some src -> disposed src = false ->
  exists src', alter f k m !! id = Some src' /\ disposed src' = false.
Proof.
  intros Hf Hl Hd. destruct (decide (k = id)) as [->|Hne].
  - exists (f src). rewrite lookup_alter_eq, Hl. split; [reflexivity|]. rewrite Hf. exact Hd.
  - exists src. rewrite lookup_alter_ne by exact Hne. auto.
Qed.

Lemma lookup_fmap_disposed (m : gmap Z TokenSource) id src :
  m !! id = Some src -> disposed src = false ->
  exists src', (onEditorChange <$> m) !! id = Some src' /\ disposed src' = false.
Proof.
  intros Hl Hd. exists (onEditorChange src). rewrite lookup_fmap, Hl.
  split; [reflexivity|]. rewrite disposed_onEditorChange. exact Hd.
Qed.

(** A token source that has not been disposed of is still there and not
    disposed of after an event, unless the event lets the body of its
    operation return or throw. *)
Lemma step_live e s id src :
  wellFormed s -> coherent s -> sourcesOwned s ->
  sources s !! id = Some src -> disposed src = false ->
  (exists src', sources (step e s) !! id = Some src' /\ disposed src' = false)
  \/ exists n cancelledFirst t s1 c,
       e = Settle n cancelledFirst
       /\ tasks s !! n = Some t
       /\ taskOperation t = Some id
       /\ segment t cancelledFirst (with_tasks (delete n) s) = (s1, c)
       /\ (forall t', c <> Suspended t').
Proof.
  intros G C Ho Hl Hd.
  assert (Hlt : id < operationIdPool (controller s)).
  { destruct (Ho id src Hl Hd) as (t & Hin & Hop).
    destruct G as (Ga & _). destruct C as (_ & _ & _ & _ & I5).
    rewrite <- (I5 t id Hin Hop). apply Ga. exact Hin. }
  destruct e as [position dragEvent|n b| |m|d|v|j].
  - left. simpl. unfold onDropIntoEditor.
    destruct (negb (bool_decide (is_Some (dataTransfer dragEvent))) || negb (hasModel s));
      [exists src; auto|].
    assert (Hc : exists src', sources (cancelCurrentOperation s) !! id = Some src'
                              /\ disposed src' = false).
    { unfold cancelCurrentOperation. destruct (_currentOperation (controller s)) as [op|];
        [|exists src; auto].
      apply (lookup_alter_disposed _ _ _ id src); auto. }
    assert (Hpool : operationIdPool (controller (cancelCurrentOperation s))
                    = operationIdPool (controller s)).
    { unfold cancelCurrentOperation. destruct (_currentOperation (controller s)); reflexivity. }
    destruct Hc as (src' & Hl' & Hd'). exists src'. simpl. rewrite Hpool.
    rewrite lookup_insert_ne by lia. auto.
  - simpl. destruct (tasks s !! n) as [t0|] eqn:Hn; [|left; exists src; auto].
    set (sd := with_tasks (delete n) s).
    destruct (segment t0 b sd) as [s1 c] eqn:Hseg.
    assert (Hdone : (forall t', c <> Suspended t') ->
              (exists src', sources (resume t0 b sd) !! id = Some src' /\ disposed src' = false)
              \/ exists n' cancelledFirst t s1' c',
                   Settle n b = Settle n' cancelledFirst
                   /\ tasks s !! n' = Some t
                   /\ taskOperation t = Some id
                   /\ segment t cancelledFirst (with_tasks (delete n') s) = (s1', c')
                   /\ (forall t', c' <> Suspended t')).
    { intros Hc.
      destruct (completing_segment_frame t0 b sd s1 c Hseg Hc) as (Hsrc & _).
      destruct (taskOperation t0) as [op|] eqn:Hop.
      - destruct (decide (op = id)) as [->|Hne].
        + right. exists n, b, t0, s1, c. auto.
        + left. exists src. unfold resume. rewrite Hseg, Hop.
          assert (Hs' : sources (complete (Some op) (s1, c))
                        = alter disposeSource op (sources s)).
          { destruct c as [t'| |]; [exfalso; eapply Hc; reflexivity| |]; simpl;
              rewrite finallyBlock_sources, Hsrc; reflexivity. }
          rewrite Hs', lookup_alter_ne by exact Hne. auto.
      - left. exists src. unfold resume. rewrite Hseg, Hop.
        destruct c as [t'| |]; [exfalso; eapply Hc; reflexivity| |]; simpl;
          rewrite Hsrc; auto. }
    destruct c as [t'| |]; [|apply Hdone; discriminate..].
    left. unfold resume. rewrite Hseg. simpl.
    pose proof (segment_sources t0 b sd) as Hm. rewrite Hseg in Hm. simpl in Hm.
    destruct Hm as [-> | ->]; [exists src; auto|apply (lookup_fmap_disposed _ id src); auto].
  - left. simpl. destruct (_dropProgressManager (controller s)) as [[? op]|];
      [|exists src; auto].
    simpl. apply (lookup_alter_disposed _ _ _ id src); auto.
  - left. simpl. apply (lookup_fmap_disposed _ id src); auto.
  - left. simpl. apply (lookup_fmap_disposed _ id src); auto.
  - left. exists src. auto.
  - left. simpl. destruct (_postDropWidgetManager (controller s)) as [w|];
      [|exists src; auto].
    destruct (j =? activeEditIndex w); [exists src; auto|].
    unfold selectEdit. simpl. unfold model_undo.
    destruct (undoStack (document s)); [exists src; auto|].
    simpl. apply (lookup_fmap_disposed _ id src); auto.
Qed.

(** C1 (the [finally] block always runs): take any state the controller
    reaches.  A drop that is accepted starts an operation with a token
    source that listens and a pending body.  For every operation whose token
    source has not been disposed of, the body is still running; and after
    any event, either it is still running and its token source is still not
    disposed of, or the event has let the body stop, by returning (normally
    or because it found itself cancelled) or by an error, and then the
    [finally] block has run on the state the body left.  It has disposed of
    the operation's token source and of no other; if the current-operation
    slot held this operation's id, the slot and the progress indicator are
    cleared; if it did not, because there was no current operation or a
    newer one, the slot, the progress indicator, the id pool and every other
    operation's token source are exactly as before. *)
Theorem finalization_always_runs :
  forall events e s0,
    pristine s0 ->
    (forall id src, sources s0 !! id = Some src -> disposed src = true) ->
    exactIds s0 ->
    let s := run events s0 in
    let s' := step e s in
    exactIds s' ->
    (forall position dragEvent,
        e = DropIntoEditor position dragEvent ->
        is_Some (dataTransfer dragEvent) ->
        is_Some (editorModel (editor s)) ->
        sources s' !! operationIdPool (controller s) = Some (mkSource false false false)
        /\ exists t, t ∈ tasks s' /\ taskOperation t = Some (operationIdPool (controller s)))
    /\ (forall operationId src,
          sources s !! operationId = Some src ->
          disposed src = false ->
          (exists t, t ∈ tasks s /\ taskOperation t = Some operationId)
          /\ (((exists t', t' ∈ tasks s' /\ taskOperation t' = Some operationId)
               /\ exists src', sources s' !! operationId = Some src' /\ disposed src' = false)
              \/ exists n cancelledFirst t s1 c,
                   e = Settle n cancelledFirst
                   /\ tasks s !! n = Some t
                   /\ taskOperation t = Some operationId
                   /\ segment t cancelledFirst (with_tasks (delete n) s) = (s1, c)
                   /\ (c = Returned \/ c = Thrown)
                   /\ s' = finallyBlock operationId s1
                   /\ sources s' !! operationId = Some (disposeSource src)
                   /\ (forall other, other <> operationId ->
                                     sources s' !! other = sources s !! other)
                   /\ (_currentOperation (controller s) = Some operationId ->
                         _currentOperation (controller s') = None
                         /\ _dropProgressManager (controller s') = None)
                   /\ (_currentOperation (controller s) <> Some operationId ->
                         _currentOperation (controller s') = _currentOperation (controller s)
                         /\ _dropProgressManager (controller s')
                            = _dropProgressManager (controller s))
                   /\ operationIdPool (controller s') = operationIdPool (controller s))).
Proof.
  intros events e s0 P Hs0 _ s s' _.
  destruct (pristine_reachable events s0 P) as [G C]. fold s in G, C.
  assert (Ho : sourcesOwned s).
  { apply run_sourcesOwned. intros id src Hl Hd. rewrite (Hs0 id src Hl) in Hd. discriminate. }
  split.
  - intros position dragEvent -> Hd Hm. subst s'. simpl.
    rewrite (drop_accepted_sources position dragEvent s Hd Hm), lookup_insert_eq.
    split; [reflexivity|].
    destruct (drop_allocates_operation position dragEvent s Hd Hm) as (_ & _ & _ & Ht).
    eexists. split; [rewrite Ht; apply elem_of_app; right; apply list_elem_of_singleton;
                     reflexivity|reflexivity].
  - intros operationId src Hl Hd. split; [exact (Ho operationId src Hl Hd)|].
    destruct (step_live e s operationId src G C Ho Hl Hd)
      as [(src' & Hl' & Hd')|(n & b & t & s1 & c & -> & Hn & Hop & Hseg & Hc)].
    + left. split; [exact (step_sourcesOwned e s Ho operationId src' Hl' Hd')|].
      exists src'. auto.
    + right. exists n, b, t, s1, c.
      assert (Hs' : s' = resume t b (with_tasks (delete n) s)).
      { subst s'. simpl. rewrite Hn. reflexivity. }
      destruct (finallyBlock_after_completion t b (with_tasks (delete n) s) operationId s1 c
                  Hop Hseg Hc) as (Hf & Hsrc & _ & Hoth & Hcur & Hncur & Hpool).
      rewrite <- Hs' in Hf, Hsrc, Hoth, Hcur, Hncur, Hpool. simpl in Hsrc.
      split; [reflexivity|]. split; [exact Hn|]. split; [exact Hop|]. split; [exact Hseg|].
      split; [destruct c as [t'| |]; [exfalso; eapply Hc; reflexivity|auto..]|].
      split; [exact Hf|].
      split; [rewrite Hsrc, lookup_alter_eq, Hl; reflexivity|].
      split; [exact Hoth|]. split; [exact Hcur|]. split; [exact Hncur|exact Hpool].
Qed.

(** ** Picking another edit in a run *)







End Bookkeeping.

(** * The properties on the demo host *)

#[local] Existing Instance Demo.demoHost.

Import Demo.

(** Two overlapping drops: when the providers of the first have answered,
    its body finds the operation cancelled and returns.  Its [finally] block
    disposes of its token source and leaves the slot, the progress indicator
    and the token source of the second operation as they are. *)
Lemma finalization_of_superseded_operation :
  pristine idle
  /\ sources (run [DropIntoEditor here textDrop; Settle 0 false;
                   DropIntoEditor here textDrop] idle) !! 0
     = Some (mkSource true true false)
  /\ _currentOperation
       (controller (run [DropIntoEditor here textDrop; Settle 0 false;
                         DropIntoEditor here textDrop] idle)) = Some 1
  /\ sources (step (Settle 0 false)
                (run [DropIntoEditor here textDrop; Settle 0 false;
                      DropIntoEditor here textDrop] idle)) !! 0
     = Some (mkSource true true true)
  /\ sources (step (Settle 0 false)
                (run [DropIntoEditor here textDrop; Settle 0 false;
                      DropIntoEditor here textDrop] idle)) !! 1
     = sources (run [DropIntoEditor here textDrop; Settle 0 false;
                     DropIntoEditor here textDrop] idle) !! 1
  /\ _currentOperation
       (controller (step (Settle 0 false)
                      (run [DropIntoEditor here textDrop; Settle 0 false;
                            DropIntoEditor here textDrop] idle)))
     = _currentOperation
         (controller (run [DropIntoEditor here textDrop; Settle 0 false;
                           DropIntoEditor here textDrop] idle))
  /\ _dropProgressManager
       (controller (step (Settle 0 false)
                      (run [DropIntoEditor here textDrop; Settle 0 false;
                            DropIntoEditor here textDrop] idle)))
     = _dropProgressManager
         (controller (run [DropIntoEditor here textDrop; Settle 0 false;
                           DropIntoEditor here textDrop] idle)).
Proof.
  assert (Hp : pristine idle) by (repeat split; reflexivity).
  assert (Hs0 : forall id src, sources idle !! id = Some src -> disposed src = true).
  { intros id src H. destruct (lookup_empty_Some (M := gmap Z) id src H). }
  assert (Hx0 : exactIds idle) by (vm_compute; split; discriminate).
  assert (Hx : exactIds (step (Settle 0 false)
                           (run [DropIntoEditor here textDrop; Settle 0 false;
                                 DropIntoEditor here textDrop] idle)))
    by (vm_compute; split; discriminate).
  assert (Hl : sources (run [DropIntoEditor here textDrop; Settle 0 false;
                             DropIntoEditor here textDrop] idle) !! 0
               = Some (mkSource true true false)) by (vm_compute; reflexivity).
  assert (Hl' : sources (step (Settle 0 false)
                           (run [DropIntoEditor here textDrop; Settle 0 false;
                                 DropIntoEditor here textDrop] idle)) !! 0
                = Some (mkSource true true true)) by (vm_compute; reflexivity).
  assert (Hc : _currentOperation
                 (controller (run [DropIntoEditor here textDrop; Settle 0 false;
                                   DropIntoEditor here textDrop] idle)) = Some 1)
    by (vm_compute; reflexivity).
  destruct (@finalization_always_runs demoHost
              [DropIntoEditor here textDrop; Settle 0 false; DropIntoEditor here textDrop]
              (Settle 0 false) idle Hp Hs0 Hx0 Hx) as [_ Hfin].
  destruct (Hfin 0 (mkSource true true false) Hl eq_refl)
    as [_ [[_ (src' & Hsrc' & Hd')]
          |(n & b & t & s1 & c & _ & _ & _ & _ & _ & _ & _ & Hoth & _ & Hncur & _)]].
  - rewrite Hl' in Hsrc'. injection Hsrc' as <-. discriminate Hd'.
  - split; [exact Hp|]. split; [exact Hl|]. split; [exact Hc|]. split; [exact Hl'|].
    split; [apply Hoth; discriminate|].
    apply Hncur. rewrite Hc. discriminate.
Defined.

(** Of the four registered providers, the one for images is not asked and
    the one that answers [null] contributes nothing. *)
Lemma fan_out_of_text_drop :
  dt_size payload <> 0%nat
  /\ exists s1 results,
       resumeExtract 0 here payload fetching
       = (s1, Suspended (AwaitProviders 0 here results))
       /\ effects s1 = [ProviderInvoked P2 0; ProviderInvoked P4 0; ProviderInvoked P1 0]
       /\ forall s2, isCancellationRequested 0 s2 = false ->
            resumeProviders 0 here results false s2
            = applyDropResult (Some 0) here 0 [plain; link] 0 s2.
Proof.
  assert (Hsize : dt_size payload <> 0%nat) by (vm_compute; discriminate).
  assert (K1 : keepProvider payload P1 = true) by (vm_compute; reflexivity).
  assert (K3 : keepProvider payload P3 = false) by (vm_compute; reflexivity).
  assert (K4 : keepProvider payload P4 = true) by (vm_compute; reflexivity).
  split; [exact Hsize|].
  destruct (@fan_out_candidates demoHost 0 here payload fetching file Hsize eq_refl eq_refl)
    as (s1 & results & es & Hseg & Heff & _ & Huniq & Happly).
  { change (registry fetching file) with [P1; P3; P4; P2]. intros p Hp _.
    repeat (apply elem_of_cons in Hp as [->|Hp]); try discriminate.
    inversion Hp. }
  change (registry fetching file) with [P1; P3; P4; P2] in *.
  assert (Hes : [plain; link] = es).
  { apply Huniq.
    apply candidates_edit; [apply keepProvider_spec; exact K1|reflexivity|].
    apply candidates_filtered; [intros H; apply keepProvider_spec in H; congruence|].
    apply candidates_null; [apply keepProvider_spec; exact K4|reflexivity|].
    apply candidates_edit; [exact I|reflexivity|]. constructor. }
  exists s1, results. split; [exact Hseg|].
  split; [|rewrite Hes; exact Happly].
  rewrite Heff. cbn [List.filter]. rewrite K1, K3, K4. reflexivity.
Defined.

(** A second drop arrives while the providers of the first are still
    running: whatever settles afterwards, nothing is ever applied for the
    first operation, and its continuation leaves the document alone. *)
Lemma superseded_operation_applies_nothing :
  initial idle
  /\ isCancellationRequested 0 droppedAgain = true
  /\ (forall e,
        e ∈ effects (run [Settle 0 false; Settle 0 false; Settle 0 false; Settle 0 false]
                       (run [DropIntoEditor here textDrop; Settle 0 false;
                             DropIntoEditor here textDrop] idle)) ->
        effectToken e <> Some (taskToken firstTask))
  /\ content (document (step (Settle 0 false)
                          (run [] (run [DropIntoEditor here textDrop; Settle 0 false;
                                        DropIntoEditor here textDrop] idle))))
     = "abc"%string.
Proof.
  assert (Hin : firstTask ∈ tasks (run [DropIntoEditor here textDrop; Settle 0 false;
                                        DropIntoEditor here textDrop] idle)).
  { apply list_elem_of_lookup_2 with (i := 0%nat). vm_compute. reflexivity. }
  assert (Hc : isCancellationRequested (taskToken firstTask)
                 (run [DropIntoEditor here textDrop; Settle 0 false;
                       DropIntoEditor here textDrop] idle) = true).
  { vm_compute. reflexivity. }
  assert (Hi : initial idle) by (repeat split; reflexivity).
  split; [exact Hi|]. split; [vm_compute; reflexivity|]. split.
  - exact (proj1 (@cancelled_before_apply_applies_nothing demoHost
             [DropIntoEditor here textDrop; Settle 0 false; DropIntoEditor here textDrop]
             [Settle 0 false; Settle 0 false; Settle 0 false; Settle 0 false]
             idle firstTask Hi Hin eq_refl Hc)).
  - destruct (@cancelled_before_apply_applies_nothing demoHost
             [DropIntoEditor here textDrop; Settle 0 false; DropIntoEditor here textDrop] []
             idle firstTask Hi Hin eq_refl Hc)
      as (_ & _ & _ & H).
    destruct (H 0%nat false firstTask) as (_ & _ & Hd & _).
    + vm_compute. reflexivity.
    + reflexivity.
    + rewrite Hd. vm_compute. reflexivity.
Defined.



(** The link candidate brings a file edit along; it follows the insertion. *)
Lemma combined_edit_of_link :
  exists combined,
    effects (applyDropResult None here 1 candidates 7 idle).1
    = BulkEditRequested combined 7 :: effects idle
    /\ edits combined
       = [ResourceTextEdit file
            (mkTextEdit (mkRange 3 7 3 7) "[${1:title}](path)" (Some true));
          ResourceFileEdit None (Some "file:///copy.png"%string)].
Proof.
  exact (@combined_edit_is_primary_then_additional demoHost None here 1 candidates 7 idle
           file link eq_refl eq_refl).
Defined.

(** A drop on the editor without a model, while operation 4 is current. *)
Lemma drop_on_closed_editor :
  editorModel (editor closed) = None
  /\ onDropIntoEditor here textDrop closed = closed
  /\ sources (onDropIntoEditor here textDrop closed) !! 4 = Some (mkSource false false false)
  /\ _dropProgressManager (controller (onDropIntoEditor here textDrop closed)) = Some (here, 4)
  /\ operationIdPool (controller (onDropIntoEditor here textDrop closed)) = 5
  /\ _currentOperation (controller (onDropIntoEditor here textDrop closed)) = Some 4.
Proof.
  destruct (@drop_turned_away_is_noop demoHost here textDrop closed (or_introl eq_refl))
    as (H & Hs & Hp & Hi & Hc & _).
  split; [reflexivity|]. split; [exact H|].
  split; [rewrite Hs; reflexivity|]. split; [rewrite Hp; reflexivity|].
  split; [rewrite Hi; reflexivity|rewrite Hc; reflexivity].
Defined.

(** A drop without [dataTransfer] on an editor that has a model, while
    operation 0 is running: it is turned away by the same guard, and
    operation 0 is not cancelled, its progress indicator stays, no id is
    allocated and no task is started.  The case is not unlike the one of the
    editor without a model. *)
Lemma drop_without_data_is_turned_away_too :
  dataTransfer noData = None
  /\ editorModel (editor dropped) = Some file
  /\ onDropIntoEditor here noData dropped = dropped
  /\ isCancellationRequested 0 (onDropIntoEditor here noData dropped) = false
  /\ _dropProgressManager (controller (onDropIntoEditor here noData dropped)) = Some (here, 0)
  /\ operationIdPool (controller (onDropIntoEditor here noData dropped)) = 1
  /\ _currentOperation (controller (onDropIntoEditor here noData dropped)) = Some 0
  /\ List.length (tasks (onDropIntoEditor here noData dropped)) = 1%nat.
Proof. repeat split; reflexivity. Qed.

(** The same drop with data is taken up. *)
Example drop_on_open_editor :
  _currentOperation (controller dropped) = Some 0
  /\ operationIdPool (controller dropped) = 1
  /\ _currentOperation (controller (onDropIntoEditor here textDrop dropped)) = Some 1
  /\ isCancellationRequested 0 (onDropIntoEditor here textDrop dropped) = true.
Proof. repeat split; reflexivity. Qed.

(** A whole drop: extraction, fan-out, apply, widget. *)
Example one_drop_runs_to_the_widget :
  let s := run [DropIntoEditor here textDrop; Settle 0 false; Settle 0 false; Settle 0 false]
             idle in
  content (document s) = "abccost: \$1 {\}"%string
  /\ _postDropWidgetManager (controller s) = Some picker
  /\ _currentOperation (controller s) = None
  /\ _dropProgressManager (controller s) = None
  /\ tasks s = [].
Proof. vm_compute. repeat split; reflexivity. Qed.

(** A drop whose drag event has a [dataTransfer] without entries passes the
    guard and returns at line 82. *)
Example empty_drop_short_circuits :
  let s := run [DropIntoEditor here emptyDrop; Settle 0 false] idle in
  effects s = [] /\ content (document s) = "abc"%string /\ tasks s = []
  /\ operationIdPool (controller s) = 1.
Proof. vm_compute. repeat split; reflexivity. Qed.

(** ** The further properties on the demo host *)

(** The first operation of two overlapping drops is no longer the current
    one: its token has fired, and nothing is applied for it. *)
Lemma superseded_first_operation :
  pristine idle
  /\ _currentOperation
       (controller (run [DropIntoEditor here textDrop; Settle 0 false;
                         DropIntoEditor here textDrop] idle)) = Some 1
  /\ isCancellationRequested 0
       (run [DropIntoEditor here textDrop; Settle 0 false; DropIntoEditor here textDrop] idle)
     = true
  /\ (forall e,
        e ∈ effects (run [Settle 0 false; Settle 0 false; Settle 0 false]
                       (run [DropIntoEditor here textDrop; Settle 0 false;
                             DropIntoEditor here textDrop] idle)) ->
        effectToken e <> Some (taskToken firstTask)).
Proof.
  assert (Hp : pristine idle) by (repeat split; reflexivity).
  assert (Hin : firstTask ∈ tasks (run [DropIntoEditor here textDrop; Settle 0 false;
                                        DropIntoEditor here textDrop] idle)).
  { apply list_elem_of_lookup_2 with (i := 0%nat). vm_compute. reflexivity. }
  assert (Hc : _currentOperation
                 (controller (run [DropIntoEditor here textDrop; Settle 0 false;
                                   DropIntoEditor here textDrop] idle)) = Some 1).
  { vm_compute. reflexivity. }
  split; [exact Hp|]. split; [exact Hc|].
  apply (@superseded_operation_never_applies demoHost
           [DropIntoEditor here textDrop; Settle 0 false; DropIntoEditor here textDrop]
           [Settle 0 false; Settle 0 false; Settle 0 false] idle firstTask Hp Hin eq_refl).
  rewrite Hc. discriminate.
Defined.

(** A second drop while the providers of the first are running. *)
Lemma second_drop_takes_over :
  _currentOperation (controller (step (DropIntoEditor here textDrop)
                                   (run [DropIntoEditor here textDrop; Settle 0 false] idle)))
  = Some (operationIdPool (controller (run [DropIntoEditor here textDrop; Settle 0 false] idle)))
  /\ operationIdPool (controller (run [DropIntoEditor here textDrop; Settle 0 false] idle)) = 1
  /\ firstTask ∈ tasks (step (DropIntoEditor here textDrop)
                          (run [DropIntoEditor here textDrop; Settle 0 false] idle))
  /\ isCancellationRequested (taskToken firstTask)
       (step (DropIntoEditor here textDrop)
          (run [DropIntoEditor here textDrop; Settle 0 false] idle)) = true.
Proof.
  assert (Hp : pristine idle) by (repeat split; reflexivity).
  assert (Hm : is_Some (editorModel
                          (editor (run [DropIntoEditor here textDrop; Settle 0 false] idle)))).
  { exists file. vm_compute. reflexivity. }
  assert (Hin : firstTask ∈ tasks (run [DropIntoEditor here textDrop; Settle 0 false] idle)).
  { apply list_elem_of_lookup_2 with (i := 0%nat). vm_compute. reflexivity. }
  destruct (@accepted_drop_supersedes_pending demoHost
              [DropIntoEditor here textDrop; Settle 0 false] here textDrop idle Hp
              (ex_intro _ _ eq_refl) Hm) as (Hc & _ & _ & _ & Ht).
  split; [exact Hc|]. split; [vm_compute; reflexivity|].
  exact (Ht firstTask Hin eq_refl).
Defined.

(** After one drop the indicator and the slot name operation 0, which is
    waiting for its payload. *)
Lemma progress_of_first_drop :
  _dropProgressManager (controller (run [DropIntoEditor here textDrop] idle)) = Some (here, 0)
  /\ _currentOperation (controller (run [DropIntoEditor here textDrop] idle)) = Some 0
  /\ 0 < operationIdPool (controller (run [DropIntoEditor here textDrop] idle))
  /\ exists t, t ∈ tasks (run [DropIntoEditor here textDrop] idle)
               /\ taskOperation t = Some 0 /\ taskToken t = 0.
Proof.
  assert (Hp : pristine idle) by (repeat split; reflexivity).
  assert (Hd : _dropProgressManager (controller (run [DropIntoEditor here textDrop] idle))
               = Some (here, 0)) by (vm_compute; reflexivity).
  destruct (@progress_shown_for_running_current_operation demoHost
              [DropIntoEditor here textDrop] idle Hp) as [Hprog Hcur].
  pose proof (Hprog here 0 Hd) as Hc.
  destruct (Hcur 0 Hc) as (_ & Hlt & Ht).
  split; [exact Hd|]. split; [exact Hc|]. split; [exact Hlt|exact Ht].
Defined.

(** The user clicks the cancel action while the payload is being extracted. *)
Lemma cancel_click_during_extraction :
  isCancellationRequested 0 (step ClickCancel (run [DropIntoEditor here textDrop] idle)) = true
  /\ (forall e,
        e ∈ effects (run [Settle 0 false; Settle 0 false]
                       (step ClickCancel (run [DropIntoEditor here textDrop] idle))) ->
        effectToken e <> Some 0).
Proof.
  assert (Hp : pristine idle) by (repeat split; reflexivity).
  assert (Hin : AwaitExtract 0 here payload ∈ tasks (run [DropIntoEditor here textDrop] idle)).
  { apply list_elem_of_lookup_2 with (i := 0%nat). reflexivity. }
  assert (Hc : _currentOperation (controller (run [DropIntoEditor here textDrop] idle))
               = Some (taskToken (AwaitExtract 0 here payload))).
  { vm_compute. reflexivity. }
  exact (@cancel_click_stops_current_operation demoHost [DropIntoEditor here textDrop]
           [Settle 0 false; Settle 0 false] idle (AwaitExtract 0 here payload)
           Hp Hin eq_refl Hc).
Defined.

(** The providers of the only operation have answered: the first candidate
    is applied, with a token that has not fired. *)
Lemma first_candidate_is_applied :
  isParentCancellationRequested 0 (run [DropIntoEditor here textDrop; Settle 0 false] idle)
  = false
  /\ effects (step (Settle 0 false) (run [DropIntoEditor here textDrop; Settle 0 false] idle))
     = BulkEditRequested (combinedWorkspaceEdit file here plain) 0
       :: effects (run [DropIntoEditor here textDrop; Settle 0 false] idle)
  /\ content (document (step (Settle 0 false)
                          (run [DropIntoEditor here textDrop; Settle 0 false] idle)))
     = "abccost: \$1 {\}"%string.
Proof.
  assert (Hp : pristine idle) by (repeat split; reflexivity).
  assert (Ht : tasks (run [DropIntoEditor here textDrop; Settle 0 false] idle) !! 0%nat
               = Some firstTask) by (vm_compute; reflexivity).
  assert (Hc : isCancellationRequested 0
                 (run [DropIntoEditor here textDrop; Settle 0 false] idle) = false)
    by (vm_compute; reflexivity).
  assert (Hm : editorModel (editor (run [DropIntoEditor here textDrop; Settle 0 false] idle))
               = Some file) by (vm_compute; reflexivity).
  destruct (@pipeline_applies_first_candidate_with_live_token demoHost
              [DropIntoEditor here textDrop; Settle 0 false] 0%nat idle 0 here
              [Resolved (Some plain); Resolved None; Resolved (Some link)]
              [Some plain; None; Some link] file plain Hp Ht eq_refl Hc Hm eq_refl)
    as (Hpar & Heff & Hdoc).
  split; [exact Hpar|]. split; [exact Heff|].
  rewrite Hdoc. vm_compute. reflexivity.
Defined.

(** One provider fails while another has an edit to offer. *)
Lemma one_provider_fails :
  segment (AwaitProviders 0 here [Resolved (Some plain); Rejected]) false fetching
  = (fetching, Thrown)
  /\ effects (resume (AwaitProviders 0 here [Resolved (Some plain); Rejected]) false fetching)
     = []
  /\ content (document (resume (AwaitProviders 0 here [Resolved (Some plain); Rejected])
                          false fetching))
     = "abc"%string.
Proof.
  destruct (@rejected_provider_discards_all_candidates demoHost 0 here
              [Resolved (Some plain); Rejected] false fetching
              ltac:(right; left))
    as (Hseg & _ & Heff & Hdoc & _).
  split; [exact Hseg|]. split; [rewrite Heff; reflexivity|rewrite Hdoc; reflexivity].
Defined.

(** An index past the end of the list, and providers that all answer
    [null]. *)
Lemma nothing_to_apply :
  applyDropResult (Some 0) here 2 candidates 0 idle = (idle, Returned)
  /\ segment (AwaitProviders 0 here [Resolved None; Resolved None]) false fetching
     = (fetching, Returned)
  /\ effects (resume (AwaitProviders 0 here [Resolved None; Resolved None]) false fetching)
     = [].
Proof.
  destruct (@apply_without_candidate_is_noop demoHost) as [Habandon Hnull].
  split.
  - apply Habandon. right. left. simpl. lia.
  - destruct (Hnull 0 here [Resolved None; Resolved None] [None; None] false fetching
                eq_refl eq_refl) as (Hseg & _ & Heff & _).
    split; [exact Hseg|rewrite Heff; reflexivity].
Defined.

(** The widget is asked for a sixth candidate where there are two. *)
Lemma picking_a_missing_candidate :
  _postDropWidgetManager (controller shown.1) = Some picker
  /\ effects (run [SelectEdit 5; Settle 0 false] shown.1)
     = UndoRequested 0 :: effects shown.1
  /\ content (document (run [SelectEdit 5; Settle 0 false] shown.1)) = "abc"%string
  /\ tasks (run [SelectEdit 5; Settle 0 false] shown.1) = [].
Proof.
  destruct (@reselect_without_candidate_only_undoes demoHost 5 false shown.1 picker
              eq_refl ltac:(discriminate) (or_introl eq_refl))
    as (Heff & Hc & _ & Ht).
  split; [reflexivity|]. split; [exact Heff|].
  split; [etransitivity; [exact Hc|reflexivity]|exact Ht].
Defined.

(** The id of the second drop is new, and stays below the pool. *)
Lemma second_operation_gets_a_new_id :
  initial idle
  /\ operationIdPool (controller (run [DropIntoEditor here textDrop] idle)) = 1
  /\ (forall t, t ∈ tasks (run [DropIntoEditor here textDrop] idle) -> taskToken t <> 1)
  /\ _currentOperation
       (controller (step (DropIntoEditor here textDrop)
                      (run [DropIntoEditor here textDrop] idle))) = Some 1
  /\ 1 < operationIdPool
           (controller (run [Settle 0 false; Settle 0 false]
                          (step (DropIntoEditor here textDrop)
                             (run [DropIntoEditor here textDrop] idle)))).
Proof.
  assert (Hi : initial idle) by (repeat split; reflexivity).
  assert (Hx0 : exactIds idle) by (vm_compute; split; discriminate).
  assert (Hx : exactIds (run [Settle 0 false; Settle 0 false]
                           (step (DropIntoEditor here textDrop)
                              (run [DropIntoEditor here textDrop] idle))))
    by (vm_compute; split; discriminate).
  destruct (@operation_ids_are_not_reused demoHost [DropIntoEditor here textDrop]
              [Settle 0 false; Settle 0 false] here textDrop idle Hi Hx0
              (ex_intro _ _ eq_refl) (ex_intro _ file eq_refl) Hx)
    as (Ht & _ & _ & Hc & Hlt & _).
  split; [exact Hi|]. split; [reflexivity|].
  split; [exact Ht|]. split; [exact Hc|exact (proj2 Hlt)].
Defined.

(** The widget of a whole drop offers the two candidates and marks the
    first. *)
Lemma widget_of_one_drop :
  initial idle
  /\ _postDropWidgetManager
       (controller (run [DropIntoEditor here textDrop; Settle 0 false; Settle 0 false;
                         Settle 0 false] idle)) = Some picker
  /\ validWidget picker.
Proof.
  assert (Hi : initial idle) by (repeat split; reflexivity).
  assert (Hw : _postDropWidgetManager
                 (controller (run [DropIntoEditor here textDrop; Settle 0 false;
                                   Settle 0 false; Settle 0 false] idle)) = Some picker)
    by (vm_compute; reflexivity).
  destruct (@widget_marks_an_existing_edit demoHost
              [DropIntoEditor here textDrop; Settle 0 false; Settle 0 false; Settle 0 false]
              idle Hi) as [Hvalid _].
  split; [exact Hi|]. split; [exact Hw|exact (Hvalid picker Hw)].
Defined.

(** The first apply step adds decoration 0, which was free; its
    continuation removes it. *)
Lemma decoration_of_first_apply :
  decorations (document idle) !! 0%nat = None
  /\ decorationIdPool (document idle) = 0%nat
  /\ decorationIdPool (document firstApply.1) = 1%nat
  /\ decorations (document firstApply.1) !! 0%nat = Some (mkRange 3 7 3 7)
  /\ decorations
       (document (resume (AwaitApply (Some 0) file here 0 candidates 0 0%nat (Some true))
                    false firstApply.1)) !! 0%nat = None.
Proof.
  assert (Hfree : decorations (document idle) !! decorationIdPool (document idle) = None)
    by reflexivity.
  destruct (@tracking_decoration_is_temporary demoHost (Some 0) here 0 candidates 0 idle
              firstApply.1 (AwaitApply (Some 0) file here 0 candidates 0 0%nat (Some true))
              Hfree eq_refl)
    as (model & edit & dec & editResult & _ & Ht & Hdec & _ & Hpool & _ & Hres & _).
  injection Ht as <- -> <-. subst dec.
  split; [reflexivity|]. split; [reflexivity|]. split; [exact Hpool|].
  split; [reflexivity|].
  exact (proj1 (Hres false firstApply.1)).
Defined.

(** When a whole drop has run, its token source is disposed of. *)
Lemma token_source_of_finished_drop :
  pristine idle
  /\ tasks (run [DropIntoEditor here textDrop; Settle 0 false; Settle 0 false;
                 Settle 0 false] idle) = []
  /\ _currentOperation
       (controller (run [DropIntoEditor here textDrop; Settle 0 false; Settle 0 false;
                         Settle 0 false] idle)) = None
  /\ sources (run [DropIntoEditor here textDrop; Settle 0 false; Settle 0 false;
                   Settle 0 false] idle) !! 0
     = Some (mkSource false true true)
  /\ disposed (mkSource false true true) = true.
Proof.
  assert (Hp : pristine idle) by (repeat split; reflexivity).
  assert (Ht : tasks (run [DropIntoEditor here textDrop; Settle 0 false; Settle 0 false;
                           Settle 0 false] idle) = []) by (vm_compute; reflexivity).
  assert (Hs : sources (run [DropIntoEditor here textDrop; Settle 0 false; Settle 0 false;
                             Settle 0 false] idle) !! 0
               = Some (mkSource false true true)) by (vm_compute; reflexivity).
  destruct (@idle_controller_holds_no_live_token_source demoHost
              [DropIntoEditor here textDrop; Settle 0 false; Settle 0 false; Settle 0 false]
              idle Hp) as [_ Hidle].
  { intros id src H. destruct (lookup_empty_Some (M := gmap Z) id src H). }
  destruct (Hidle Ht) as (Hc & _ & Hd).
  split; [exact Hp|]. split; [exact Ht|]. split; [exact Hc|].
  split; [exact Hs|exact (Hd 0 _ Hs)].
Defined.
